(** * ShowAllFiles: the event-coordination core

    A shallow embedding of [internal/state/state.go], [internal/app/lib.go]
    and the start-up part of [internal/app/app.go], together with the
    properties of the status toggle, the shared state store, the window
    identity test and the two watchers.

    Conventions.
    - Go's unsigned integers ([uint64], [uint32], [uintptr] handles, window
      handles, thread ids) are [Z]; the one narrowing conversion of the
      program, [uint32(newValue)], is written out as a remainder.
    - The operating system is part of the state: what the registry holds,
      which handles are open, which windows exist and what each system call
      answers are fields of [World]; a system call reads its answer there.
    - A [go] statement puts a goroutine in the pool of the world; the
      goroutine runs later, one step (up to its next blocking call) at a
      time, when a schedule picks it. *)

From Stdlib Require Import ZArith NArith Ascii String List Bool Lia.
From stdpp Require Import base option list gmap strings pretty.

Local Open Scope string_scope.
Local Open Scope list_scope.
Local Open Scope Z_scope.

(** ** Package [state]: the shared key/value store *)

Module state.

(** The types that the program stores under a key or asks for, and the
    empty interface [any]: the type of the values of the map, and an
    interface type like every other as the requested type [T]. *)
Inductive GoType : Type :=
| TUint64      (* uint64: the visibility status *)
| TUint32      (* uint32: the thread id of the message loop *)
| THandle      (* windows.Handle: the event hook *)
| TBool        (* bool: "is this message box open" *)
| TString      (* string: the log file *)
| TMenuItem    (* *systray.MenuItem: the toggle entry of the tray menu *)
| TAny.        (* any: the empty interface *)

#[global] Instance GoType_eq_dec : EqDecision GoType.
Proof. solve_decision. Defined.

(** A value of type [any]: [nil], or a value with its dynamic type. *)
Inductive any : Type :=
| VNil
| VUint64 (v : Z)
| VUint32 (v : Z)
| VHandle (v : Z)
| VBool (v : bool)
| VString (v : string)
| VMenuItem (v : Z).

(** The values of a type. A [*systray.MenuItem] is the address of the
    item; its [nil] is [0]. *)
Definition denote (T : GoType) : Type :=
  match T with
  | TUint64 | TUint32 | THandle | TMenuItem => Z
  | TBool => bool
  | TString => string
  | TAny => any
  end.

(** The zero value of a type ([var zero T]). *)
Definition zero (T : GoType) : denote T :=
  match T with
  | TUint64 | TUint32 | THandle | TMenuItem => 0
  | TBool => false
  | TString => ""
  | TAny => VNil
  end.

Definition is_interface (T : GoType) : bool :=
  match T with
  | TAny => true
  | _ => false
  end.

(** [v == nil] for a value of type [any]. *)
Definition is_nil (v : any) : bool :=
  match v with
  | VNil => true
  | _ => false
  end.

(** The dynamic type of a value of type [any]; [nil] has none. *)
Definition dyn_type (v : any) : option GoType :=
  match v with
  | VNil => None
  | VUint64 _ => Some TUint64
  | VUint32 _ => Some TUint32
  | VHandle _ => Some THandle
  | VBool _ => Some TBool
  | VString _ => Some TString
  | VMenuItem _ => Some TMenuItem
  end.

(** Conversion of a [T] to [any], as in [data[key] = value]: a value of a
    concrete type gets that type as its dynamic type; a value of an
    interface type keeps the dynamic type it has, and [nil] stays [nil]. *)
Definition to_any (T : GoType) : denote T -> any :=
  match T with
  | TUint64 => VUint64
  | TUint32 => VUint32
  | THandle => VHandle
  | TBool => VBool
  | TString => VString
  | TMenuItem => VMenuItem
  | TAny => fun v => v
  end.

(** The type assertion [v.(T)] in its two-result form. For a concrete [T]
    it holds when the dynamic type of [v] is [T]; for an interface [T] it
    holds when [v] is not [nil] and its dynamic type implements [T], which
    every type does for [any]. *)
Definition assert (T : GoType) (v : any) : option (denote T) :=
  match T, v with
  | TUint64, VUint64 x => Some x
  | TUint32, VUint32 x => Some x
  | THandle, VHandle x => Some x
  | TBool, VBool x => Some x
  | TString, VString x => Some x
  | TMenuItem, VMenuItem x => Some x
  | TAny, VNil => None
  | TAny, x => Some x
  | _, _ => None
  end.

(** The package variable [data]. The read/write lock [mu] makes each of
    the four operations atomic, which is how they are modelled. *)
Abbreviation store := (gmap string any).

(** [func Get[T any](key string) (value T, ok bool)] *)
Definition Get (T : GoType) (key : string) (data : store) : denote T * bool :=
  match data !! key with
  | None => (zero T, false)
  | Some v =>
      match assert T v with
      | Some value => (value, true)
      | None => (zero T, false)
      end
  end.

(** [func Set[T any](key string, value T)] *)
Definition Set_ (T : GoType) (key : string) (value : denote T) (data : store) : store :=
  <[key := to_any T value]> data.

(** [func Delete(key string)] *)
Definition Delete (key : string) (data : store) : store :=
  delete key data.

(** [func Clear()]: [data = make(map[string]any)] *)
Definition Clear (data : store) : store := ∅.

End state.

(** ** Package [app]: what the program sees of the system *)

(** The levels of the logger, most severe first. *)
Inductive Level : Type :=
| PanicLevel | FatalLevel | ErrorLevel | WarnLevel | InfoLevel | DebugLevel.

(** A call to the logger: its level, its message or format, and the
    arguments of the format as text. *)
Record LogEntry : Type := Log {
  lvl : Level;
  message : string;
  args : list string;
}.

(** The two results of a fallible system call: the value, or the error
    (an [error] is the text that [%v] prints). *)
Inductive result (A : Type) : Type :=
| Ok (a : A)
| Err (e : string).
Arguments Ok {A} a.
Arguments Err {A} e.

(** What the registry holds under the value name [Hidden]. *)
Inductive RegData : Type :=
| DWORD (v : Z)
| QWORD (v : Z)
| REG_OTHER.     (* a value of any other type: a string, binary data ... *)

(** A top-level window, with what the system answers when asked about it. *)
Record Window : Type := {
  w_hwnd : Z;
  w_class : result string;   (* GetClassName, decoded by UTF16ToString *)
  w_pid : result Z;          (* GetWindowThreadProcessId *)
  w_open : option string;    (* OpenProcess on that process: its error, if any *)
  w_image : result string;   (* QueryFullProcessImageName, decoded *)
  w_post : option string;    (* PostMessage to the window: its error, if any *)
}.

(** A result of [GetMessage] waiting in the queue of a thread: the first
    result [r1], the error, and the foreground event (window, object id) that
    the system delivers to the hook procedure with it, if any. *)
Record Message : Type := {
  m_r1 : Z;
  m_err : option string;
  m_event : option (Z * Z);
}.

(** The answers of the system that the program cannot change: for each
    fallible call without an argument that matters, its error if it fails. *)
Record System : Type := {
  open_key_err : option string;        (* registry.OpenKey *)
  get_value_err : option string;       (* failure of GetIntegerValue whatever is stored *)
  set_value_err : option string;       (* Key.SetDWordValue *)
  reg_open_ex_err : option string;     (* windows.RegOpenKeyEx *)
  create_event_err : option string;    (* windows.CreateEvent *)
  notify_err : option string;          (* windows.RegNotifyChangeKeyValue *)
  enum_windows_err : option string;    (* windows.EnumWindows *)
  set_hook_err : option string;        (* winapi.SetWinEventHook *)
  post_thread_err : option string;     (* winapi.PostThreadMessage *)
  hotkey_err : option string;          (* hk.Register *)
  windows : list Window;               (* the top-level windows, in enumeration order *)
  env : gmap string string;            (* the package variable env *)
  app_name : string;                   (* App.Meta.Name *)
}.

(** The icons of the tray. *)
Inductive Icon : Type := icoVisible | icoHidden.

(** Calls to the tray. *)
Inductive TrayOp : Type :=
| AddMenuItem (item : Z) (title tooltip : string)
| AddSeparator
| SetTitle (item : Z) (title : string)
| SetIcon (ico : Icon)
| SetTooltip (tip : string).

(** A goroutine that is waiting to run: either started by a [go] statement
    and not yet scheduled, or blocked in a call. *)
Inductive Goroutine : Type :=
| GoWatchMessageLoop                 (* WatchMessageLoop's func, not yet started *)
| GoMessagePump (hook tid : Z)       (* the same, in its for loop *)
| GoEventRefresh (hwnd : Z)          (* winEventProc's func, in time.Sleep *)
| GoWatchRegistryKey                 (* WatchRegistryKey's func, not yet started *)
| GoRegistryWait (hKey event : Z)    (* the same, in WaitForSingleObject *)
| GoHotkey                           (* onReady's func, in <-hk.Keydown() *)
| GoMsgbox (stateLabel title text : string) (boxtype exitCode : Z).
                                     (* msgbox's func, before MessageBox *)

(** The state of the process and of the system around it. *)
Record World : Type := MkWorld {
  sys : System;
  data : gmap string state.any;        (* package state: the shared store *)
  logs : list LogEntry;                (* calls to the logger, oldest first *)
  errCh : list string;                 (* errors sent on App.ErrCh, oldest first *)
  goroutines : list Goroutine;         (* the pool *)
  exit_code : option Z;                (* set once the process has exited *)
  reg_hidden : option RegData;         (* the value Hidden of the backing key *)
  handles : list Z;                    (* open handles: keys, processes, events *)
  next_handle : positive;              (* the next handle the system gives out *)
  posted : list (Z * Z * Z * Z);       (* PostMessage: hwnd, msg, wParam, lParam *)
  hooks : list (Z * Z);                (* installed event hooks, each with its thread *)
  queues : gmap Z (list Message);      (* the message queue of each thread *)
  dialogs : list (string * string * Z);(* message boxes shown: title, text, type *)
  tray : list TrayOp;                  (* calls to the tray, oldest first *)
}.

Definition set_data (f : gmap string state.any -> gmap string state.any) (w : World) : World :=
  MkWorld (sys w) (f (data w)) (logs w) (errCh w) (goroutines w) (exit_code w)
    (reg_hidden w) (handles w) (next_handle w) (posted w) (hooks w) (queues w)
    (dialogs w) (tray w).

Definition set_logs (f : list LogEntry -> list LogEntry) (w : World) : World :=
  MkWorld (sys w) (data w) (f (logs w)) (errCh w) (goroutines w) (exit_code w)
    (reg_hidden w) (handles w) (next_handle w) (posted w) (hooks w) (queues w)
    (dialogs w) (tray w).

Definition set_errCh (f : list string -> list string) (w : World) : World :=
  MkWorld (sys w) (data w) (logs w) (f (errCh w)) (goroutines w) (exit_code w)
    (reg_hidden w) (handles w) (next_handle w) (posted w) (hooks w) (queues w)
    (dialogs w) (tray w).

Definition set_goroutines (f : list Goroutine -> list Goroutine) (w : World) : World :=
  MkWorld (sys w) (data w) (logs w) (errCh w) (f (goroutines w)) (exit_code w)
    (reg_hidden w) (handles w) (next_handle w) (posted w) (hooks w) (queues w)
    (dialogs w) (tray w).

Definition set_exit_code (c : option Z) (w : World) : World :=
  MkWorld (sys w) (data w) (logs w) (errCh w) (goroutines w) c
    (reg_hidden w) (handles w) (next_handle w) (posted w) (hooks w) (queues w)
    (dialogs w) (tray w).

Definition set_reg_hidden (v : option RegData) (w : World) : World :=
  MkWorld (sys w) (data w) (logs w) (errCh w) (goroutines w) (exit_code w)
    v (handles w) (next_handle w) (posted w) (hooks w) (queues w)
    (dialogs w) (tray w).

Definition set_handles (f : list Z -> list Z) (w : World) : World :=
  MkWorld (sys w) (data w) (logs w) (errCh w) (goroutines w) (exit_code w)
    (reg_hidden w) (f (handles w)) (next_handle w) (posted w) (hooks w) (queues w)
    (dialogs w) (tray w).

Definition set_next_handle (p : positive) (w : World) : World :=
  MkWorld (sys w) (data w) (logs w) (errCh w) (goroutines w) (exit_code w)
    (reg_hidden w) (handles w) p (posted w) (hooks w) (queues w)
    (dialogs w) (tray w).

Definition set_posted (f : list (Z * Z * Z * Z) -> list (Z * Z * Z * Z)) (w : World) : World :=
  MkWorld (sys w) (data w) (logs w) (errCh w) (goroutines w) (exit_code w)
    (reg_hidden w) (handles w) (next_handle w) (f (posted w)) (hooks w) (queues w)
    (dialogs w) (tray w).

Definition set_hooks (f : list (Z * Z) -> list (Z * Z)) (w : World) : World :=
  MkWorld (sys w) (data w) (logs w) (errCh w) (goroutines w) (exit_code w)
    (reg_hidden w) (handles w) (next_handle w) (posted w) (f (hooks w)) (queues w)
    (dialogs w) (tray w).

Definition set_queues (f : gmap Z (list Message) -> gmap Z (list Message)) (w : World) : World :=
  MkWorld (sys w) (data w) (logs w) (errCh w) (goroutines w) (exit_code w)
    (reg_hidden w) (handles w) (next_handle w) (posted w) (hooks w) (f (queues w))
    (dialogs w) (tray w).

Definition set_dialogs (f : list (string * string * Z) -> list (string * string * Z)) (w : World) : World :=
  MkWorld (sys w) (data w) (logs w) (errCh w) (goroutines w) (exit_code w)
    (reg_hidden w) (handles w) (next_handle w) (posted w) (hooks w) (queues w)
    (f (dialogs w)) (tray w).

Definition set_tray (f : list TrayOp -> list TrayOp) (w : World) : World :=
  MkWorld (sys w) (data w) (logs w) (errCh w) (goroutines w) (exit_code w)
    (reg_hidden w) (handles w) (next_handle w) (posted w) (hooks w) (queues w)
    (dialogs w) (f (tray w)).

(** What the rest of the system does to the world between two steps of the
    program: it replaces the answers of the system. *)
Definition set_sys (s : System) (w : World) : World :=
  MkWorld s (data w) (logs w) (errCh w) (goroutines w) (exit_code w)
    (reg_hidden w) (handles w) (next_handle w) (posted w) (hooks w) (queues w)
    (dialogs w) (tray w).

(** ** Code that changes the world *)

(** A piece of Go code with a result of type [A]: it takes the world and
    gives its result and the world it leaves. *)
Definition M (A : Type) : Type := World -> A * World.

Definition ret {A : Type} (a : A) : M A := fun w => (a, w).

Definition bind {A B : Type} (c : M A) (k : A -> M B) : M B :=
  fun w => let (a, w1) := c w in k a w1.

Declare Scope go_scope.
Delimit Scope go_scope with go.
Notation "'let*' x := c 'in' k" := (bind c (fun x => k))
  (at level 10, x pattern, c at level 100, k at level 200) : go_scope.
Notation "c >>> k" := (bind c (fun _ => k))
  (at level 95, right associativity) : go_scope.
Local Open Scope go_scope.

(** The world that a piece of code leaves, and its result. *)
Definition exec {A : Type} (c : M A) (w : World) : World := snd (c w).
Definition eval {A : Type} (c : M A) (w : World) : A := fst (c w).

(** A change of the world without a result. *)
Definition modify (f : World -> World) : M unit := fun w => (tt, f w).

(** Reading the world. *)
Definition gets {A : Type} (f : World -> A) : M A := fun w => (f w, w).

(** *** The logger, the error channel, the pool, the store *)

(** [log.Debug], [log.Debugf] and the like: the call is recorded. *)
Definition logf (l : Level) (msg : string) (a : list string) : M unit :=
  modify (set_logs (fun ls => ls ++ [Log l msg a])).

Definition log_Debug (msg : string) : M unit := logf DebugLevel msg [].
Definition log_Debugf (msg : string) (a : list string) : M unit := logf DebugLevel msg a.
Definition log_Info (msg : string) : M unit := logf InfoLevel msg [].
Definition log_Warnf (msg : string) (a : list string) : M unit := logf WarnLevel msg a.
Definition log_Error (msg : string) : M unit := logf ErrorLevel msg [].
Definition log_Errorf (msg : string) (a : list string) : M unit := logf ErrorLevel msg a.

(** [os.Exit(code)]: the process is gone; the first exit counts. *)
Definition os_Exit (code : Z) : M unit :=
  modify (fun w => match exit_code w with
                   | Some _ => w
                   | None => set_exit_code (Some code) w
                   end).

(** [log.Fatal] of logrus: the entry is logged at the fatal level, then the
    logger calls [os.Exit(1)] (the program leaves the logger's exit function
    as it is). *)
Definition log_Fatal (msg : string) : M unit :=
  logf FatalLevel msg [] >>> os_Exit 1.

(** Sequencing of statements of which the first may end the process: the
    second runs only if the process is still there. *)
Definition unless_exited (c k : M unit) : M unit :=
  fun w => let (_, w1) := c w in
           match exit_code w1 with
           | Some _ => (tt, w1)
           | None => k w1
           end.
Notation "c >>>! k" := (unless_exited c k)
  (at level 95, right associativity) : go_scope.

(** [errCh <- e]. The main loop of [onReady] is the one receiver; the send
    is recorded and the sender goes on. *)
Definition send (e : string) : M unit :=
  modify (set_errCh (fun q => q ++ [e])).

(** [go func() { ... }()]: the goroutine joins the pool. *)
Definition go (g : Goroutine) : M unit :=
  modify (set_goroutines (fun gs => gs ++ [g])).

Definition state_Get (T : state.GoType) (key : string) : M (state.denote T * bool) :=
  gets (fun w => state.Get T key (data w)).

Definition state_Set (T : state.GoType) (key : string) (value : state.denote T) : M unit :=
  modify (set_data (state.Set_ T key value)).

Definition state_Delete (key : string) : M unit :=
  modify (set_data (state.Delete key)).

Definition state_Clear : M unit :=
  modify (set_data state.Clear).

(** *** Handles *)

(** The system gives out a handle: never zero, and recorded as open. *)
Definition new_handle : M Z :=
  fun w => let h := Z.pos (next_handle w) in
           (h, set_handles (cons h) (set_next_handle (Pos.succ (next_handle w)) w)).

(** Removal of the first occurrence of a handle. *)
Fixpoint remove1 (h : Z) (l : list Z) : list Z :=
  match l with
  | [] => []
  | x :: l' => if x =? h then l' else x :: remove1 h l'
  end.

(** [key.Close], [windows.CloseHandle], [windows.RegCloseKey]: the handle is
    no longer open (closing a handle that is not open changes nothing; the
    program drops the error of all three). *)
Definition CloseHandle (h : Z) : M unit :=
  modify (set_handles (remove1 h)).

(** *** The registry *)

Definition regKeyPath : string :=
  "Software\Microsoft\Windows\CurrentVersion\Explorer\Advanced".

Definition statusVisible : Z := 1.
Definition statusHidden : Z := 2.

(** The conversion [uint32(v)]. *)
Definition uint32 (v : Z) : Z := v mod 2 ^ 32.

(** [registry.OpenKey(registry.CURRENT_USER, regKeyPath, SET_VALUE|QUERY_VALUE)] *)
Definition registry_OpenKey : M (result Z) :=
  let* e := gets (fun w => open_key_err (sys w)) in
  match e with
  | Some e => ret (Err e)
  | None => let* key := new_handle in ret (Ok key)
  end.

(** [key.GetIntegerValue(name)]: the value of a DWORD or QWORD; an error
    when the value is absent, of another type, or cannot be queried. The key
    of the program has the one value [Hidden]. *)
Definition Key_GetIntegerValue (key : Z) (name : string) : M (result Z) :=
  let* e := gets (fun w => get_value_err (sys w)) in
  match e with
  | Some e => ret (Err e)
  | None =>
      let* v := gets reg_hidden in
      ret (if String.eqb name "Hidden" then
             match v with
             | Some (DWORD v) => Ok v
             | Some (QWORD v) => Ok v
             | Some REG_OTHER => Err "unexpected key value type"
             | None => Err "The system cannot find the file specified."
             end
           else Err "The system cannot find the file specified.")
  end.

(** [key.SetDWordValue(name, value)] *)
Definition Key_SetDWordValue (key : Z) (name : string) (value : Z) : M (option string) :=
  let* e := gets (fun w => set_value_err (sys w)) in
  match e with
  | Some e => ret (Some e)
  | None =>
      if String.eqb name "Hidden"
      then modify (set_reg_hidden (Some (DWORD value))) >>> ret None
      else ret None
  end.

(** [windows.RegOpenKeyEx(HKEY_CURRENT_USER, regKeyPath, 0, KEY_NOTIFY, &hKey)] *)
Definition RegOpenKeyEx : M (result Z) :=
  let* e := gets (fun w => reg_open_ex_err (sys w)) in
  match e with
  | Some e => ret (Err e)
  | None => let* hKey := new_handle in ret (Ok hKey)
  end.

(** [windows.CreateEvent(nil, 0, 0, nil)] *)
Definition CreateEvent : M (result Z) :=
  let* e := gets (fun w => create_event_err (sys w)) in
  match e with
  | Some e => ret (Err e)
  | None => let* event := new_handle in ret (Ok event)
  end.

(** [windows.RegNotifyChangeKeyValue(hKey, true, REG_NOTIFY_CHANGE_LAST_SET, event, true)] *)
Definition RegNotifyChangeKeyValue (hKey event : Z) : M (option string) :=
  gets (fun w => notify_err (sys w)).

Definition WAIT_OBJECT_0 : Z := 0.

(** *** Windows, messages, hooks *)

Definition WM_COMMAND : Z := 273.
Definition WM_QUIT : Z := 18.
Definition EVENT_SYSTEM_FOREGROUND : Z := 3.
Definition MB_OK : Z := 0.
Definition MB_ICONERROR : Z := 16.
Definition MB_APPLMODAL : Z := 0.

(** The window with a given handle, if there is one. *)
Definition find_window (hwnd : Z) (ws : list Window) : option Window :=
  List.find (fun x => w_hwnd x =? hwnd) ws.

Definition invalid_window : string := "Invalid window handle.".

(** [windows.GetClassName] followed by [windows.UTF16ToString]. *)
Definition GetClassName (hwnd : Z) : M (result string) :=
  gets (fun w => match find_window hwnd (windows (sys w)) with
                 | Some x => w_class x
                 | None => Err invalid_window
                 end).

(** [windows.GetWindowThreadProcessId(hwnd, &pid)] *)
Definition GetWindowThreadProcessId (hwnd : Z) : M (result Z) :=
  gets (fun w => match find_window hwnd (windows (sys w)) with
                 | Some x => w_pid x
                 | None => Err invalid_window
                 end).

(** [windows.OpenProcess(PROCESS_QUERY_LIMITED_INFORMATION, false, pid)] for
    the process of the window [hwnd]. *)
Definition OpenProcess (hwnd pid : Z) : M (result Z) :=
  let* x := gets (fun w => find_window hwnd (windows (sys w))) in
  match x with
  | None => ret (Err invalid_window)
  | Some x =>
      match w_open x with
      | Some e => ret (Err e)
      | None => let* handle := new_handle in ret (Ok handle)
      end
  end.

(** [windows.QueryFullProcessImageName(handle, 0, &exeNameW[0], &size)]
    followed by [windows.UTF16ToString], for the process of [hwnd]. *)
Definition QueryFullProcessImageName (hwnd handle : Z) : M (result string) :=
  gets (fun w => match find_window hwnd (windows (sys w)) with
                 | Some x => w_image x
                 | None => Err invalid_window
                 end).

(** [winapi.PostMessage(hwnd, msg, wParam, lParam)] *)
Definition PostMessage (hwnd msg wParam lParam : Z) : M (option string) :=
  let* x := gets (fun w => find_window hwnd (windows (sys w))) in
  match x with
  | None => ret (Some invalid_window)
  | Some x =>
      match w_post x with
      | Some e => ret (Some e)
      | None =>
          modify (set_posted (fun l => l ++ [(hwnd, msg, wParam, lParam)])) >>> ret None
      end
  end.

(** The queue of a thread. *)
Definition queue_of (tid : Z) (w : World) : list Message :=
  default [] (queues w !! tid).

Definition quit_message : Message :=
  {| m_r1 := 0; m_err := None; m_event := None |}.

(** [winapi.PostThreadMessage(tID, WM_QUIT, 0, 0)]: the quit message joins
    the queue of the thread; [GetMessage] answers 0 when it reaches it. *)
Definition PostThreadMessage_WM_QUIT (tID : Z) : M (option string) :=
  let* e := gets (fun w => post_thread_err (sys w)) in
  match e with
  | Some e => ret (Some e)
  | None =>
      modify (fun w => set_queues <[tID := queue_of tID w ++ [quit_message]]> w)
      >>> ret None
  end.

(** [winapi.GetMessage(msg, 0, 0, 0)] on the thread [tid]: the next result
    in the queue; nothing when the queue is empty and the call blocks. *)
Definition GetMessage (tid : Z) : M (option Message) :=
  fun w => match queue_of tid w with
           | [] => (None, w)
           | m :: q => (Some m, set_queues <[tid := q]> w)
           end.

(** [winapi.SetWinEventHook(EVENT_SYSTEM_FOREGROUND, EVENT_SYSTEM_FOREGROUND,
    0, callback, 0, 0, WINEVENT_OUTOFCONTEXT)] called on the thread [tid]:
    the hook delivers its events to that thread. *)
Definition SetWinEventHook (tid : Z) : M (result Z) :=
  let* e := gets (fun w => set_hook_err (sys w)) in
  match e with
  | Some e => ret (Err e)
  | None =>
      fun w => let hook := Z.pos (next_handle w) in
               (Ok hook, set_hooks (fun l => l ++ [(hook, tid)])
                           (set_next_handle (Pos.succ (next_handle w)) w))
  end.

(** [winapi.UnhookWinEvent(hook)] *)
Definition UnhookWinEvent (hook : Z) : M unit :=
  modify (set_hooks (filter (fun x => x.1 ≠ hook))).

(** The system reports that [hwnd] came to the foreground: each installed
    hook gets the event in the queue of its thread. *)
Definition foreground_event (hwnd objectId : Z) (w : World) : World :=
  foldl (fun w x =>
           set_queues <[x.2 := queue_of x.2 w ++
                         [{| m_r1 := 1; m_err := None; m_event := Some (hwnd, objectId) |}]]> w)
        w (hooks w).

(** [env[name]]: the value of the variable, the empty string if it is not
    in the map. *)
Definition getenv (name : string) (w : World) : string :=
  default "" (env (sys w) !! name).

(** ** The functions of the Go library that the program calls on strings

    Their tables (Unicode case folding, the path syntax of Windows) are not
    part of the program; the program is modelled over any implementation. *)
Class GoLib : Type := {
  EqualFold : string -> string -> bool;               (* strings.EqualFold *)
  ToLower : string -> string;                         (* strings.ToLower *)
  ReplaceAll : string -> string -> string -> string;  (* strings.ReplaceAll *)
  Clean : string -> string;                           (* filepath.Clean *)
  Join : string -> string -> string;                  (* filepath.Join, two elements *)
}.

(** ** [internal/app/lib.go] *)

Section Library.
Context `{GoLib}.

(** [func (l *Library) GetKeyValuePair(closeKey bool) (key registry.Key, value uint64, err error)] *)
Definition GetKeyValuePair (closeKey : bool) : M (Z * Z * option string) :=
  log_Debugf "Opening registry key %q" [regKeyPath] >>>
  let* r := registry_OpenKey in
  match r with
  | Err e => ret (0, 0, Some ("failed call to OpenKey: " +:+ e))
  | Ok opened =>
      (* if closeKey { defer func() { _ = key.Close() }() }: the deferred
         function closes what the result [key] holds when it runs, which is
         after the return statement has set the results *)
      let deferred (key : Z) := if closeKey then CloseHandle key else ret tt in
      log_Debug "Getting integer value of property 'Hidden'" >>>
      let* r := Key_GetIntegerValue opened "Hidden" in
      match r with
      | Err e =>
          (* return 0, 0, fmt.Errorf(...): [key] is 0 when the deferred function runs *)
          deferred 0 >>> ret (0, 0, Some ("failed call to GetIntegerValue: " +:+ e))
      | Ok value =>
          (* return key, value, nil *)
          deferred opened >>> ret (opened, value, None)
      end
  end.

(** [func (l *Library) IsFileExplorer(hwnd winapi.HWND) bool] *)
Definition IsFileExplorer (hwnd : Z) : M bool :=
  let* r := GetClassName hwnd in
  match r with
  | Err _ => ret false
  | Ok className =>
      if negb (EqualFold className "CabinetWClass") then ret false else
      log_Debug "Found window with class 'CabinetWClass'" >>>
      let* r := GetWindowThreadProcessId hwnd in
      match r with
      | Err _ => ret false
      | Ok pid =>
          let* r := OpenProcess hwnd pid in
          match r with
          | Err _ => CloseHandle 0 >>> ret false
          | Ok handle =>
              let* r := QueryFullProcessImageName hwnd handle in
              match r with
              | Err _ => ret false
              | Ok exeNameW =>
                  CloseHandle handle >>>
                  let exeName := Clean exeNameW in
                  let* root := gets (getenv "SystemRoot") in
                  let procName := Join root "explorer.exe" in
                  if EqualFold exeName procName
                  then log_Debug "Found window for explorer.exe" >>> ret true
                  else ret false
              end
          end
      end
  end.

(** [func (l *Library) PostRefreshMessage(hwnd winapi.HWND)] *)
Definition PostRefreshMessage (hwnd : Z) : M unit :=
  log_Debugf "Posting refresh message to window handle %d" [pretty hwnd] >>>
  let* err := PostMessage hwnd WM_COMMAND 41504 0 in
  match err with
  | Some e =>
      log_Warnf "Could not post refresh message to window handle %d: %v" [pretty hwnd; e]
  | None => ret tt
  end.

(** [func (l *Library) enumWindowsProc(hwnd winapi.HWND, lParam uintptr) uintptr]:
    [found] is the [uint32] that [lParam] points to; the result is the
    value returned and the new [found]. *)
Definition enumWindowsProc (hwnd : Z) (found : Z) : M (Z * Z) :=
  let* b := IsFileExplorer hwnd in
  if b then
    let found := if found =? 0 then 1 else found in
    PostRefreshMessage hwnd >>> ret (1, found)
  else ret (1, found).

(** [windows.EnumWindows(callback, &found)]: the callback is called on each
    top-level window in turn until it returns zero; the call fails as a
    whole, before any window, when the system says so. *)
Fixpoint enum_windows (callback : Z -> Z -> M (Z * Z)) (ws : list Window) (found : Z) : M Z :=
  match ws with
  | [] => ret found
  | x :: ws' =>
      let* (r, found) := callback (w_hwnd x) found in
      if r =? 0 then ret found else enum_windows callback ws' found
  end.

Definition EnumWindows (callback : Z -> Z -> M (Z * Z)) (found : Z) : M (option string * Z) :=
  let* e := gets (fun w => enum_windows_err (sys w)) in
  match e with
  | Some e => ret (Some e, found)
  | None =>
      let* ws := gets (fun w => windows (sys w)) in
      let* found := enum_windows callback ws found in
      ret (None, found)
  end.

(** [func (l *Library) WatchMessageLoop()]: the whole body is a [go]
    statement. *)
Definition WatchMessageLoop : M unit := go GoWatchMessageLoop.

(** [func (l *Library) RefreshExplorerWindows()]. The call holds [l.mu]
    from its first statement to its return: it is one step. *)
Definition RefreshExplorerWindows : M unit :=
  log_Debug "Enumerating all available windows" >>>
  let* (err, found) := EnumWindows enumWindowsProc 0 in
  match err with
  | Some e => log_Warnf "Could not enumerate all available windows: %v" [e]
  | None =>
      if found =? 0 then
        log_Debug "File Explorer not currently open" >>>
        let* (hook, ok) := state_Get state.THandle "hook_winEvent" in
        if ok && negb (hook =? 0)
        then log_Debug "WinEvent hook is already set"
        else WatchMessageLoop
      else ret tt
  end.

(** [func (l *Library) RefreshSystray()] *)
Definition RefreshSystray : M unit :=
  log_Debug "Refreshing systray" >>>
  let* (toggle, ok) := state_Get state.TMenuItem "menu_toggle" in
  if negb ok then log_Error "Could not get state for 'menu_toggle': not set" else
  let* (hidden, ok) := state_Get state.TUint64 "status_hidden" in
  if negb ok then log_Error "Could not get state for 'status_hidden': not set" else
  let* name := gets (fun w => app_name (sys w)) in
  if hidden =? statusHidden then
    modify (set_tray (fun l => l ++ [SetTitle toggle "Show"; SetIcon icoHidden;
                                     SetTooltip (name +:+ " - Disabled")]))
  else
    modify (set_tray (fun l => l ++ [SetTitle toggle "Hide"; SetIcon icoVisible;
                                     SetTooltip (name +:+ " - Enabled")])).

(** [func (l *Library) ToggleHidden()] *)
Definition ToggleHidden : M unit :=
  let* (key, value, err) := GetKeyValuePair false in
  match err with
  | Some e => log_Error e
  | None =>
      (* defer func() { _ = key.Close() }() *)
      let deferred := CloseHandle key in
      let newValue := if value =? statusHidden then statusVisible else statusHidden in
      log_Debug "Setting registry key value for property 'Hidden'" >>>
      let* err := Key_SetDWordValue key "Hidden" (uint32 newValue) in
      match err with
      | Some e =>
          log_Errorf "Could not set registry key value: %v" [e] >>> deferred
      | None =>
          state_Set state.TUint64 "status_hidden" newValue >>> deferred
      end
  end.

(** [func (l *Library) winEventProc(eventHook windows.Handle, event uint32,
    hwnd winapi.HWND, objectId, childId int32, eventThreadId, eventTime uint32) uintptr] *)
Definition winEventProc (eventHook event hwnd objectId childId eventThreadId eventTime : Z)
  : M Z :=
  if negb (objectId =? 0) then ret 0 else
  let* b := IsFileExplorer hwnd in
  if b then go (GoEventRefresh hwnd) >>> ret 0 else ret 0.

(** The [go func()] of [winEventProc], once its half second of sleep is over. *)
Definition winEventProc_go (hwnd : Z) : M unit :=
  PostRefreshMessage hwnd >>>
  let* (tID, ok) := state_Get state.TUint32 "threadId_winEvent" in
  if ok && negb (tID =? 0) then
    let* err := PostThreadMessage_WM_QUIT tID in
    match err with
    | Some e => log_Warnf "Could not post WM_QUIT to thread %d: %v" [pretty tID; e]
    | None => ret tt
    end
  else ret tt.

(** [winapi.DispatchMessage(msg)]: a foreground event that comes with the
    message is handed to the hook procedure. *)
Definition DispatchMessage (hook : Z) (m : Message) : M unit :=
  match m_event m with
  | Some (hwnd, objectId) =>
      winEventProc hook EVENT_SYSTEM_FOREGROUND hwnd objectId 0 0 0 >>> ret tt
  | None => ret tt
  end.

(** The [for] loop of [WatchMessageLoop]'s goroutine on the thread [tid].
    The result tells whether the loop was left ([break]); it is [false]
    when [GetMessage] blocks on an empty queue, or when [fuel] iterations
    have run and the goroutine is still in the loop. *)
Fixpoint message_loop (fuel : nat) (hook tid : Z) : M bool :=
  match fuel with
  | O => ret false
  | S fuel =>
      let* m := GetMessage tid in
      match m with
      | None => ret false
      | Some m =>
          if m_r1 m =? 0 then log_Debug "Received WM_QUIT" >>> ret true
          else match m_err m with
               | Some e => send ("failed call to GetMessage: " +:+ e) >>> ret true
               | None =>
                   (* _ = winapi.TranslateMessage(msg) *)
                   DispatchMessage hook m >>> message_loop fuel hook tid
               end
      end
  end.

(** The statements after the loop. *)
Definition WatchMessageLoop_teardown (hook : Z) : M unit :=
  (if negb (hook =? 0) then UnhookWinEvent hook else ret tt) >>>
  state_Delete "hook_winEvent" >>>
  state_Delete "threadId_winEvent".

(** The goroutine from the top of its loop: it handles the messages that
    are in the queue; then it is either blocked in [GetMessage], and stays
    in the pool, or it has left the loop, torn down and ended. *)
Definition WatchMessageLoop_pump (hook tid : Z) : M (option Goroutine) :=
  let* n := gets (fun w => length (queue_of tid w)) in
  let* broke := message_loop n hook tid in
  if broke then WatchMessageLoop_teardown hook >>> ret None
  else ret (Some (GoMessagePump hook tid)).

(** The goroutine of [WatchMessageLoop] from its first statement, running
    on the thread [tid] ([windows.GetCurrentThreadId()]). *)
Definition WatchMessageLoop_go (tid : Z) : M (option Goroutine) :=
  log_Debug "Setting WinEvent hook" >>>
  let* r := SetWinEventHook tid in
  match r with
  | Err e => send ("failed call to SetWinEventHook: " +:+ e) >>> ret None
  | Ok hook =>
      state_Set state.THandle "hook_winEvent" hook >>>
      state_Set state.TUint32 "threadId_winEvent" tid >>>
      log_Debug "Watching message loop" >>>
      WatchMessageLoop_pump hook tid
  end.

(** [func (l *Library) WatchRegistryKey()]: the whole body is a [go]
    statement. *)
Definition WatchRegistryKey : M unit := go GoWatchRegistryKey.

(** The deferred calls of the goroutine, last registered first. *)
Definition WatchRegistryKey_deferred (hKey event : Z) : M unit :=
  CloseHandle event >>> CloseHandle hKey.

(** The top of the [for] loop: ask for the next notification, then block
    in [WaitForSingleObject]. *)
Definition WatchRegistryKey_arm (hKey event : Z) : M (option Goroutine) :=
  let* err := RegNotifyChangeKeyValue hKey event in
  match err with
  | Some e =>
      send ("failed call to RegNotifyChangeKeyValue: " +:+ e) >>>
      WatchRegistryKey_deferred hKey event >>> ret None
  | None => ret (Some (GoRegistryWait hKey event))
  end.

(** The rest of the loop body, once [WaitForSingleObject] has returned [r1]. *)
Definition WatchRegistryKey_wake (hKey event r1 : Z) : M (option Goroutine) :=
  if r1 =? WAIT_OBJECT_0 then
    let* (_, value, err) := GetKeyValuePair false in
    match err with
    | Some e =>
        send ("failed call to WaitForSingleObject: " +:+ e) >>>
        WatchRegistryKey_deferred hKey event >>> ret None
    | None =>
        state_Set state.TUint64 "status_hidden" value >>>
        RefreshSystray >>>
        RefreshExplorerWindows >>>
        WatchRegistryKey_arm hKey event
    end
  else WatchRegistryKey_arm hKey event.

(** The goroutine of [WatchRegistryKey] from its first statement. *)
Definition WatchRegistryKey_go : M (option Goroutine) :=
  log_Debugf "Retrieving handle for key %q" [regKeyPath] >>>
  let* r := RegOpenKeyEx in
  match r with
  | Err e => send ("failed call to RegOpenKeyEx: " +:+ e) >>> ret None
  | Ok hKey =>
      log_Debugf "Creating RegNotify event" [] >>>
      let* r := CreateEvent in
      match r with
      | Err e =>
          send ("failed call to CreateEvent: " +:+ e) >>> CloseHandle hKey >>> ret None
      | Ok event =>
          log_Debugf "Watching %q" [regKeyPath] >>>
          WatchRegistryKey_arm hKey event
      end
  end.

End Library.

(** ** [internal/app/app.go]: start-up and the loops of [onReady] *)

Section Application.
Context `{GoLib}.

(** [func msgbox(title string, text string, boxtype uint32, exitCode int)] *)
Definition msgbox (title text : string) (boxtype exitCode : Z) : M unit :=
  let stateLabel := "msgbox_" +:+ ToLower (ReplaceAll title " " "") in
  let* (open, ok) := state_Get state.TBool stateLabel in
  if ok && open then ret tt else
  state_Set state.TBool stateLabel true >>>
  go (GoMsgbox stateLabel title text boxtype exitCode).

(** The [go func()] of [msgbox]: the box is shown and, once the user has
    closed it, the label is reset and the process exits if asked to. *)
Definition msgbox_go (stateLabel title text : string) (boxtype exitCode : Z) : M unit :=
  modify (set_dialogs (fun l => l ++ [(title, text, Z.lor MB_APPLMODAL boxtype)])) >>>
  state_Set state.TBool stateLabel false >>>
  if 0 <=? exitCode then os_Exit exitCode else ret tt.

(** [systray.AddMenuItem(title, tooltip)]: a new item, at a new address. *)
Definition systray_AddMenuItem (title tooltip : string) : M Z :=
  fun w => let item := Z.pos (next_handle w) in
           (item, set_tray (fun l => l ++ [AddMenuItem item title tooltip])
                    (set_next_handle (Pos.succ (next_handle w)) w)).

(** One round of the [for] loop of the hotkey goroutine, once
    [<-hk.Keydown()] has delivered: the goroutine is back at the top of the
    loop afterwards. *)
Definition hotkey_go : M (option Goroutine) :=
  log_Debug "Hotkey activated" >>>
  ToggleHidden >>>
  ret (Some GoHotkey).

(** [func (a *Application) onReady()] up to its [for] loop. *)
Definition onReady : M unit :=
  log_Info "Application started" >>>
  let* err := gets (fun w => hotkey_err (sys w)) in     (* hk.Register() *)
  match err with
  | Some e =>
      let msg := "Error registering global hotkey: " +:+ e in
      log_Fatal msg >>>!
      msgbox "Fatal Error" msg (Z.lor MB_OK MB_ICONERROR) 1
  | None => ret tt
  end >>>!
  go GoHotkey >>>
  let* (_, value, err) := GetKeyValuePair true in
  match err with
  | Some e =>
      let msg := "Error fetching value of 'Hidden' during startup: " +:+ e in
      log_Fatal msg >>>!
      msgbox "Fatal Error" msg (Z.lor MB_OK MB_ICONERROR) 1
  | None => ret tt
  end >>>!
  state_Set state.TUint64 "status_hidden" value >>>
  let* mToggle := systray_AddMenuItem "" "" in
  state_Set state.TMenuItem "menu_toggle" mToggle >>>
  modify (set_tray (fun l => l ++ [AddSeparator])) >>>
  let* mTopAbout := systray_AddMenuItem "About" "" in
  let* mTopReportBug := systray_AddMenuItem "Report bug" "" in
  let* mTopQuit := systray_AddMenuItem "Quit" "" in
  RefreshSystray >>>
  WatchRegistryKey.

(** The cases of the [select] of [onReady] that reach the core: a click on
    the toggle entry, and an error received from [a.ErrCh]. (The other
    three cases open the about box, open the bug tracker and quit.) *)
Inductive MainEvent : Type := ClickToggle | RecvErr.

Definition onReady_select (ev : MainEvent) : M unit :=
  match ev with
  | ClickToggle => log_Debug "*Clicked Toggle*" >>> ToggleHidden
  | RecvErr =>
      let* q := gets errCh in
      match q with
      | [] => ret tt                       (* nothing to receive *)
      | err :: q' => modify (set_errCh (fun _ => q')) >>> log_Error err
      end
  end.

(** ** The pool of goroutines *)

(** A goroutine runs until it blocks again or ends. [arg] is what the
    system hands it when it resumes: the id of the thread it runs on for
    the goroutine of [WatchMessageLoop], the result of
    [WaitForSingleObject] for the goroutine of [WatchRegistryKey]. The
    result is the goroutine as it stays in the pool, if it does. *)
Definition resume (g : Goroutine) (arg : Z) : M (option Goroutine) :=
  match g with
  | GoWatchMessageLoop => WatchMessageLoop_go arg
  | GoMessagePump hook tid => WatchMessageLoop_pump hook tid
  | GoEventRefresh hwnd => winEventProc_go hwnd >>> ret None
  | GoWatchRegistryKey => WatchRegistryKey_go
  | GoRegistryWait hKey event => WatchRegistryKey_wake hKey event arg
  | GoHotkey => hotkey_go
  | GoMsgbox stateLabel title text boxtype exitCode =>
      msgbox_go stateLabel title text boxtype exitCode >>> ret None
  end.

(** The scheduler picks the goroutine at position [i] of the pool. Nothing
    runs once the process has exited. *)
Definition schedule (i : nat) (arg : Z) (w : World) : World :=
  match exit_code w with
  | Some _ => w
  | None =>
      match goroutines w !! i with
      | None => w
      | Some g =>
          let (k, w1) := resume g arg w in
          set_goroutines (fun gs => match k with
                                    | Some g' => <[i := g']> gs
                                    | None => delete i gs
                                    end) w1
      end
  end.

(** The watcher of foreground events is Armed when a hook handle other
    than zero is recorded in the store, Idle otherwise. *)
Definition armed (w : World) : bool :=
  let (hook, ok) := state.Get state.THandle "hook_winEvent" (data w) in
  ok && negb (hook =? 0).

End Application.

(** ** A small system to run the program on

    An implementation of the string functions that is right on the inputs
    used below: letters of ASCII, a pattern of one character, paths that are
    clean already. *)

Definition lower_ascii (c : ascii) : ascii :=
  let n := Ascii.N_of_ascii c in
  if ((65 <=? n) && (n <=? 90))%N then Ascii.ascii_of_N (n + 32) else c.

Fixpoint lower (s : string) : string :=
  match s with
  | EmptyString => EmptyString
  | String c s' => String (lower_ascii c) (lower s')
  end.

Fixpoint replace_char (s old new : string) : string :=
  match s with
  | EmptyString => EmptyString
  | String c s' =>
      if String.eqb (String c EmptyString) old
      then new +:+ replace_char s' old new
      else String c (replace_char s' old new)
  end.

Definition asciiLib : GoLib := {|
  EqualFold s t := String.eqb (lower s) (lower t);
  ToLower := lower;
  ReplaceAll := replace_char;
  Clean p := p;
  Join dir file := dir +:+ "\" +:+ file;
|}.

(** No call fails, no window is open, [SystemRoot] is [C:\Windows]. *)
Definition quiet : System := {|
  open_key_err := None;
  get_value_err := None;
  set_value_err := None;
  reg_open_ex_err := None;
  create_event_err := None;
  notify_err := None;
  enum_windows_err := None;
  set_hook_err := None;
  post_thread_err := None;
  hotkey_err := None;
  windows := [];
  env := {[ "SystemRoot" := "C:\Windows" ]};
  app_name := "ShowAllFiles";
|}.

(** The process at its start, over a system [s] whose registry holds [v]. *)
Definition boot (s : System) (v : option RegData) : World :=
  MkWorld s ∅ [] [] [] None v [] 1%positive [] [] ∅ [] [].

(** The same system with other windows, or with one call that fails. *)
Definition with_windows (ws : list Window) (s : System) : System :=
  {| open_key_err := open_key_err s; get_value_err := get_value_err s;
     set_value_err := set_value_err s; reg_open_ex_err := reg_open_ex_err s;
     create_event_err := create_event_err s; notify_err := notify_err s;
     enum_windows_err := enum_windows_err s; set_hook_err := set_hook_err s;
     post_thread_err := post_thread_err s; hotkey_err := hotkey_err s;
     windows := ws; env := env s; app_name := app_name s |}.

Definition with_hotkey_err (e : option string) (s : System) : System :=
  {| open_key_err := open_key_err s; get_value_err := get_value_err s;
     set_value_err := set_value_err s; reg_open_ex_err := reg_open_ex_err s;
     create_event_err := create_event_err s; notify_err := notify_err s;
     enum_windows_err := enum_windows_err s; set_hook_err := set_hook_err s;
     post_thread_err := post_thread_err s; hotkey_err := e;
     windows := windows s; env := env s; app_name := app_name s |}.

Definition with_set_hook_err (e : option string) (s : System) : System :=
  {| open_key_err := open_key_err s; get_value_err := get_value_err s;
     set_value_err := set_value_err s; reg_open_ex_err := reg_open_ex_err s;
     create_event_err := create_event_err s; notify_err := notify_err s;
     enum_windows_err := enum_windows_err s; set_hook_err := e;
     post_thread_err := post_thread_err s; hotkey_err := hotkey_err s;
     windows := windows s; env := env s; app_name := app_name s |}.

Definition with_set_value_err (e : option string) (s : System) : System :=
  {| open_key_err := open_key_err s; get_value_err := get_value_err s;
     set_value_err := e; reg_open_ex_err := reg_open_ex_err s;
     create_event_err := create_event_err s; notify_err := notify_err s;
     enum_windows_err := enum_windows_err s; set_hook_err := set_hook_err s;
     post_thread_err := post_thread_err s; hotkey_err := hotkey_err s;
     windows := windows s; env := env s; app_name := app_name s |}.

Definition with_open_key_err (e : option string) (s : System) : System :=
  {| open_key_err := e; get_value_err := get_value_err s;
     set_value_err := set_value_err s; reg_open_ex_err := reg_open_ex_err s;
     create_event_err := create_event_err s; notify_err := notify_err s;
     enum_windows_err := enum_windows_err s; set_hook_err := set_hook_err s;
     post_thread_err := post_thread_err s; hotkey_err := hotkey_err s;
     windows := windows s; env := env s; app_name := app_name s |}.


(** A window of the file browser, a window of the same class that another
    program owns, and a window whose process cannot be opened. *)
Definition explorer_window (hwnd : Z) : Window := {|
  w_hwnd := hwnd;
  w_class := Ok "CabinetWClass";
  w_pid := Ok 4242;
  w_open := None;
  w_image := Ok "C:\WINDOWS\Explorer.EXE";
  w_post := None;
|}.

Definition lookalike_window (hwnd : Z) : Window := {|
  w_hwnd := hwnd;
  w_class := Ok "cabinetwclass";
  w_pid := Ok 77;
  w_open := None;
  w_image := Ok "C:\Tools\explorer.exe";
  w_post := None;
|}.

Definition protected_window (hwnd : Z) : Window := {|
  w_hwnd := hwnd;
  w_class := Ok "CabinetWClass";
  w_pid := Ok 4;
  w_open := Some "Access is denied.";
  w_image := Err "Access is denied.";
  w_post := None;
|}.

(** The stored status, as the program reads it. *)
Definition status (w : World) : Z * bool :=
  state.Get state.TUint64 "status_hidden" (data w).

(** The integer that [GetIntegerValue] finds in a stored value. *)
Definition stored_integer (v : option RegData) : option Z :=
  match v with
  | Some (DWORD v) | Some (QWORD v) => Some v
  | _ => None
  end.

(** The error of [GetIntegerValue] on [Hidden], if it fails. *)
Definition read_error (w : World) : option string :=
  match get_value_err (sys w) with
  | Some e => Some e
  | None =>
      match reg_hidden w with
      | Some (DWORD _) | Some (QWORD _) => None
      | Some REG_OTHER => Some "unexpected key value type"
      | None => Some "The system cannot find the file specified."
      end
  end.

(** The error that [GetKeyValuePair] returns, if it fails. *)
Definition read_failure (w : World) : option string :=
  match open_key_err (sys w) with
  | Some e => Some ("failed call to OpenKey: " +:+ e)
  | None =>
      match read_error w with
      | Some e => Some ("failed call to GetIntegerValue: " +:+ e)
      | None => None
      end
  end.

(** A call of [ToggleHidden] succeeds when the key opens, the value is read
    and the new value is written. *)
Definition toggle_succeeds (w : World) : bool :=
  match open_key_err (sys w), get_value_err (sys w),
        stored_integer (reg_hidden w), set_value_err (sys w) with
  | None, None, Some _, None => true
  | _, _, _, _ => false
  end.

(** No registry call fails in a system. *)
Definition registry_healthy (s : System) : bool :=
  match open_key_err s, get_value_err s, set_value_err s with
  | None, None, None => true
  | _, _, _ => false
  end.

(** The status opposite to [v], as [ToggleHidden] computes it. *)
Definition opposite (v : Z) : Z :=
  if v =? statusHidden then statusVisible else statusHidden.

(** A sequence of calls of [ToggleHidden]; before each call the system may
    have changed its answers. *)
Fixpoint toggles (ss : list System) (w : World) : World :=
  match ss with
  | [] => w
  | s :: ss' => toggles ss' (exec ToggleHidden (set_sys s w))
  end.

(** Every call of the sequence succeeds. *)
Fixpoint all_succeed (ss : list System) (w : World) : bool :=
  match ss with
  | [] => true
  | s :: ss' =>
      toggle_succeeds (set_sys s w) && all_succeed ss' (exec ToggleHidden (set_sys s w))
  end.

(** The levels of the entries that a piece of code has logged. *)
Definition new_levels {A : Type} (c : M A) (w : World) : list Level :=
  map lvl (drop (length (logs w)) (logs (exec c w))).

Definition is_error (l : Level) : bool :=
  match l with
  | ErrorLevel => true
  | _ => false
  end.

(** ** Package [console]: the console of the process

    The package keeps the three standard streams of the process as they
    were before it touched them, and a [Console] is bound or not to a console
    of Windows. A file ([*os.File]) is a number, [nil] is zero. *)

Module console.

(** The errors of the package: its two sentinels, the error of a system
    call, an error wrapped by [fmt.Errorf] (format, arguments, cause) and the
    errors joined by [errors.Join]. *)
#[local] Unset Elimination Schemes.
Inductive error : Type :=
| ErrBoundGuard
| ErrNotBound
| SysErr (e : string)
| Errorf (format : string) (args : list string) (err : error)
| Joined (errs : list error).
#[local] Set Elimination Schemes.

Inductive StdHandle : Type :=
| STD_INPUT_HANDLE | STD_OUTPUT_HANDLE | STD_ERROR_HANDLE.

(** The answers of the system to the calls that can fail. *)
Record Answers : Type := {
  attach_err : option string;                (* winapi.AttachConsole *)
  alloc_err : option string;                 (* winapi.AllocConsole *)
  free_err : option string;                  (* winapi.FreeConsole *)
  open_err : string -> option string;        (* os.OpenFile, by name *)
  bind_err : StdHandle -> option string;     (* winapi.SetStdHandle *)
}.

Record State : Type := MkState {
  answers : Answers;
  os_Stdin : Z;                 (* os.Stdin, os.Stdout, os.Stderr *)
  os_Stdout : Z;
  os_Stderr : Z;
  stdin : Z;                    (* the package variables *)
  stdout : Z;
  stderr : Z;
  preserved : bool;
  attached : bool;              (* the process has a console *)
  std_in : Z;                   (* what the standard handles refer to *)
  std_out : Z;
  std_err : Z;
  open_files : list Z;
  next_file : positive;
  printed : list (Z * string);  (* fmt.Print: the stream written to, the text *)
}.

Record Console : Type := MkConsole {
  infile : Z;
  outfile : Z;
  bound : bool;
  debug : bool;
}.

Definition set_os (i o e : Z) (s : State) : State :=
  MkState (answers s) i o e (stdin s) (stdout s) (stderr s) (preserved s)
    (attached s) (std_in s) (std_out s) (std_err s) (open_files s) (next_file s)
    (printed s).

Definition set_preserved (i o e : Z) (s : State) : State :=
  MkState (answers s) (os_Stdin s) (os_Stdout s) (os_Stderr s) i o e true
    (attached s) (std_in s) (std_out s) (std_err s) (open_files s) (next_file s)
    (printed s).

Definition set_attached (b : bool) (s : State) : State :=
  MkState (answers s) (os_Stdin s) (os_Stdout s) (os_Stderr s)
    (stdin s) (stdout s) (stderr s) (preserved s)
    b (std_in s) (std_out s) (std_err s) (open_files s) (next_file s)
    (printed s).

Definition set_std (h : StdHandle) (fd : Z) (s : State) : State :=
  MkState (answers s) (os_Stdin s) (os_Stdout s) (os_Stderr s)
    (stdin s) (stdout s) (stderr s) (preserved s) (attached s)
    (match h with STD_INPUT_HANDLE => fd | _ => std_in s end)
    (match h with STD_OUTPUT_HANDLE => fd | _ => std_out s end)
    (match h with STD_ERROR_HANDLE => fd | _ => std_err s end)
    (open_files s) (next_file s) (printed s).

Definition set_files (l : list Z) (n : positive) (s : State) : State :=
  MkState (answers s) (os_Stdin s) (os_Stdout s) (os_Stderr s)
    (stdin s) (stdout s) (stderr s) (preserved s)
    (attached s) (std_in s) (std_out s) (std_err s) l n (printed s).

Definition set_printed (l : list (Z * string)) (s : State) : State :=
  MkState (answers s) (os_Stdin s) (os_Stdout s) (os_Stderr s)
    (stdin s) (stdout s) (stderr s) (preserved s)
    (attached s) (std_in s) (std_out s) (std_err s) (open_files s) (next_file s) l.

(** [os.OpenFile(name, os.O_RDWR, 0)] *)
Definition OpenFile (name : string) (s : State) : result Z * State :=
  match open_err (answers s) name with
  | Some e => (Err e, s)
  | None =>
      let f := Z.pos (next_file s) in
      (Ok f, set_files (f :: open_files s) (Pos.succ (next_file s)) s)
  end.

(** [file.Close()], its error dropped. *)
Definition Close (f : Z) (s : State) : State :=
  set_files (remove1 f (open_files s)) (next_file s) s.

(** [errors.Join(errs...)]: [nil] when every error is [nil], otherwise the
    errors that are not. *)
Definition Join (errs : list (option error)) : option error :=
  match omap id errs with
  | [] => None
  | es => Some (Joined es)
  end.

(** [func preserveIO()] *)
Definition preserveIO (s : State) : State :=
  if preserved s then s
  else set_preserved (os_Stdin s) (os_Stdout s) (os_Stderr s) s.

(** [func New(debugger bool) *Console] *)
Definition New (debugger : bool) (s : State) : Console * State :=
  (MkConsole 0 0 false debugger, preserveIO s).

(** [func (c *Console) bindConsole(name string, hstd winapi.HSTDIO, file *os.File) error] *)
Definition bindConsole (name : string) (hstd : StdHandle) (file : Z) (fname : string)
    (s : State) : option error * State :=
  match bind_err (answers s) hstd with
  | Some e => (Some (Errorf "failed to bind %s to %q: %v" [name; fname] (SysErr e)), s)
  | None => (None, set_std hstd file s)
  end.

(** [func (c *Console) launchConsole() error] *)
Definition launchConsole (c : Console) (s : State) : option error * Console * State :=
  match OpenFile "CONIN$" s with
  | (Err e, s) => (Some (Errorf "failed to open %q: %v" ["CONIN$"] (SysErr e)), c, s)
  | (Ok infile, s) =>
      match OpenFile "CONOUT$" s with
      | (Err e, s) =>
          (Some (Errorf "failed to open %q: %v" ["CONOUT$"] (SysErr e)), c, Close infile s)
      | (Ok outfile, s) =>
          let (e1, s) := bindConsole "stdin" STD_INPUT_HANDLE infile "CONIN$" s in
          let (e2, s) := bindConsole "stdout" STD_OUTPUT_HANDLE outfile "CONOUT$" s in
          let (e3, s) := bindConsole "stderr" STD_ERROR_HANDLE outfile "CONOUT$" s in
          match Join [e1; e2; e3] with
          | Some err => (Some err, c, Close outfile (Close infile s))
          | None =>
              (None, MkConsole infile outfile true (debug c),
               set_os infile outfile outfile s)
          end
      end
  end.

(** The text that [Attach] prints: carriage return, then the escape sequence
    that clears the line. *)
Definition clear_line : string :=
  String "013" (String "027" "[K").

(** [func (c *Console) Attach(pid ...uint32) error]; the process id only
    chooses the console to attach to. *)
Definition Attach (pid : option Z) (c : Console) (s : State)
    : option error * Console * State :=
  if debug c then (None, c, s)
  else if bound c then (Some ErrBoundGuard, c, s)
  else
    match attach_err (answers s) with
    | Some e => (Some (SysErr e), c, s)
    | None =>
        match launchConsole c (set_attached true s) with
        | (Some err, c, s) => (Some err, c, s)
        | (None, c, s) =>
            (None, c, set_printed (printed s ++ [(os_Stdout s, clear_line)]) s)
        end
    end.

(** [func (c *Console) Free() error] *)
Definition Free (c : Console) (s : State) : option error * Console * State :=
  if debug c then (None, c, s)
  else
    match free_err (answers s) with
    | Some e => (Some (SysErr e), c, s)
    | None => (None, c, set_attached false s)
    end.

(** [func (c *Console) Detach() error] *)
Definition Detach (c : Console) (s : State) : option error * Console * State :=
  if debug c then (None, c, s)
  else if negb (bound c) then (Some ErrNotBound, c, s)
  else
    let s := set_os (stdin s) (stdout s) (stderr s) s in
    let s := Close (outfile c) (Close (infile c) s) in
    Free (MkConsole 0 0 false (debug c)) s.

(** [func (c *Console) Spawn() error] *)
Definition Spawn (c : Console) (s : State) : option error * Console * State :=
  if debug c then (None, c, s)
  else if bound c then (Some ErrBoundGuard, c, s)
  else
    match alloc_err (answers s) with
    | Some e => (Some (SysErr e), c, s)
    | None => launchConsole c (set_attached true s)
    end.

(** The calls that a program makes on its console, one after the other;
    [New] replaces the console. *)
Inductive Call : Type :=
| CallNew (debugger : bool)
| CallAttach (pid : option Z)
| CallDetach
| CallFree
| CallSpawn.

Definition call (op : Call) (cs : Console * State) : Console * State :=
  let (c, s) := cs in
  match op with
  | CallNew d => New d s
  | CallAttach pid => let '(_, c, s) := Attach pid c s in (c, s)
  | CallDetach => let '(_, c, s) := Detach c s in (c, s)
  | CallFree => let '(_, c, s) := Free c s in (c, s)
  | CallSpawn => let '(_, c, s) := Spawn c s in (c, s)
  end.

Definition calls (ops : list Call) (cs : Console * State) : Console * State :=
  foldl (fun cs op => call op cs) cs ops.

(** A system in which no call fails, and the process at its start: the
    three streams are the files 1, 2 and 3. *)
Definition willing : Answers := {|
  attach_err := None; alloc_err := None; free_err := None;
  open_err := fun _ => None; bind_err := fun _ => None;
|}.

Definition start (a : Answers) : State :=
  MkState a 1 2 3 0 0 0 false false 1 2 3 [1; 2; 3] 4%positive [].

(** A console and a state that fit: the streams are preserved; a bound
    console has its two files and they are the streams of the process; a
    console that is not bound has no files. *)
Definition consistent (cs : Console * State) : Prop :=
  let (c, s) := cs in
  preserved s = true /\
  if bound c
  then (os_Stdin s, os_Stdout s, os_Stderr s) = (infile c, outfile c, outfile c) /\
       infile c <> 0 /\ outfile c <> 0
  else infile c = 0 /\ outfile c = 0.

(** The preserved streams. *)
Definition preserved_streams (s : State) : Z * Z * Z :=
  (stdin s, stdout s, stderr s).

(** The console can be launched: both files open and the three standard
    handles can be set. *)
Definition launches (a : Answers) : bool :=
  match open_err a "CONIN$", open_err a "CONOUT$",
        bind_err a STD_INPUT_HANDLE, bind_err a STD_OUTPUT_HANDLE,
        bind_err a STD_ERROR_HANDLE with
  | None, None, None, None, None => true
  | _, _, _, _, _ => false
  end.

(** The system answers as [willing], except that setting the standard error
    handle fails. *)
Definition stderr_refused : Answers := {|
  attach_err := None; alloc_err := None; free_err := None;
  open_err := fun _ => None;
  bind_err := fun h => match h with
                       | STD_ERROR_HANDLE => Some "The handle is invalid."
                       | _ => None
                       end;
|}.

End console.

(** ** [func init()]: the variables of the environment that the program keeps *)

Definition env_keys : list string :=
  ["DEBUG"; "SHOWALLFILES_CLI_ARGS"; "SystemRoot"; "TMP"].

(** The loop of [init] over the four names: [os.LookupEnv(key)] in the
    environment [environ] of the process, and [env[key] = value] if the
    variable exists. *)
Definition init_env (environ : gmap string string) : gmap string string :=
  foldl (fun env key =>
           match environ !! key with
           | Some value => <[key := value]> env
           | None => env
           end)
        ∅ env_keys.

(** ** The identity test and the arming rule, as the specification words them *)

Section Specification.
Context `{GoLib}.

(** A window passes the test when its class name equals [CabinetWClass]
    and the normalized path of the executable of its process equals
    [<SystemRoot>\explorer.exe], both without regard to case; a window
    about which a query fails does not pass. *)
Definition passes_identity_test (root : string) (x : Window) : bool :=
  match w_class x, w_pid x, w_open x, w_image x with
  | Ok className, Ok _, None, Ok exe =>
      EqualFold className "CabinetWClass" &&
      EqualFold (Clean exe) (Join root "explorer.exe")
  | _, _, _, _ => false
  end.

(** The test on a window handle: the handle of no window does not pass. *)
Definition is_file_browser (w : World) (hwnd : Z) : bool :=
  match find_window hwnd (windows (sys w)) with
  | Some x => passes_identity_test (getenv "SystemRoot" w) x
  | None => false
  end.

(** At least one top-level window passes. *)
Definition file_browser_open (w : World) : bool :=
  existsb (fun x => is_file_browser w (w_hwnd x)) (windows (sys w)).

(** The watcher is started when the listing succeeds, no window passes the
    test and no hook other than zero is recorded. *)
Definition starts_watcher (w : World) : bool :=
  match enum_windows_err (sys w) with
  | Some _ => false
  | None => negb (file_browser_open w) && negb (armed w)
  end.

End Specification.

(** Two worlds that differ at most in the log, the open handles, the next
    handle and the messages posted to windows. *)
Definition same_core (w w' : World) : Prop :=
  sys w' = sys w /\ data w' = data w /\ goroutines w' = goroutines w /\
  hooks w' = hooks w /\ queues w' = queues w /\ errCh w' = errCh w /\
  reg_hidden w' = reg_hidden w /\ exit_code w' = exit_code w /\
  dialogs w' = dialogs w /\ tray w' = tray w.

(** A result of [GetMessage] on which the message loop breaks: the quit
    signal ([r1] is zero) or a failure of the retrieval. *)
Definition leaves_loop (m : Message) : bool :=
  (m_r1 m =? 0) || match m_err m with Some _ => true | None => false end.

(** The refresh command that [PostRefreshMessage] posts to a window. *)
Definition refresh_message (hwnd : Z) : Z * Z * Z * Z :=
  (hwnd, WM_COMMAND, 41504, 0).

(** The system accepts a message posted to the window. *)
Definition accepts_post (w : World) (hwnd : Z) : bool :=
  match find_window hwnd (windows (sys w)) with
  | Some x => match w_post x with
              | None => true
              | Some _ => false
              end
  | None => false
  end.

(** The refresh commands that a refresh posts: one for each entry of the
    listing that passes the identity test and accepts the post; none when
    the listing fails. *)
Definition refresh_posts `{GoLib} (w : World) : list (Z * Z * Z * Z) :=
  match enum_windows_err (sys w) with
  | Some _ => []
  | None =>
      map refresh_message
        (filter (fun hwnd => is_file_browser w hwnd && accepts_post w hwnd = true)
                (map w_hwnd (windows (sys w))))
  end.

(** The window has the class of the file browser and its process opens, but
    the query of the image name of the process fails. *)
Definition image_query_fails `{GoLib} (w : World) (hwnd : Z) : bool :=
  match find_window hwnd (windows (sys w)) with
  | Some x =>
      match w_class x, w_pid x, w_open x, w_image x with
      | Ok className, Ok _, None, Err _ => EqualFold className "CabinetWClass"
      | _, _, _, _ => false
      end
  | None => false
  end.





(** The foreground event for the window [hwnd] itself (object id zero), as
    [GetMessage] delivers it. *)
Definition window_event (hwnd : Z) : Message :=
  {| m_r1 := 1; m_err := None; m_event := Some (hwnd, 0) |}.

(** What [RefreshSystray] shows for a store: the title of the toggle entry,
    the icon and the tooltip; nothing if the entry or the status is not set. *)
Definition tray_for (name : string) (d : gmap string state.any) : list TrayOp :=
  match state.Get state.TMenuItem "menu_toggle" d,
        state.Get state.TUint64 "status_hidden" d with
  | (toggle, true), (hidden, true) =>
      if hidden =? statusHidden
      then [SetTitle toggle "Show"; SetIcon icoHidden; SetTooltip (name +:+ " - Disabled")]
      else [SetTitle toggle "Hide"; SetIcon icoVisible; SetTooltip (name +:+ " - Enabled")]
  | _, _ => []
  end.

(** Every handle other than zero that is open in [w] is open in [w']. *)
Definition handles_kept (w w' : World) : Prop :=
  forall h, h <> 0 -> h ∈ handles w -> h ∈ handles w'.

(** A stored value matches a requested type when it is not [nil] and its
    dynamic type is that type, or implements it when the requested type is
    an interface. *)
Definition value_matches (v : state.any) (T : state.GoType) : bool :=
  match state.dyn_type v with
  | None => false
  | Some D => state.is_interface T || bool_decide (D = T)
  end.

(** * Properties *)

(** ** The shared state store *)

Lemma assert_to_any (T : state.GoType) (x : state.denote T) :
  state.assert T (state.to_any T x) =
    if state.is_nil (state.to_any T x) then None else Some x.
Proof. destruct T; try reflexivity. destruct x; reflexivity. Qed.

Lemma to_any_concrete (T : state.GoType) (x : state.denote T) :
  state.is_interface T = false -> state.is_nil (state.to_any T x) = false.
Proof. destruct T; try reflexivity. discriminate. Qed.


Lemma assert_matches (T : state.GoType) (v : state.any) :
  match state.assert T v with
  | Some x => value_matches v T = true /\ state.to_any T x = v
  | None => value_matches v T = false
  end.
Proof. destruct T, v; cbn; auto. Qed.

Lemma Get_Set_same (T : state.GoType) (k : string) (x : state.denote T) (d : gmap string state.any) :
  state.Get T k (state.Set_ T k x d) = (x, negb (state.is_nil (state.to_any T x))).
Proof.
  unfold state.Get, state.Set_. rewrite lookup_insert_eq, assert_to_any.
  destruct T; try reflexivity. destruct x; reflexivity.
Qed.

Lemma Get_Set_eq (T : state.GoType) (k : string) (x : state.denote T) (d : gmap string state.any) :
  state.is_interface T = false -> state.Get T k (state.Set_ T k x d) = (x, true).
Proof.
  intros HT. rewrite Get_Set_same, (to_any_concrete T x HT). reflexivity.
Qed.

Lemma Get_Set_ne (T U : state.GoType) (k k' : string) (x : state.denote U) (d : gmap string state.any) :
  k ≠ k' -> state.Get T k' (state.Set_ U k x d) = state.Get T k' d.
Proof.
  intros Hne. unfold state.Get, state.Set_. rewrite lookup_insert_ne by exact Hne. reflexivity.
Qed.


Lemma Get_Delete_ne (T : state.GoType) (k k' : string) (d : gmap string state.any) :
  k ≠ k' -> state.Get T k' (state.Delete k d) = state.Get T k' d.
Proof.
  intros Hne. unfold state.Get, state.Delete. rewrite lookup_delete_ne by exact Hne. reflexivity.
Qed.

Lemma Get_unset (T : state.GoType) (k : string) (d : gmap string state.any) :
  d !! k = None -> state.Get T k d = (state.zero T, false).
Proof. intros H. unfold state.Get. rewrite H. reflexivity. Qed.



Lemma Get_true (T : state.GoType) (k : string) (x : state.denote T) (d : gmap string state.any) :
  state.Get T k d = (x, true) <->
  d !! k = Some (state.to_any T x) /\ state.is_nil (state.to_any T x) = false.
Proof.
  unfold state.Get. destruct (d !! k) as [v|] eqn:E.
  - pose proof (assert_matches T v) as Ha.
    destruct (state.assert T v) as [y|] eqn:A.
    + destruct Ha as (Hm & <-). split.
      * intros [= ->]. split; [reflexivity|].
        unfold value_matches in Hm. destruct (state.to_any T x); [discriminate|..]; reflexivity.
      * intros ([= Hx] & _). rewrite Hx in A. rewrite assert_to_any in A.
        destruct (state.is_nil (state.to_any T x)); congruence.
    + split; [discriminate|]. intros ([= ->] & Hn).
      rewrite assert_to_any, Hn in A. discriminate.
  - split; [discriminate|]. intros (? & _). discriminate.
Qed.




(** ** The Status Authority: [GetKeyValuePair] and [ToggleHidden] *)

Ltac unfold_go :=
  unfold new_levels in *;
  unfold exec, eval,
    ToggleHidden, GetKeyValuePair, registry_OpenKey, Key_GetIntegerValue,
    Key_SetDWordValue, new_handle, CloseHandle, state_Set, state_Get, state_Delete,
    log_Debug, log_Debugf, log_Info, log_Warnf, log_Error, log_Errorf, logf,
    send, go, bind, ret, gets, modify in *.

Lemma remove1_head (h : Z) (l : list Z) : remove1 h (h :: l) = l.
Proof. simpl. rewrite Z.eqb_refl. reflexivity. Qed.

Lemma stored_integer_read_error (w : World) :
  get_value_err (sys w) = None ->
  read_error w = None <-> is_Some (stored_integer (reg_hidden w)).
Proof.
  intros Hg. unfold read_error. rewrite Hg.
  destruct (reg_hidden w) as [[v|v|]|]; simpl; split;
    first [ discriminate | reflexivity | intros [x [=]] | eauto ].
Qed.

Lemma toggle_succeeds_spec (w : World) :
  toggle_succeeds w = true <->
  open_key_err (sys w) = None /\ read_error w = None /\ set_value_err (sys w) = None.
Proof.
  unfold toggle_succeeds, read_error.
  destruct (open_key_err (sys w)), (get_value_err (sys w)),
    (reg_hidden w) as [[v|v|]|], (set_value_err (sys w)); simpl;
    split; first [ discriminate | tauto | intros (? & ? & ?); discriminate ].
Qed.

Lemma Key_GetIntegerValue_Hidden (key : Z) (w : World) :
  Key_GetIntegerValue key "Hidden" w =
    (match read_error w with
     | Some e => Err e
     | None => Ok (default 0 (stored_integer (reg_hidden w)))
     end, w).
Proof.
  unfold read_error. unfold_go. cbn.
  destruct (get_value_err (sys w)); cbn; [reflexivity|].
  destruct (reg_hidden w) as [[v|v|]|]; reflexivity.
Qed.

(** [GetKeyValuePair], case by case. *)
Lemma GetKeyValuePair_open_fails (closeKey : bool) (w : World) (e : string) :
  open_key_err (sys w) = Some e ->
  eval (GetKeyValuePair closeKey) w = (0, 0, Some ("failed call to OpenKey: " +:+ e)) /\
  handles (exec (GetKeyValuePair closeKey) w) = handles w /\
  data (exec (GetKeyValuePair closeKey) w) = data w.
Proof.
  intros Ho. unfold_go. cbn. rewrite Ho. cbn. auto.
Qed.

Lemma GetKeyValuePair_read_fails (closeKey : bool) (w : World) (e : string) :
  open_key_err (sys w) = None ->
  read_error w = Some e ->
  eval (GetKeyValuePair closeKey) w = (0, 0, Some ("failed call to GetIntegerValue: " +:+ e)) /\
  handles (exec (GetKeyValuePair closeKey) w) =
    Z.pos (next_handle w) :: (if closeKey then remove1 0 (handles w) else handles w) /\
  data (exec (GetKeyValuePair closeKey) w) = data w.
Proof.
  intros Ho He. unfold read_error in He. unfold_go. cbn. rewrite Ho. cbn.
  destruct (get_value_err (sys w)) as [e'|]; cbn.
  - injection He as ->. destruct closeKey; cbn; rewrite ?Pos.eqb_refl; auto.
  - destruct (reg_hidden w) as [[v|v|]|]; try discriminate; injection He as <-;
      destruct closeKey; cbn; rewrite ?Pos.eqb_refl; auto.
Qed.

Lemma GetKeyValuePair_reads (closeKey : bool) (w : World) (v : Z) :
  open_key_err (sys w) = None ->
  get_value_err (sys w) = None ->
  stored_integer (reg_hidden w) = Some v ->
  eval (GetKeyValuePair closeKey) w = (Z.pos (next_handle w), v, None) /\
  handles (exec (GetKeyValuePair closeKey) w) =
    (if closeKey then handles w else Z.pos (next_handle w) :: handles w) /\
  data (exec (GetKeyValuePair closeKey) w) = data w.
Proof.
  intros Ho Hg Hv. unfold_go. cbn. rewrite Ho. cbn. rewrite Hg. cbn.
  destruct (reg_hidden w) as [[x|x|]|]; try discriminate; injection Hv as ->;
    destruct closeKey; cbn; rewrite ?Pos.eqb_refl; auto.
Qed.

(** C10. When [GetKeyValuePair] is called with [closeKey = false], the key
    opens and reading the integer value [Hidden] fails, the function returns
    the key handle zero and the error, and the handle that [OpenKey] gave is
    still open afterwards: it is not zero, so it is not the key returned, and
    it has not been closed. *)
Theorem GetKeyValuePair_leaves_key_open (w : World) (e : string) :
  open_key_err (sys w) = None ->
  read_error w = Some e ->
  let opened := Z.pos (next_handle w) in
  eval (GetKeyValuePair false) w = (0, 0, Some ("failed call to GetIntegerValue: " +:+ e)) /\
  opened <> 0 /\
  handles (exec (GetKeyValuePair false) w) = opened :: handles w.
Proof.
  intros Ho He opened.
  destruct (GetKeyValuePair_read_fails false w e Ho He) as (Hr & Hh & _).
  split; [exact Hr|]. split; [discriminate|exact Hh].
Qed.

Lemma GetKeyValuePair_leaves_key_open_witness :
  let w := boot quiet None in
  eval (GetKeyValuePair false) w =
    (0, 0, Some "failed call to GetIntegerValue: The system cannot find the file specified.") /\
  1 <> 0 /\
  handles (exec (GetKeyValuePair false) w) = [1].
Proof.
  exact (GetKeyValuePair_leaves_key_open (boot quiet None)
           "The system cannot find the file specified." eq_refl eq_refl).
Defined.

(** [ToggleHidden], case by case. *)
Lemma ToggleHidden_sys (w : World) : sys (exec ToggleHidden w) = sys w.
Proof.
  unfold_go. cbn.
  destruct (open_key_err (sys w)); cbn; [reflexivity|].
  destruct (get_value_err (sys w)); cbn; [reflexivity|].
  destruct (reg_hidden w) as [[v|v|]|]; cbn; try reflexivity;
    destruct (set_value_err (sys w)); reflexivity.
Qed.

Lemma ToggleHidden_succeeds (w : World) (v : Z) :
  toggle_succeeds w = true ->
  stored_integer (reg_hidden w) = Some v ->
  data (exec ToggleHidden w) =
    state.Set_ state.TUint64 "status_hidden" (opposite v) (data w) /\
  reg_hidden (exec ToggleHidden w) = Some (DWORD (uint32 (opposite v))) /\
  handles (exec ToggleHidden w) = handles w /\
  existsb is_error (new_levels ToggleHidden w) = false.
Proof.
  intros Hok Hv. apply toggle_succeeds_spec in Hok as (Ho & Hr & Hs).
  unfold read_error in Hr. unfold_go. cbn. rewrite Ho. cbn.
  destruct (get_value_err (sys w)); [discriminate|]. cbn.
  destruct (reg_hidden w) as [[x|x|]|]; try discriminate; injection Hv as ->; cbn;
    rewrite Hs; cbn; rewrite Pos.eqb_refl, <- ?app_assoc, ?drop_app_length; cbn; auto.
Qed.

Lemma ToggleHidden_fails (w : World) :
  toggle_succeeds w = false ->
  data (exec ToggleHidden w) = data w /\
  reg_hidden (exec ToggleHidden w) = reg_hidden w /\
  existsb is_error (new_levels ToggleHidden w) = true.
Proof.
  unfold toggle_succeeds. unfold_go. cbn.
  destruct (open_key_err (sys w)); cbn.
  { intros _. rewrite <- ?app_assoc, ?drop_app_length. cbn. auto. }
  destruct (get_value_err (sys w)); cbn.
  { intros _. rewrite <- ?app_assoc, ?drop_app_length. cbn. auto. }
  destruct (reg_hidden w) as [[x|x|]|] eqn:Hv; cbn;
    try (intros _; rewrite <- ?app_assoc, ?drop_app_length; cbn; auto; fail);
    destruct (set_value_err (sys w)); try discriminate; cbn;
    intros _; rewrite <- ?app_assoc, ?drop_app_length; cbn; auto.
Qed.

(** A call of [ToggleHidden] failed exactly when it logged an error. *)
Lemma ToggleHidden_error_logged (w : World) :
  toggle_succeeds w = false <-> existsb is_error (new_levels ToggleHidden w) = true.
Proof.
  split.
  - intros Hf. apply (ToggleHidden_fails w Hf).
  - intros He. destruct (toggle_succeeds w) eqn:Hok; [|reflexivity].
    assert (is_Some (stored_integer (reg_hidden w))) as [v Hv].
    { apply toggle_succeeds_spec in Hok as (_ & Hr & _).
      unfold read_error in Hr. destruct (get_value_err (sys w)); [discriminate|].
      destruct (reg_hidden w) as [[x|x|]|]; try discriminate; eauto. }
    destruct (ToggleHidden_succeeds w v Hok Hv) as (_ & _ & _ & Hn). congruence.
Qed.

Lemma opposite_range (v : Z) : opposite v = statusVisible \/ opposite v = statusHidden.
Proof. unfold opposite. destruct (v =? statusHidden); auto. Qed.

Lemma opposite_neq (v : Z) : opposite v <> v.
Proof.
  unfold opposite, statusHidden, statusVisible.
  destruct (Z.eqb_spec v 2); lia.
Qed.

Lemma opposite_involutive (v : Z) :
  opposite (opposite v) = v <-> v = statusVisible \/ v = statusHidden.
Proof.
  unfold opposite, statusHidden, statusVisible.
  destruct (Z.eqb_spec v 2) as [->|Hne]; simpl; [intuition lia|].
  split; [intros <-; auto|]. intros [-> | ->]; [reflexivity|contradiction].
Qed.

Lemma uint32_opposite (v : Z) : uint32 (opposite v) = opposite v.
Proof. destruct (opposite_range v) as [->| ->]; reflexivity. Qed.

(** C9. A successful [ToggleHidden] that reads the value [v] writes 1
    (Visible) if [v] is 2 (Hidden) and 2 (Hidden) for every other [v], also
    for values outside {1, 2}; the backing value and the status entry of the
    store are both that new value afterwards, a valid status in {1, 2}. *)
Theorem ToggleHidden_writes_opposite (w : World) (v : Z) :
  toggle_succeeds w = true ->
  stored_integer (reg_hidden w) = Some v ->
  let written := if v =? 2 then 1 else 2 in
  reg_hidden (exec ToggleHidden w) = Some (DWORD written) /\
  status (exec ToggleHidden w) = (written, true) /\
  (written = 1 \/ written = 2).
Proof.
  intros Hok Hv written.
  destruct (ToggleHidden_succeeds w v Hok Hv) as (Hd & Hr & _).
  rewrite uint32_opposite in Hr.
  split; [exact Hr|]. split.
  - unfold status. rewrite Hd. apply (Get_Set_eq state.TUint64 _ _ _ eq_refl).
  - apply opposite_range.
Qed.

Lemma ToggleHidden_writes_opposite_witness :
  let w := boot quiet (Some (DWORD 0)) in
  reg_hidden (exec ToggleHidden w) = Some (DWORD 2) /\
  status (exec ToggleHidden w) = (2, true) /\
  (2 = 1 \/ 2 = 2).
Proof.
  exact (ToggleHidden_writes_opposite (boot quiet (Some (DWORD 0))) 0 eq_refl eq_refl).
Defined.

(** The handles that a call of [ToggleHidden] leaves open, path by path:
    the two failure paths around the read leave none. *)
Lemma ToggleHidden_open_fails_handles (w : World) (e : string) :
  open_key_err (sys w) = Some e ->
  handles (exec ToggleHidden w) = handles w.
Proof. intros Ho. unfold_go. cbn. rewrite Ho. reflexivity. Qed.

Lemma ToggleHidden_write_fails_handles (w : World) (e : string) :
  open_key_err (sys w) = None ->
  read_error w = None ->
  set_value_err (sys w) = Some e ->
  handles (exec ToggleHidden w) = handles w.
Proof.
  intros Ho Hr Hs. unfold read_error in Hr. unfold_go. cbn. rewrite Ho. cbn.
  destruct (get_value_err (sys w)); [discriminate|]. cbn.
  destruct (reg_hidden w) as [[x|x|]|]; try discriminate; cbn;
    rewrite Hs; cbn; rewrite Pos.eqb_refl; reflexivity.
Qed.

(** C3, where the code departs from it. When the key opens and reading the
    value fails, [ToggleHidden] fails and leaves the status entry of the
    store as it was, but the key that the call opened is still open when the
    call returns: [GetKeyValuePair] hands back the key zero with the error,
    and [ToggleHidden] returns before its deferred [key.Close]. *)
Theorem ToggleHidden_read_failure_leaks_key (w : World) (e : string) :
  open_key_err (sys w) = None ->
  read_error w = Some e ->
  toggle_succeeds w = false /\
  data (exec ToggleHidden w) = data w /\
  handles (exec ToggleHidden w) = Z.pos (next_handle w) :: handles w.
Proof.
  intros Ho He.
  assert (toggle_succeeds w = false) as Hf.
  { destruct (toggle_succeeds w) eqn:Hok; [|reflexivity].
    apply toggle_succeeds_spec in Hok as (_ & Hr & _). congruence. }
  split; [exact Hf|]. split; [apply (ToggleHidden_fails w Hf)|].
  unfold read_error in He. unfold_go. cbn. rewrite Ho. cbn.
  destruct (get_value_err (sys w)); cbn; [reflexivity|].
  destruct (reg_hidden w) as [[x|x|]|]; try discriminate; reflexivity.
Qed.

Lemma ToggleHidden_read_failure_leaks_key_witness :
  let w := boot quiet None in
  toggle_succeeds w = false /\
  data (exec ToggleHidden w) = data w /\
  handles (exec ToggleHidden w) = [1].
Proof.
  exact (ToggleHidden_read_failure_leaks_key (boot quiet None)
           "The system cannot find the file specified." eq_refl eq_refl).
Defined.

(** Sequences of calls. *)
Lemma toggles_app (ss ss' : list System) (w : World) :
  toggles (ss ++ ss') w = toggles ss' (toggles ss w).
Proof. revert w. induction ss as [|s ss IH]; intros w; simpl; [reflexivity|apply IH]. Qed.

Lemma all_succeed_app (ss ss' : list System) (w : World) :
  all_succeed (ss ++ ss') w = all_succeed ss w && all_succeed ss' (toggles ss w).
Proof.
  revert w. induction ss as [|s ss IH]; intros w; simpl; [reflexivity|].
  rewrite IH, andb_assoc. reflexivity.
Qed.

Lemma iter_opposite_S (n : nat) (v : Z) :
  Nat.iter n opposite (opposite v) = opposite (Nat.iter n opposite v).
Proof. induction n as [|n IH]; simpl; [reflexivity|]. rewrite IH. reflexivity. Qed.

Lemma toggles_status (ss : list System) (w : World) (v0 : Z) :
  all_succeed ss w = true ->
  stored_integer (reg_hidden w) = Some v0 ->
  status w = (v0, true) ->
  status (toggles ss w) = (Nat.iter (length ss) opposite v0, true) /\
  stored_integer (reg_hidden (toggles ss w)) = Some (Nat.iter (length ss) opposite v0).
Proof.
  revert w v0. induction ss as [|s ss IH]; intros w v0 Hall Hv Hst; simpl.
  - auto.
  - simpl in Hall. apply andb_true_iff in Hall as [Hok Hall].
    destruct (ToggleHidden_succeeds (set_sys s w) v0 Hok Hv) as (Hd & Hr & _).
    rewrite uint32_opposite in Hr.
    rewrite <- iter_opposite_S. apply IH.
    + exact Hall.
    + rewrite Hr. reflexivity.
    + unfold status. rewrite Hd. apply (Get_Set_eq state.TUint64 _ _ _ eq_refl).
Qed.

(** C1, as the code has it. In a sequence of successful calls of
    [ToggleHidden] that starts with the backing value and the status entry
    both at [v0], the status entry after [n] calls is [v0] toggled [n] times,
    where toggling gives 1 (Visible) from 2 (Hidden) and 2 from any other
    value. So every call changes the status, from the first call on the
    status is 1 or 2 and alternates strictly between them, and two further
    calls restore the status exactly when it is 1 or 2: always after the
    first call, and from the start only if [v0] is 1 or 2. *)
Theorem toggles_alternate (ss : list System) (w : World) (v0 : Z) :
  all_succeed ss w = true ->
  stored_integer (reg_hidden w) = Some v0 ->
  status w = (v0, true) ->
  let after n := Nat.iter n opposite v0 in
  (forall n, (n <= length ss)%nat ->
     status (toggles (take n ss) w) = (after n, true) /\
     stored_integer (reg_hidden (toggles (take n ss) w)) = Some (after n)) /\
  (forall n, after (S n) <> after n /\ (after (S n) = 1 \/ after (S n) = 2)) /\
  (forall n, after (S (S n)) = after n <-> (0 < n)%nat \/ v0 = 1 \/ v0 = 2).
Proof.
  intros Hall Hv Hst after. split; [|split].
  - intros n Hn.
    assert (all_succeed (take n ss) w = true) as Hall'.
    { rewrite <- (take_drop n ss), all_succeed_app in Hall.
      apply andb_true_iff in Hall as [Hall _]. exact Hall. }
    pose proof (toggles_status (take n ss) w v0 Hall' Hv Hst) as Hs.
    rewrite length_take, Nat.min_l in Hs by exact Hn. exact Hs.
  - intros n. subst after. simpl. split; [apply opposite_neq|apply opposite_range].
  - intros n. subst after. simpl. rewrite opposite_involutive.
    destruct n as [|n]; simpl.
    + unfold statusVisible, statusHidden. split; [auto|]. intros [Hn|H]; [lia|exact H].
    + split; [intros _; left; lia|]. intros _. apply opposite_range.
Qed.

Lemma toggles_alternate_witness :
  let w := exec (@onReady asciiLib) (boot quiet (Some (DWORD 1))) in
  let after n := Nat.iter n opposite 1 in
  (forall n, (n <= 3)%nat ->
     status (toggles (take n [quiet; quiet; quiet]) w) = (after n, true) /\
     stored_integer (reg_hidden (toggles (take n [quiet; quiet; quiet]) w)) = Some (after n)) /\
  (forall n, after (S n) <> after n /\ (after (S n) = 1 \/ after (S n) = 2)) /\
  (forall n, after (S (S n)) = after n <-> (0 < n)%nat \/ 1 = 1 \/ 1 = 2).
Proof.
  exact (toggles_alternate [quiet; quiet; quiet]
           (exec (@onReady asciiLib) (boot quiet (Some (DWORD 1)))) 1
           eq_refl eq_refl eq_refl).
Defined.

(** C1 as stated fails when the value read at start-up is outside {1, 2}:
    with the backing value 0, start-up stores the status 0, the two calls
    that follow both succeed, and the status is then 1, not 0. *)
Lemma two_toggles_do_not_restore_zero :
  let w := exec (@onReady asciiLib) (boot quiet (Some (DWORD 0))) in
  status w = (0, true) /\
  reg_hidden w = Some (DWORD 0) /\
  all_succeed [quiet; quiet] w = true /\
  status (toggles [quiet] w) = (2, true) /\
  status (toggles [quiet; quiet] w) = (1, true) /\
  reg_hidden (toggles [quiet; quiet] w) = Some (DWORD 1) /\
  status (toggles [quiet; quiet] w) <> status w.
Proof.
  vm_compute. repeat split; discriminate.
Qed.


(** ** Running code step by step *)

Lemma run_pair {A : Type} (c : M A) (w : World) : c w = (eval c w, exec c w).
Proof. unfold eval, exec. destruct (c w). reflexivity. Qed.

Lemma exec_bind {A B : Type} (c : M A) (k : A -> M B) (w : World) :
  exec (bind c k) w = exec (k (eval c w)) (exec c w).
Proof. unfold exec, eval, bind. destruct (c w). reflexivity. Qed.

Lemma eval_bind {A B : Type} (c : M A) (k : A -> M B) (w : World) :
  eval (bind c k) w = eval (k (eval c w)) (exec c w).
Proof. unfold exec, eval, bind. destruct (c w). reflexivity. Qed.

Lemma exec_ret {A : Type} (a : A) (w : World) : exec (ret a) w = w.
Proof. reflexivity. Qed.

Lemma eval_ret {A : Type} (a : A) (w : World) : eval (ret a) w = a.
Proof. reflexivity. Qed.

Lemma exec_gets {A : Type} (f : World -> A) (w : World) : exec (gets f) w = w.
Proof. reflexivity. Qed.

Lemma eval_gets {A : Type} (f : World -> A) (w : World) : eval (gets f) w = f w.
Proof. reflexivity. Qed.

Lemma exec_modify (f : World -> World) (w : World) : exec (modify f) w = f w.
Proof. reflexivity. Qed.

Lemma exec_logf (l : Level) (msg : string) (a : list string) (w : World) :
  exec (logf l msg a) w = set_logs (fun ls => ls ++ [Log l msg a]) w.
Proof. reflexivity. Qed.

Lemma exec_unless_exited (c k : M unit) (w : World) :
  exec (unless_exited c k) w =
    match exit_code (exec c w) with
    | Some _ => exec c w
    | None => exec k (exec c w)
    end.
Proof.
  unfold exec, unless_exited. destruct (c w) as [u w1]. simpl.
  destruct (exit_code w1); reflexivity.
Qed.

Lemma exec_log_Fatal (msg : string) (w : World) :
  exit_code w = None ->
  exec (log_Fatal msg) w =
    set_exit_code (Some 1) (set_logs (fun ls => ls ++ [Log FatalLevel msg []]) w).
Proof.
  intros Hx. unfold log_Fatal, os_Exit. rewrite exec_bind, exec_logf, exec_modify.
  simpl. rewrite Hx. reflexivity.
Qed.

(** ** Start-up *)

Section Startup.
Context `{GoLib}.

Lemma schedule_exited (i : nat) (arg : Z) (w : World) (c : Z) :
  exit_code w = Some c -> schedule i arg w = w.
Proof. intros He. unfold schedule. rewrite He. reflexivity. Qed.

Lemma onReady_hotkey_failure (w : World) (e : string) :
  exit_code w = None ->
  hotkey_err (sys w) = Some e ->
  exec onReady w =
    set_exit_code (Some 1)
      (set_logs (fun ls => ls ++ [Log FatalLevel
                   ("Error registering global hotkey: " +:+ e) []])
         (set_logs (fun ls => ls ++ [Log InfoLevel "Application started" []]) w)).
Proof.
  intros Hx He. unfold onReady, log_Info.
  rewrite exec_bind, exec_logf, exec_bind, eval_gets, exec_gets.
  change (hotkey_err (sys (set_logs _ w))) with (hotkey_err (sys w)). rewrite He.
  rewrite exec_unless_exited, exec_unless_exited.
  rewrite exec_log_Fatal by exact Hx. reflexivity.
Qed.

(** C2, where the code departs from it. When [hk.Register] fails,
    [onReady] logs the message at the fatal level and the process exits
    with code 1 inside [log.Fatal]: the call of [msgbox] that follows is
    never reached, so no goroutine for the box is started and no box is
    shown, then or later. *)
Theorem onReady_hotkey_failure_exits_without_dialog (w : World) (e : string) :
  exit_code w = None ->
  hotkey_err (sys w) = Some e ->
  let w' := exec onReady w in
  exit_code w' = Some 1 /\
  logs w' = logs w ++ [Log InfoLevel "Application started" [];
                       Log FatalLevel ("Error registering global hotkey: " +:+ e) []] /\
  dialogs w' = dialogs w /\
  goroutines w' = goroutines w /\
  data w' = data w /\
  (forall i arg, dialogs (schedule i arg w') = dialogs w).
Proof.
  intros Hx He w'. subst w'. rewrite (onReady_hotkey_failure w e Hx He).
  split_and!; [reflexivity| |reflexivity|reflexivity|reflexivity|].
  - simpl. rewrite <- app_assoc. reflexivity.
  - intros i arg. rewrite (schedule_exited i arg _ 1) by reflexivity. reflexivity.
Qed.

End Startup.

Lemma onReady_hotkey_failure_exits_without_dialog_witness :
  let w' := exec (@onReady asciiLib)
              (boot (with_hotkey_err (Some "hotkey already registered") quiet)
                    (Some (DWORD 1))) in
  exit_code w' = Some 1 /\
  logs w' = [Log InfoLevel "Application started" [];
             Log FatalLevel "Error registering global hotkey: hotkey already registered" []] /\
  dialogs w' = [] /\
  goroutines w' = [] /\
  data w' = ∅ /\
  (forall i arg, dialogs (@schedule asciiLib i arg w') = []).
Proof.
  exact (@onReady_hotkey_failure_exits_without_dialog asciiLib
           (boot (with_hotkey_err (Some "hotkey already registered") quiet) (Some (DWORD 1)))
           "hotkey already registered" eq_refl eq_refl).
Defined.

(** ** The loops of the listeners *)

Section Loops.
Context `{GoLib}.







End Loops.

(** ** The identity test and the enumeration *)

Lemma same_core_refl (w : World) : same_core w w.
Proof. unfold same_core. tauto. Qed.

Lemma same_core_trans (w1 w2 w3 : World) :
  same_core w1 w2 -> same_core w2 w3 -> same_core w1 w3.
Proof. unfold same_core. intuition congruence. Qed.

Lemma existsb_pointwise {A : Type} (f g : A -> bool) (l : list A) :
  (forall x, f x = g x) -> existsb f l = existsb g l.
Proof.
  intros Hfg. induction l as [|x l IH]; simpl; [reflexivity|].
  rewrite Hfg, IH. reflexivity.
Qed.

Section Identity.
Context `{GoLib}.

Ltac unfold_win :=
  unfold IsFileExplorer, PostRefreshMessage, GetClassName, GetWindowThreadProcessId,
    OpenProcess, QueryFullProcessImageName, PostMessage, is_file_browser,
    passes_identity_test, same_core, getenv in *;
  unfold_go.

Lemma IsFileExplorer_spec (w : World) (hwnd : Z) :
  eval (IsFileExplorer hwnd) w = is_file_browser w hwnd /\
  same_core w (exec (IsFileExplorer hwnd) w) /\
  posted (exec (IsFileExplorer hwnd) w) = posted w.
Proof.
  unfold_win. cbn.
  destruct (find_window hwnd (windows (sys w))) as [x|] eqn:Hf; cbn;
    [|split_and!; reflexivity].
  destruct (w_class x) as [cls|]; cbn; [|split_and!; reflexivity].
  destruct (EqualFold cls "CabinetWClass"); cbn; rewrite ?Hf; cbn;
    destruct (w_pid x) as [pid|]; cbn; rewrite ?Hf; cbn;
    try (split_and!; reflexivity);
    destruct (w_open x); cbn; rewrite ?Hf; cbn; try (split_and!; reflexivity);
    destruct (w_image x) as [exe|]; cbn; try (split_and!; reflexivity).
  destruct (EqualFold _ _); cbn; split_and!; reflexivity.
Qed.

Lemma PostRefreshMessage_same_core (w : World) (hwnd : Z) :
  same_core w (exec (PostRefreshMessage hwnd) w).
Proof.
  unfold_win. cbn.
  destruct (find_window hwnd (windows (sys w))) as [x|]; cbn; [|split_and!; reflexivity].
  destruct (w_post x); cbn; split_and!; reflexivity.
Qed.

Lemma enumWindowsProc_spec (w : World) (hwnd found : Z) :
  eval (enumWindowsProc hwnd found) w =
    (1, if is_file_browser w hwnd then (if found =? 0 then 1 else found) else found) /\
  same_core w (exec (enumWindowsProc hwnd found) w).
Proof.
  destruct (IsFileExplorer_spec w hwnd) as (Hv & Hc & _).
  unfold enumWindowsProc. rewrite eval_bind, exec_bind, Hv.
  destruct (is_file_browser w hwnd).
  - rewrite eval_bind, exec_bind, eval_ret, exec_ret. split; [reflexivity|].
    eapply same_core_trans; [exact Hc|apply PostRefreshMessage_same_core].
  - rewrite eval_ret, exec_ret. split; [reflexivity|exact Hc].
Qed.

Lemma is_file_browser_same_core (w w' : World) (hwnd : Z) :
  same_core w w' -> is_file_browser w' hwnd = is_file_browser w hwnd.
Proof.
  intros (Hs & _). unfold is_file_browser, getenv. rewrite Hs. reflexivity.
Qed.

(** The enumeration visits every window of the list, whatever the queries
    about a window answer, and [found] ends at 1 exactly when it was not
    zero already or one of the windows passes the test. *)
Lemma enum_windows_spec (ws : list Window) (w : World) (found : Z) :
  eval (enum_windows enumWindowsProc ws found) w =
    (if existsb (fun x => is_file_browser w (w_hwnd x)) ws
     then (if found =? 0 then 1 else found) else found) /\
  same_core w (exec (enum_windows enumWindowsProc ws found) w).
Proof.
  revert w found. induction ws as [|x ws IH]; intros w found.
  - split; [reflexivity|apply same_core_refl].
  - destruct (enumWindowsProc_spec w (w_hwnd x) found) as (Hv & Hc).
    cbn [enum_windows existsb]. rewrite eval_bind, exec_bind, Hv.
    change (1 =? 0) with false. cbv iota beta.
    destruct (IH (exec (enumWindowsProc (w_hwnd x) found) w)
                (if is_file_browser w (w_hwnd x)
                 then (if found =? 0 then 1 else found) else found)) as (Hv' & Hc').
    split; [|eapply same_core_trans; [exact Hc|exact Hc']].
    rewrite Hv'.
    rewrite (existsb_pointwise _ (fun x => is_file_browser w (w_hwnd x))).
    2:{ intros y. apply is_file_browser_same_core. exact Hc. }
    destruct (is_file_browser w (w_hwnd x)); simpl.
    + destruct (found =? 0) eqn:E; simpl; rewrite ?E;
        repeat (destruct (existsb _ ws); simpl; rewrite ?E); reflexivity.
    + reflexivity.
Qed.

Lemma EnumWindows_spec (w : World) :
  eval (EnumWindows enumWindowsProc 0) w =
    match enum_windows_err (sys w) with
    | Some e => (Some e, 0)
    | None => (None, if file_browser_open w then 1 else 0)
    end /\
  same_core w (exec (EnumWindows enumWindowsProc 0) w).
Proof.
  unfold EnumWindows. rewrite eval_bind, exec_bind, eval_gets, exec_gets.
  destruct (enum_windows_err (sys w)) as [e|].
  - split; [reflexivity|apply same_core_refl].
  - rewrite eval_bind, exec_bind, eval_gets, exec_gets, eval_bind, exec_bind,
      eval_ret, exec_ret.
    destruct (enum_windows_spec (windows (sys w)) w 0) as (Hv & Hc).
    rewrite Hv. split; [|exact Hc].
    unfold file_browser_open. destruct (existsb _ _); reflexivity.
Qed.

(** C6. [IsFileExplorer] answers true exactly for a window whose class
    name equals [CabinetWClass] and whose process has the executable
    [<SystemRoot>\explorer.exe], both up to case, the path being cleaned
    first; a window for which a check fails, or about which a query of the
    system fails, gets false. Whatever the test answers, the callback of
    the enumeration returns 1, so the enumeration goes on to the next
    window, and [EnumWindows] reports an error only when the listing
    itself fails. *)
Theorem IsFileExplorer_identity_test (w : World) (hwnd : Z) :
  (eval (IsFileExplorer hwnd) w = true <->
     exists x className pid exe,
       find_window hwnd (windows (sys w)) = Some x /\
       w_class x = Ok className /\ w_pid x = Ok pid /\
       w_open x = None /\ w_image x = Ok exe /\
       EqualFold className "CabinetWClass" = true /\
       EqualFold (Clean exe) (Join (getenv "SystemRoot" w) "explorer.exe") = true) /\
  (forall found, fst (eval (enumWindowsProc hwnd found) w) = 1) /\
  fst (eval (EnumWindows enumWindowsProc 0) w) = enum_windows_err (sys w).
Proof.
  split; [|split].
  - destruct (IsFileExplorer_spec w hwnd) as (-> & _).
    unfold is_file_browser, passes_identity_test.
    destruct (find_window hwnd (windows (sys w))) as [x|].
    2:{ split; [discriminate|]. intros (x & ? & ? & ? & [=] & _). }
    destruct (w_class x) as [cls|e1] eqn:Hc.
    2:{ split; [discriminate|]. intros (y & ? & ? & ? & [= <-] & ? & _). congruence. }
    destruct (w_pid x) as [pid|e2] eqn:Hp.
    2:{ split; [discriminate|]. intros (y & ? & ? & ? & [= <-] & ? & ? & _). congruence. }
    destruct (w_open x) as [e3|] eqn:Ho.
    { split; [discriminate|].
      intros (y & ? & ? & ? & [= <-] & ? & ? & ? & _). congruence. }
    destruct (w_image x) as [exe|e4] eqn:Hi.
    2:{ split; [discriminate|].
        intros (y & ? & ? & ? & [= <-] & ? & ? & ? & ? & _). congruence. }
    rewrite andb_true_iff. split.
    + intros [H1 H2]. exists x, cls, pid, exe. auto 10.
    + intros (y & c & p & i & [= <-] & Hc' & Hp' & _ & Hi' & H1 & H2).
      rewrite Hc in Hc'. rewrite Hi in Hi'.
      injection Hc' as <-. injection Hi' as <-. auto.
  - intros found. destruct (enumWindowsProc_spec w hwnd found) as (-> & _). reflexivity.
  - destruct (EnumWindows_spec w) as (-> & _).
    destruct (enum_windows_err (sys w)); reflexivity.
Qed.

End Identity.

Lemma IsFileExplorer_identity_test_witness :
  let w := boot (with_windows [lookalike_window 11; explorer_window 10] quiet) None in
  eval (@IsFileExplorer asciiLib 10) w = true /\
  eval (@IsFileExplorer asciiLib 11) w = false.
Proof.
  pose (w := boot (with_windows [lookalike_window 11; explorer_window 10] quiet) None).
  destruct (@IsFileExplorer_identity_test asciiLib w 10) as ((_ & Hyes) & _).
  split.
  - apply Hyes.
    exists (explorer_window 10), "CabinetWClass", 4242, "C:\WINDOWS\Explorer.EXE".
    repeat split.
  - reflexivity.
Defined.

(** ** The watcher of foreground events *)

Lemma queue_of_insert (tid : Z) (q : list Message) (w : World) :
  queue_of tid (set_queues <[tid := q]> w) = q.
Proof. unfold queue_of. cbn. rewrite lookup_insert_eq. reflexivity. Qed.

Lemma eval_GetMessage (tid : Z) (w : World) :
  eval (GetMessage tid) w = head (queue_of tid w).
Proof. unfold eval, GetMessage. destruct (queue_of tid w); reflexivity. Qed.

Lemma exec_GetMessage (tid : Z) (w : World) :
  exec (GetMessage tid) w =
    match queue_of tid w with
    | [] => w
    | m :: q => set_queues <[tid := q]> w
    end.
Proof. unfold exec, GetMessage. destruct (queue_of tid w); reflexivity. Qed.

Lemma leaves_loop_quit : leaves_loop quit_message = true.
Proof. reflexivity. Qed.

Section FocusWatcher.
Context `{GoLib}.

Lemma winEventProc_frame (w : World) (eventHook event hwnd objectId c t tm : Z) :
  let w' := exec (winEventProc eventHook event hwnd objectId c t tm) w in
  data w' = data w /\ hooks w' = hooks w /\ queues w' = queues w /\ sys w' = sys w /\
  errCh w' = errCh w.
Proof.
  unfold winEventProc. destruct (negb (objectId =? 0)).
  { rewrite exec_ret. split_and!; reflexivity. }
  destruct (IsFileExplorer_spec w hwnd) as (_ & Hc & _).
  rewrite exec_bind. destruct (eval (IsFileExplorer hwnd) w).
  - rewrite exec_bind, exec_ret. unfold go. rewrite exec_modify.
    destruct Hc as (? & ? & ? & ? & ? & ? & _). split_and!; assumption.
  - rewrite exec_ret. destruct Hc as (? & ? & ? & ? & ? & ? & _). split_and!; assumption.
Qed.

Lemma DispatchMessage_frame (w : World) (hook : Z) (m : Message) :
  let w' := exec (DispatchMessage hook m) w in
  data w' = data w /\ hooks w' = hooks w /\ queues w' = queues w /\ sys w' = sys w /\
  errCh w' = errCh w.
Proof.
  unfold DispatchMessage. destruct (m_event m) as [[hwnd objectId]|].
  - rewrite exec_bind, exec_ret. apply winEventProc_frame.
  - rewrite exec_ret. split_and!; reflexivity.
Qed.

(** The loop, given at least as much fuel as there are messages: it is
    left exactly when one of the queued results is the quit signal or a
    failure; otherwise it has emptied the queue and blocks. It changes
    neither the store nor the hooks. *)
Lemma message_loop_spec (hook tid : Z) (n : nat) (w : World) :
  (length (queue_of tid w) <= n)%nat ->
  let w' := exec (message_loop n hook tid) w in
  eval (message_loop n hook tid) w = existsb leaves_loop (queue_of tid w) /\
  data w' = data w /\ hooks w' = hooks w /\ sys w' = sys w /\
  (eval (message_loop n hook tid) w = false -> queue_of tid w' = []).
Proof.
  revert w. induction n as [|n IH]; intros w Hlen.
  - destruct (queue_of tid w) as [|m q] eqn:Hq; [|simpl in Hlen; lia].
    cbn. split_and!; try reflexivity. intros _. exact Hq.
  - cbn [message_loop]. cbv zeta.
    rewrite eval_bind, exec_bind, eval_GetMessage, exec_GetMessage.
    destruct (queue_of tid w) as [|m q] eqn:Hq.
    { cbn. split_and!; try reflexivity. intros _. exact Hq. }
    cbn [head existsb]. unfold leaves_loop at 1.
    destruct (m_r1 m =? 0).
    { cbn. split_and!; try reflexivity. discriminate. }
    destruct (m_err m) as [e|].
    { cbn. split_and!; try reflexivity. discriminate. }
    cbn [orb]. rewrite eval_bind, exec_bind.
    set (w1 := set_queues <[tid := q]> w).
    destruct (DispatchMessage_frame w1 hook m) as (Hd & Hh & Hqs & Hs & _).
    set (w2 := exec (DispatchMessage hook m) w1) in *.
    assert (queue_of tid w2 = q) as Hq2.
    { unfold queue_of. rewrite Hqs. apply queue_of_insert. }
    assert (length (queue_of tid w2) <= n)%nat as Hlen2.
    { rewrite Hq2. simpl in Hlen. lia. }
    destruct (IH w2 Hlen2) as (Hv & Hd' & Hh' & Hs' & Hb).
    rewrite Hq2 in Hv. split_and!.
    + exact Hv.
    + rewrite Hd', Hd. reflexivity.
    + rewrite Hh', Hh. reflexivity.
    + rewrite Hs', Hs. reflexivity.
    + exact Hb.
Qed.

Lemma elem_of_unhook (hook t : Z) (l : list (Z * Z)) :
  (hook, t) ∉ filter (fun x => x.1 ≠ hook) l.
Proof. intros Hin. apply list_elem_of_filter in Hin as [Hne _]. apply Hne. reflexivity. Qed.

Lemma WatchMessageLoop_teardown_spec (hook : Z) (w : World) :
  hook <> 0 ->
  let w' := exec (WatchMessageLoop_teardown hook) w in
  (forall t, (hook, t) ∉ hooks w') /\
  hooks w' = filter (fun x => x.1 ≠ hook) (hooks w) /\
  data w' = delete "threadId_winEvent" (delete "hook_winEvent" (data w)).
Proof.
  intros Hne. unfold WatchMessageLoop_teardown.
  destruct (Z.eqb_spec hook 0) as [|_]; [contradiction|].
  cbn. split_and!; try reflexivity. intros t. apply elem_of_unhook.
Qed.

Lemma armed_false_without_hook (w : World) :
  data w !! "hook_winEvent" = None -> armed w = false.
Proof. intros Hn. unfold armed, state.Get. rewrite Hn. reflexivity. Qed.

Lemma WatchMessageLoop_pump_spec (hook tid : Z) (w : World) :
  hook <> 0 ->
  let w' := exec (WatchMessageLoop_pump hook tid) w in
  if existsb leaves_loop (queue_of tid w) then
    eval (WatchMessageLoop_pump hook tid) w = None /\
    (forall t, (hook, t) ∉ hooks w') /\
    hooks w' = filter (fun x => x.1 ≠ hook) (hooks w) /\
    data w' = delete "threadId_winEvent" (delete "hook_winEvent" (data w))
  else
    eval (WatchMessageLoop_pump hook tid) w = Some (GoMessagePump hook tid) /\
    queue_of tid w' = [] /\ hooks w' = hooks w /\ data w' = data w.
Proof.
  intros Hne. unfold WatchMessageLoop_pump.
  rewrite eval_bind, !exec_bind, eval_gets, exec_gets, eval_bind.
  destruct (message_loop_spec hook tid (length (queue_of tid w)) w (Nat.le_refl _))
    as (Hv & Hd & Hh & _ & Hb).
  rewrite Hv in *. destruct (existsb leaves_loop (queue_of tid w)).
  - rewrite eval_bind, exec_bind, eval_ret, exec_ret.
    destruct (WatchMessageLoop_teardown_spec hook
                (exec (message_loop (length (queue_of tid w)) hook tid) w) Hne)
      as (Hgone & Hh' & Hd').
    rewrite Hh in Hh'. rewrite Hd in Hd'. auto.
  - rewrite eval_ret, exec_ret. auto.
Qed.

(** The goroutine that [winEventProc] starts for a file-browser window
    posts the quit signal to the thread recorded in the store. *)
Lemma winEventProc_go_posts_quit (w : World) (hwnd tid : Z) :
  state.Get state.TUint32 "threadId_winEvent" (data w) = (tid, true) ->
  tid <> 0 ->
  post_thread_err (sys w) = None ->
  queue_of tid (exec (winEventProc_go hwnd) w) = queue_of tid w ++ [quit_message].
Proof.
  intros Hg Hne Hp. unfold winEventProc_go.
  destruct (PostRefreshMessage_same_core w hwnd) as (Hs & Hd & _ & _ & Hq & _).
  rewrite exec_bind, exec_bind. unfold state_Get at 1 2.
  rewrite eval_gets, exec_gets, Hd, Hg.
  destruct (Z.eqb_spec tid 0) as [|_]; [contradiction|].
  cbn [andb negb]. rewrite exec_bind. unfold PostThreadMessage_WM_QUIT.
  rewrite eval_bind, exec_bind, eval_gets, exec_gets, Hs, Hp.
  rewrite eval_bind, exec_bind, eval_ret, exec_ret, exec_modify, exec_ret.
  rewrite queue_of_insert. unfold queue_of. rewrite Hq. reflexivity.
Qed.

(** C8. When the message loop of the armed watcher ends, which it does
    exactly when [GetMessage] delivers the quit signal or fails, the
    goroutine unregisters its hook and deletes both entries of the store:
    the hook is no longer installed, neither [hook_winEvent] nor
    [threadId_winEvent] is set, and the watcher is idle. *)
Theorem watcher_idle_when_loop_ends (w : World) (hook tid : Z) :
  hook <> 0 ->
  let run := WatchMessageLoop_pump hook tid in
  (eval run w = None <-> existsb leaves_loop (queue_of tid w) = true) /\
  (eval run w = None ->
     (forall t, (hook, t) ∉ hooks (exec run w)) /\
     data (exec run w) !! "hook_winEvent" = None /\
     data (exec run w) !! "threadId_winEvent" = None /\
     state.Get state.THandle "hook_winEvent" (data (exec run w)) = (0, false) /\
     state.Get state.TUint32 "threadId_winEvent" (data (exec run w)) = (0, false) /\
     armed (exec run w) = false).
Proof.
  intros Hne run. subst run.
  pose proof (WatchMessageLoop_pump_spec hook tid w Hne) as Hspec. cbv zeta in Hspec.
  destruct (existsb leaves_loop (queue_of tid w)).
  - destruct Hspec as (Hv & Hgone & _ & Hd).
    assert (data (exec (WatchMessageLoop_pump hook tid) w) !! "hook_winEvent" = None)
      as Hh.
    { rewrite Hd, lookup_delete_ne by discriminate. apply lookup_delete_eq. }
    assert (data (exec (WatchMessageLoop_pump hook tid) w) !! "threadId_winEvent" = None)
      as Ht.
    { rewrite Hd. apply lookup_delete_eq. }
    split; [split; auto|]. intros _. split_and!; auto.
    + apply Get_unset. exact Hh.
    + apply Get_unset. exact Ht.
    + apply armed_false_without_hook. exact Hh.
  - destruct Hspec as (Hv & _). rewrite Hv. split; [split; discriminate|discriminate].
Qed.

End FocusWatcher.

Lemma watcher_idle_when_loop_ends_witness :
  let armed_world :=
    @schedule asciiLib 0 100
      (exec (@RefreshExplorerWindows asciiLib) (boot quiet (Some (DWORD 1)))) in
  let window_opened :=
    foreground_event 10 0
      (set_sys (with_windows [explorer_window 10] quiet) armed_world) in
  let quit_posted :=
    @schedule asciiLib 1 0 (@schedule asciiLib 0 0 window_opened) in
  let run := @WatchMessageLoop_pump asciiLib 1 100 in
  hooks quit_posted = [(1, 100)] /\
  @armed quit_posted = true /\
  eval run quit_posted = None /\
  (forall t, (1, t) ∉ hooks (exec run quit_posted)) /\
  data (exec run quit_posted) !! "hook_winEvent" = None /\
  data (exec run quit_posted) !! "threadId_winEvent" = None /\
  @armed (exec run quit_posted) = false.
Proof.
  intros armed_world window_opened quit_posted run.
  destruct (@watcher_idle_when_loop_ends asciiLib quit_posted 1 100 ltac:(discriminate))
    as ((_ & Hends) & Hidle).
  destruct (Hidle (Hends eq_refl)) as (Hgone & Hh & Ht & _ & _ & Ha).
  split; [reflexivity|]. split; [reflexivity|]. split; [exact (Hends eq_refl)|].
  split; [exact Hgone|]. split; [exact Hh|]. split; [exact Ht|exact Ha].
Defined.

(** ** Arming the watcher *)

Lemma armed_same_data (w w' : World) : data w' = data w -> armed w' = armed w.
Proof. intros Hd. unfold armed. rewrite Hd. reflexivity. Qed.

Section Arming.
Context `{GoLib}.

Lemma file_browser_open_same_core (w w' : World) :
  same_core w w' -> file_browser_open w' = file_browser_open w.
Proof.
  intros Hc. unfold file_browser_open. destruct Hc as (Hs & Hrest). rewrite Hs.
  apply existsb_pointwise. intros x. apply is_file_browser_same_core.
  unfold same_core. auto.
Qed.

Lemma RefreshExplorerWindows_spec (w : World) :
  let w' := exec RefreshExplorerWindows w in
  sys w' = sys w /\ data w' = data w /\ hooks w' = hooks w /\ queues w' = queues w /\
  goroutines w' =
    goroutines w ++ (if starts_watcher w then [GoWatchMessageLoop] else []).
Proof.
  unfold RefreshExplorerWindows, log_Debug, log_Warnf, starts_watcher.
  rewrite exec_bind, exec_logf. set (w1 := set_logs _ w).
  assert (same_core w w1) as Hc1 by (unfold same_core; split_and!; reflexivity).
  destruct (EnumWindows_spec w1) as (Hv & Hc2).
  pose proof (same_core_trans _ _ _ Hc1 Hc2) as Hc.
  set (w2 := exec (EnumWindows enumWindowsProc 0) w1) in *.
  rewrite exec_bind. fold w2. rewrite Hv.
  change (enum_windows_err (sys w1)) with (enum_windows_err (sys w)).
  rewrite (file_browser_open_same_core w w1 Hc1).
  destruct Hc as (Hs & Hd & Hg & Hh & Hq & _).
  destruct (enum_windows_err (sys w)) as [e|].
  { rewrite exec_logf. cbn. rewrite Hs, Hd, Hg, Hh, Hq, app_nil_r. auto. }
  destruct (file_browser_open w); cbn [negb andb].
  { change (1 =? 0) with false. cbv iota. rewrite exec_ret, Hs, Hd, Hg, Hh, Hq, app_nil_r.
    auto. }
  change (0 =? 0) with true. cbv iota.
  rewrite exec_bind, exec_logf. set (w3 := set_logs _ w2).
  rewrite exec_bind. unfold state_Get. rewrite eval_gets, exec_gets.
  change (data w3) with (data w2). rewrite Hd.
  unfold armed.
  destruct (state.Get state.THandle "hook_winEvent" (data w)) as [hook ok].
  destruct (ok && negb (hook =? 0)); cbn [negb].
  - rewrite exec_logf. cbn. rewrite Hs, Hd, Hg, Hh, Hq, app_nil_r. auto.
  - unfold WatchMessageLoop, go. rewrite exec_modify. cbn.
    rewrite Hs, Hd, Hg, Hh, Hq. auto.
Qed.

Lemma SetWinEventHook_ok (w : World) (tid : Z) :
  set_hook_err (sys w) = None ->
  eval (SetWinEventHook tid) w = Ok (Z.pos (next_handle w)) /\
  exec (SetWinEventHook tid) w =
    set_hooks (fun l => l ++ [(Z.pos (next_handle w), tid)])
      (set_next_handle (Pos.succ (next_handle w)) w).
Proof.
  intros He. unfold eval, exec, SetWinEventHook, bind, gets. rewrite He. auto.
Qed.

Lemma WatchMessageLoop_go_installs (w : World) (tid : Z) :
  set_hook_err (sys w) = None ->
  queue_of tid w = [] ->
  let hook := Z.pos (next_handle w) in
  let w' := exec (WatchMessageLoop_go tid) w in
  eval (WatchMessageLoop_go tid) w = Some (GoMessagePump hook tid) /\
  hooks w' = hooks w ++ [(hook, tid)] /\
  state.Get state.THandle "hook_winEvent" (data w') = (hook, true) /\
  state.Get state.TUint32 "threadId_winEvent" (data w') = (tid, true) /\
  armed w' = true.
Proof.
  intros He Hq hook w'. subst w'.
  unfold WatchMessageLoop_go, log_Debug.
  rewrite eval_bind, !exec_bind, exec_logf, eval_bind.
  set (w1 := set_logs _ w).
  destruct (SetWinEventHook_ok w1 tid He) as (Hev & Hex).
  change (next_handle w1) with (next_handle w) in Hev, Hex. fold hook in Hev, Hex.
  rewrite Hev, Hex.
  set (w2 := set_hooks _ _).
  rewrite !eval_bind, !exec_bind. unfold state_Set. rewrite !exec_modify, exec_logf.
  set (w3 := set_logs _ _).
  assert (queue_of tid w3 = []) as Hq3 by exact Hq.
  assert (Z.pos (next_handle w) <> 0) as Hne by discriminate.
  pose proof (WatchMessageLoop_pump_spec hook tid w3 Hne) as Hp. cbv zeta in Hp.
  rewrite Hq3 in Hp. cbn [existsb] in Hp. destruct Hp as (Hv & _ & Hh & Hd).
  fold hook in Hv, Hh, Hd |- *. rewrite Hv, Hh.
  assert (data (exec (WatchMessageLoop_pump hook tid) w3) =
            state.Set_ state.TUint32 "threadId_winEvent" tid
              (state.Set_ state.THandle "hook_winEvent" hook (data w))) as Hd'.
  { rewrite Hd. reflexivity. }
  split_and!; try reflexivity.
  - rewrite Hd', Get_Set_ne by discriminate. apply (Get_Set_eq state.THandle _ _ _ eq_refl).
  - rewrite Hd'. apply (Get_Set_eq state.TUint32 _ _ _ eq_refl).
  - unfold armed. rewrite Hd', Get_Set_ne by discriminate.
    rewrite (Get_Set_eq state.THandle _ _ _ eq_refl). reflexivity.
Qed.

Lemma WatchMessageLoop_go_fails (w : World) (tid : Z) (e : string) :
  set_hook_err (sys w) = Some e ->
  let w' := exec (WatchMessageLoop_go tid) w in
  eval (WatchMessageLoop_go tid) w = None /\
  hooks w' = hooks w /\ data w' = data w /\
  errCh w' = errCh w ++ ["failed call to SetWinEventHook: " +:+ e].
Proof.
  intros He. unfold WatchMessageLoop_go, SetWinEventHook. unfold_go. cbn.
  rewrite He. cbn. auto.
Qed.

End Arming.

Section ArmingRule.
Context `{GoLib}.

Lemma file_browser_open_sys (w w' : World) :
  sys w' = sys w -> file_browser_open w' = file_browser_open w.
Proof.
  intros Hs. unfold file_browser_open, is_file_browser, getenv. rewrite Hs. reflexivity.
Qed.

Lemma WatchMessageLoop_pump_empty (hook tid : Z) (w : World) :
  queue_of tid w = [] ->
  WatchMessageLoop_pump hook tid w = (Some (GoMessagePump hook tid), w).
Proof.
  intros Hq. unfold WatchMessageLoop_pump, bind, gets. rewrite Hq. reflexivity.
Qed.

(** What the goroutine of the watcher leaves as it was when it installs its
    hook and finds its queue empty. *)
Lemma WatchMessageLoop_go_frame (w : World) (tid : Z) :
  set_hook_err (sys w) = None ->
  queue_of tid w = [] ->
  let w' := exec (WatchMessageLoop_go tid) w in
  sys w' = sys w /\ queues w' = queues w /\ goroutines w' = goroutines w /\
  next_handle w' = Pos.succ (next_handle w).
Proof.
  intros He Hq w'. subst w'.
  unfold WatchMessageLoop_go, log_Debug.
  rewrite exec_bind, exec_logf.
  set (w1 := set_logs _ w).
  destruct (SetWinEventHook_ok w1 tid He) as (Hev & Hex).
  rewrite exec_bind, Hev, Hex.
  rewrite !exec_bind. unfold state_Set. rewrite !exec_modify, exec_logf.
  set (w3 := set_logs _ _).
  assert (queue_of tid w3 = []) as Hq3 by exact Hq.
  assert (exec (WatchMessageLoop_pump (Z.pos (next_handle w1)) tid) w3 = w3) as ->.
  { unfold exec. rewrite (WatchMessageLoop_pump_empty _ tid w3 Hq3). reflexivity. }
  split_and!; reflexivity.
Qed.

(** C7, where the code departs from it. A refresh that finds no window of
    the file browser while no hook is recorded only starts the goroutine
    that will install the hook and record it; until that goroutine has run
    the store still records no hook. A second refresh in between finds the
    watcher idle as well and starts a second goroutine; when the two have
    run, two hooks are installed at the same time. The guard of the refresh
    does hold back a refresh that comes once a hook is recorded. *)
Theorem refresh_race_installs_two_hooks (w : World) (tid1 tid2 : Z) :
  armed w = false ->
  enum_windows_err (sys w) = None ->
  file_browser_open w = false ->
  set_hook_err (sys w) = None ->
  queue_of tid1 w = [] ->
  queue_of tid2 w = [] ->
  let r1 := exec RefreshExplorerWindows w in
  let r2 := exec RefreshExplorerWindows r1 in
  let a1 := exec (WatchMessageLoop_go tid1) r2 in
  let a2 := exec (WatchMessageLoop_go tid2) a1 in
  let h1 := Z.pos (next_handle r2) in
  let h2 := Z.pos (Pos.succ (next_handle r2)) in
  goroutines r1 = goroutines w ++ [GoWatchMessageLoop] /\
  armed r1 = false /\ hooks r1 = hooks w /\
  goroutines r2 = goroutines w ++ [GoWatchMessageLoop; GoWatchMessageLoop] /\
  armed a1 = true /\ hooks a1 = hooks w ++ [(h1, tid1)] /\
  goroutines (exec RefreshExplorerWindows a1) = goroutines a1 /\
  hooks a2 = hooks w ++ [(h1, tid1); (h2, tid2)] /\
  h1 <> h2.
Proof.
  intros Ha He Hf Hk Hq1 Hq2 r1 r2 a1 a2 h1 h2.
  destruct (RefreshExplorerWindows_spec w) as (Hs1 & Hd1 & Hh1 & Hqs1 & Hg1).
  fold r1 in Hs1, Hd1, Hh1, Hqs1, Hg1.
  unfold starts_watcher in Hg1. rewrite He, Hf, Ha in Hg1. cbn [negb andb] in Hg1.
  assert (armed r1 = false) as Ha1 by (rewrite (armed_same_data w r1 Hd1); exact Ha).
  destruct (RefreshExplorerWindows_spec r1) as (Hs2 & Hd2 & Hh2 & Hqs2 & Hg2).
  fold r2 in Hs2, Hd2, Hh2, Hqs2, Hg2.
  unfold starts_watcher in Hg2.
  rewrite (file_browser_open_sys w r1 Hs1), Hs1, He, Hf, Ha1 in Hg2.
  cbn [negb andb] in Hg2.
  assert (set_hook_err (sys r2) = None) as Hk2 by (rewrite Hs2, Hs1; exact Hk).
  assert (queue_of tid1 r2 = []) as Hq1' by (unfold queue_of; rewrite Hqs2, Hqs1; exact Hq1).
  destruct (WatchMessageLoop_go_installs r2 tid1 Hk2 Hq1') as (_ & Hha & _ & _ & Haa).
  destruct (WatchMessageLoop_go_frame r2 tid1 Hk2 Hq1') as (Hsa & Hqa & _ & Hna).
  fold a1 in Hha, Haa, Hsa, Hqa, Hna.
  assert (set_hook_err (sys a1) = None) as Hk3 by (rewrite Hsa; exact Hk2).
  assert (queue_of tid2 a1 = []) as Hq2'.
  { unfold queue_of. rewrite Hqa, Hqs2, Hqs1. exact Hq2. }
  destruct (WatchMessageLoop_go_installs a1 tid2 Hk3 Hq2') as (_ & Hhb & _).
  fold a2 in Hhb.
  destruct (RefreshExplorerWindows_spec a1) as (_ & _ & _ & _ & Hg3).
  unfold starts_watcher in Hg3. rewrite Haa, andb_false_r in Hg3.
  split_and!.
  - exact Hg1.
  - exact Ha1.
  - exact Hh1.
  - rewrite Hg2, Hg1, <- app_assoc. reflexivity.
  - exact Haa.
  - rewrite Hha, Hh2, Hh1. reflexivity.
  - rewrite Hg3. destruct (enum_windows_err (sys a1)); apply app_nil_r.
  - rewrite Hhb, Hha, Hh2, Hh1, Hna, <- app_assoc. reflexivity.
  - unfold h1, h2. intros [= Hp]. lia.
Qed.

End ArmingRule.

Lemma refresh_race_installs_two_hooks_witness :
  let w := @schedule asciiLib 1 0 (exec (@onReady asciiLib) (boot quiet (Some (DWORD 1)))) in
  let r1 := exec (@RefreshExplorerWindows asciiLib) w in
  let r2 := exec (@RefreshExplorerWindows asciiLib) r1 in
  let a1 := exec (@WatchMessageLoop_go asciiLib 100) r2 in
  let a2 := exec (@WatchMessageLoop_go asciiLib 200) a1 in
  hooks w = [] /\
  goroutines r2 =
    [GoHotkey; GoRegistryWait 6 7; GoWatchMessageLoop; GoWatchMessageLoop] /\
  armed a1 = true /\
  hooks a2 = [(8, 100); (9, 200)].
Proof.
  intros w r1 r2 a1 a2.
  destruct (@refresh_race_installs_two_hooks asciiLib w 100 200
              eq_refl eq_refl eq_refl eq_refl eq_refl eq_refl)
    as (_ & _ & _ & Hg & Ha & _ & _ & Hh & _).
  split; [reflexivity|]. split; [exact Hg|]. split; [exact Ha|exact Hh].
Defined.

(** The same in a run of the whole program. The hotkey is pressed twice and
    the registry watcher wakes twice, each time before the goroutine started
    by the refresh of the time before has run; both refreshes find no window
    and no recorded hook, both start a watcher, and once the two goroutines
    have run two hooks are installed at the same time. *)
Example two_watchers_in_one_run :
  let w1 := exec (@onReady asciiLib) (boot quiet (Some (DWORD 1))) in
  let w2 := @schedule asciiLib 1 0 w1 in
  let w3 := @schedule asciiLib 0 0 w2 in
  let w4 := @schedule asciiLib 1 WAIT_OBJECT_0 w3 in
  let w5 := @schedule asciiLib 0 0 w4 in
  let w6 := @schedule asciiLib 1 WAIT_OBJECT_0 w5 in
  let w7 := @schedule asciiLib 2 100 w6 in
  let w8 := @schedule asciiLib 3 200 w7 in
  goroutines w2 = [GoHotkey; GoRegistryWait 6 7] /\
  goroutines w4 = [GoHotkey; GoRegistryWait 6 7; GoWatchMessageLoop] /\
  armed w5 = false /\
  goroutines w6 =
    [GoHotkey; GoRegistryWait 6 7; GoWatchMessageLoop; GoWatchMessageLoop] /\
  goroutines w8 =
    [GoHotkey; GoRegistryWait 6 7; GoMessagePump 12 100; GoMessagePump 13 200] /\
  hooks w8 = [(12, 100); (13, 200)].
Proof.
  vm_compute. split_and!; reflexivity.
Qed.

(** * Further properties of the code *)

(** ** Refreshing the windows *)

Section Broadcast.
Context `{GoLib}.

Lemma PostRefreshMessage_posted (w : World) (hwnd : Z) :
  posted (exec (PostRefreshMessage hwnd) w) =
    posted w ++ (if accepts_post w hwnd then [refresh_message hwnd] else []).
Proof.
  unfold PostRefreshMessage, PostMessage, accepts_post, refresh_message. unfold_go. cbn.
  destruct (find_window hwnd (windows (sys w))) as [x|]; cbn; [|rewrite app_nil_r; reflexivity].
  destruct (w_post x); cbn; [rewrite app_nil_r|]; reflexivity.
Qed.

Lemma accepts_post_same_core (w w' : World) (hwnd : Z) :
  same_core w w' -> accepts_post w' hwnd = accepts_post w hwnd.
Proof. intros (Hs & _). unfold accepts_post. rewrite Hs. reflexivity. Qed.

(** The windows that a refresh reaches: those that pass the test and accept
    the message. *)
Lemma enumWindowsProc_posted (w : World) (hwnd found : Z) :
  posted (exec (enumWindowsProc hwnd found) w) =
    posted w ++ (if is_file_browser w hwnd && accepts_post w hwnd
                 then [refresh_message hwnd] else []).
Proof.
  destruct (IsFileExplorer_spec w hwnd) as (Hv & Hc & Hp).
  unfold enumWindowsProc. rewrite exec_bind, Hv.
  destruct (is_file_browser w hwnd); cbn [andb].
  - rewrite exec_bind, exec_ret, PostRefreshMessage_posted, Hp.
    rewrite (accepts_post_same_core w _ hwnd Hc). reflexivity.
  - rewrite exec_ret, Hp, app_nil_r. reflexivity.
Qed.

Lemma enum_windows_posted (ws : list Window) (w : World) (found : Z) :
  posted (exec (enum_windows enumWindowsProc ws found) w) =
    posted w ++
    map refresh_message
      (filter (fun hwnd => is_file_browser w hwnd && accepts_post w hwnd = true)
              (map w_hwnd ws)).
Proof.
  revert w found. induction ws as [|x ws IH]; intros w found.
  - cbn. rewrite app_nil_r. reflexivity.
  - destruct (enumWindowsProc_spec w (w_hwnd x) found) as (Hv & Hc).
    cbn [enum_windows]. rewrite exec_bind, Hv.
    change (1 =? 0) with false. cbv iota beta.
    rewrite IH, enumWindowsProc_posted, <- app_assoc. f_equal.
    cbn [map]. rewrite filter_cons.
    rewrite (list_filter_iff _
               (fun hwnd => is_file_browser w hwnd && accepts_post w hwnd = true)
               (map w_hwnd ws)).
    2:{ intros hwnd. rewrite (is_file_browser_same_core w _ hwnd Hc),
          (accepts_post_same_core w _ hwnd Hc). reflexivity. }
    destruct (is_file_browser w (w_hwnd x) && accepts_post w (w_hwnd x)) eqn:E.
    + rewrite decide_True by reflexivity. reflexivity.
    + rewrite decide_False by discriminate. reflexivity.
Qed.

Lemma RefreshExplorerWindows_posted (w : World) :
  posted (exec RefreshExplorerWindows w) = posted w ++ refresh_posts w.
Proof.
  unfold refresh_posts, RefreshExplorerWindows, log_Debug, log_Warnf.
  rewrite exec_bind, exec_logf. set (w1 := set_logs _ w).
  assert (same_core w w1) as Hc1 by (unfold same_core; split_and!; reflexivity).
  destruct (EnumWindows_spec w1) as (Hv & Hc2).
  rewrite exec_bind, Hv.
  assert (posted (exec (EnumWindows enumWindowsProc 0) w1) =
            posted w ++
            match enum_windows_err (sys w) with
            | Some _ => []
            | None =>
                map refresh_message
                  (filter (fun hwnd =>
                             is_file_browser w hwnd && accepts_post w hwnd = true)
                          (map w_hwnd (windows (sys w))))
            end) as Hp.
  { unfold EnumWindows. rewrite exec_bind, eval_gets, exec_gets.
    change (enum_windows_err (sys w1)) with (enum_windows_err (sys w)).
    destruct (enum_windows_err (sys w)).
    - rewrite exec_ret, app_nil_r. reflexivity.
    - rewrite exec_bind, eval_gets, exec_gets, exec_bind, exec_ret.
      rewrite enum_windows_posted. reflexivity. }
  change (enum_windows_err (sys w1)) with (enum_windows_err (sys w)).
  destruct (enum_windows_err (sys w)) as [e|].
  { rewrite exec_logf. exact Hp. }
  destruct (file_browser_open w1).
  { change (1 =? 0) with false. cbv iota. rewrite exec_ret. exact Hp. }
  change (0 =? 0) with true. cbv iota.
  rewrite exec_bind, exec_logf, exec_bind. unfold state_Get.
  rewrite eval_gets, exec_gets.
  destruct (state.Get state.THandle "hook_winEvent" _) as [hook ok].
  destruct (ok && negb (hook =? 0)).
  + rewrite exec_logf. exact Hp.
  + unfold WatchMessageLoop, go. rewrite exec_modify. exact Hp.
Qed.

(** X1. The refresh command arrives at exactly those open windows that pass
    the identity test and whose post the system accepts, once for each entry
    of the listing and in its order; a window that passes the test but
    refuses the post gets none, and no other window does. When the listing
    fails, nothing is posted and no watcher is started. *)
Theorem RefreshExplorerWindows_broadcast (w : World) :
  let w' := exec RefreshExplorerWindows w in
  posted w' =
    posted w ++
    match enum_windows_err (sys w) with
    | Some _ => []
    | None =>
        map refresh_message
          (filter (fun hwnd => is_file_browser w hwnd && accepts_post w hwnd = true)
                  (map w_hwnd (windows (sys w))))
    end /\
  (enum_windows_err (sys w) <> None -> goroutines w' = goroutines w).
Proof.
  intros w'. split.
  - apply RefreshExplorerWindows_posted.
  - intros He. destruct (RefreshExplorerWindows_spec w) as (_ & _ & _ & _ & Hg).
    fold w' in Hg. rewrite Hg. unfold starts_watcher.
    destruct (enum_windows_err (sys w)); [apply app_nil_r|contradiction].
Qed.

End Broadcast.

Lemma RefreshExplorerWindows_broadcast_witness :
  let w := boot (with_windows [lookalike_window 11; explorer_window 10;
                               protected_window 12; explorer_window 14] quiet) None in
  posted (exec (@RefreshExplorerWindows asciiLib) w) =
    [(10, 273, 41504, 0); (14, 273, 41504, 0)].
Proof.
  intros w. destruct (@RefreshExplorerWindows_broadcast asciiLib w) as (Hp & _).
  rewrite Hp. reflexivity.
Defined.

(** ** The handles of the identity test *)

Lemma remove1_absent (h : Z) (l : list Z) : h ∉ l -> remove1 h l = l.
Proof.
  induction l as [|x l IH]; intros Hn; simpl; [reflexivity|].
  destruct (Z.eqb_spec x h) as [->|Hne].
  - exfalso. apply Hn. left.
  - rewrite IH; [reflexivity|]. intros Hin. apply Hn. right. exact Hin.
Qed.

Section TestHandles.
Context `{GoLib}.

(** X2. The identity test closes the process handle it opens, except when
    the query of the image name fails: then the handle stays open. (Zero is
    no handle of the system; the test calls [CloseHandle] on it when the
    process does not open.) *)
Theorem IsFileExplorer_handles (w : World) (hwnd : Z) :
  0 ∉ handles w ->
  handles (exec (IsFileExplorer hwnd) w) =
    if image_query_fails w hwnd
    then Z.pos (next_handle w) :: handles w
    else handles w.
Proof.
  intros Hz. unfold image_query_fails.
  unfold IsFileExplorer, GetClassName, GetWindowThreadProcessId, OpenProcess,
    QueryFullProcessImageName, getenv. unfold_go. cbn.
  destruct (find_window hwnd (windows (sys w))) as [x|] eqn:Hf; cbn; [|reflexivity].
  destruct (w_class x) as [cls|]; cbn; [|reflexivity].
  destruct (EqualFold cls "CabinetWClass"); cbn; rewrite ?Hf; cbn;
    destruct (w_pid x) as [pid|]; cbn; rewrite ?Hf; cbn; try reflexivity;
    destruct (w_open x); cbn; rewrite ?Hf; cbn;
    try (rewrite (remove1_absent 0 (handles w) Hz); reflexivity);
    destruct (w_image x) as [exe|]; cbn; try reflexivity.
  destruct (EqualFold _ _); cbn; rewrite Pos.eqb_refl; reflexivity.
Qed.

End TestHandles.

Lemma IsFileExplorer_handles_witness :
  let stuck := {| w_hwnd := 20; w_class := Ok "CabinetWClass"; w_pid := Ok 9;
                  w_open := None; w_image := Err "Insufficient buffer.";
                  w_post := None |} in
  let w := boot (with_windows [explorer_window 10; stuck] quiet) None in
  handles (exec (@IsFileExplorer asciiLib 10) w) = [] /\
  handles (exec (@IsFileExplorer asciiLib 20) w) = [1].
Proof.
  intros stuck w. split.
  - rewrite (@IsFileExplorer_handles asciiLib w 10) by (apply not_elem_of_nil).
    reflexivity.
  - rewrite (@IsFileExplorer_handles asciiLib w 20) by (apply not_elem_of_nil).
    reflexivity.
Defined.

(** ** The hook procedure and its goroutine *)

Section HookProcedure.
Context `{GoLib}.

Lemma winEventProc_effect
    (w : World) (eventHook event hwnd objectId childId eventThreadId eventTime : Z) :
  let call := winEventProc eventHook event hwnd objectId childId eventThreadId eventTime in
  eval call w = 0 /\
  goroutines (exec call w) =
    goroutines w ++
    (if (objectId =? 0) && is_file_browser w hwnd then [GoEventRefresh hwnd] else []) /\
  posted (exec call w) = posted w /\
  queues (exec call w) = queues w /\
  data (exec call w) = data w.
Proof.
  intros call. subst call. unfold winEventProc.
  destruct (objectId =? 0); cbn [negb andb].
  2:{ rewrite eval_ret, exec_ret, app_nil_r. split_and!; reflexivity. }
  destruct (IsFileExplorer_spec w hwnd) as (Hv & Hc & Hp).
  destruct Hc as (_ & Hd & Hg & _ & Hq & _).
  rewrite eval_bind, exec_bind, Hv. destruct (is_file_browser w hwnd).
  - rewrite eval_bind, exec_bind, eval_ret, exec_ret. unfold go. rewrite exec_modify.
    cbn. rewrite Hg, Hp, Hq, Hd. split_and!; reflexivity.
  - rewrite eval_ret, exec_ret, app_nil_r. split_and!; auto.
Qed.

(** X3. The hook procedure always returns 0 and posts nothing itself; it
    starts one goroutine for the window when the event is for the window
    itself (object id zero) and the window passes the identity test, and
    starts nothing for any other event. *)
Theorem winEventProc_starts_refresh
    (w : World) (eventHook event hwnd objectId childId eventThreadId eventTime : Z) :
  let call := winEventProc eventHook event hwnd objectId childId eventThreadId eventTime in
  eval call w = 0 /\
  goroutines (exec call w) =
    goroutines w ++
    (if (objectId =? 0) && is_file_browser w hwnd then [GoEventRefresh hwnd] else []) /\
  posted (exec call w) = posted w /\
  queues (exec call w) = queues w /\
  data (exec call w) = data w.
Proof. apply winEventProc_effect. Qed.

Lemma winEventProc_go_spec (w : World) (hwnd : Z) :
  let w' := exec (winEventProc_go hwnd) w in
  posted w' = posted w ++ (if accepts_post w hwnd then [refresh_message hwnd] else []) /\
  queues w' =
    match state.Get state.TUint32 "threadId_winEvent" (data w), post_thread_err (sys w) with
    | (tid, true), None =>
        if tid =? 0 then queues w
        else <[tid := queue_of tid w ++ [quit_message]]> (queues w)
    | _, _ => queues w
    end /\
  data w' = data w /\ hooks w' = hooks w.
Proof.
  intros w'. subst w'. unfold winEventProc_go.
  destruct (PostRefreshMessage_same_core w hwnd) as (Hs & Hd & _ & Hh & Hq & _).
  pose proof (PostRefreshMessage_posted w hwnd) as Hp.
  set (w1 := exec (PostRefreshMessage hwnd) w) in *.
  rewrite exec_bind. fold w1. rewrite exec_bind. unfold state_Get.
  rewrite eval_gets, exec_gets, Hd.
  destruct (state.Get state.TUint32 "threadId_winEvent" (data w)) as [tid ok].
  destruct ok; cbn [andb].
  2:{ rewrite exec_ret. destruct (post_thread_err (sys w)); split_and!; assumption. }
  destruct (tid =? 0); cbn [negb].
  { rewrite exec_ret. destruct (post_thread_err (sys w)); split_and!; assumption. }
  rewrite exec_bind. unfold PostThreadMessage_WM_QUIT.
  rewrite eval_bind, exec_bind, eval_gets, exec_gets, Hs.
  destruct (post_thread_err (sys w)) as [e|].
  - rewrite eval_ret, exec_ret. unfold log_Warnf. rewrite exec_logf.
    split_and!; assumption.
  - rewrite eval_bind, exec_bind, eval_ret, exec_ret, exec_modify, exec_ret.
    cbn. unfold queue_of. rewrite Hq, Hp, Hd, Hh. split_and!; reflexivity.
Qed.

(** X4. The goroutine that the hook procedure starts posts the refresh
    command to the window and then the quit signal to the thread that the
    store records; it posts no quit signal when no thread id, or the id zero,
    is recorded, or when the system refuses the post. It changes neither the
    store nor the hooks. *)
Theorem winEventProc_go_effect (w : World) (hwnd : Z) :
  let w' := exec (winEventProc_go hwnd) w in
  posted w' = posted w ++ (if accepts_post w hwnd then [refresh_message hwnd] else []) /\
  queues w' =
    match state.Get state.TUint32 "threadId_winEvent" (data w), post_thread_err (sys w) with
    | (tid, true), None =>
        if tid =? 0 then queues w
        else <[tid := queue_of tid w ++ [quit_message]]> (queues w)
    | _, _ => queues w
    end /\
  data w' = data w /\ hooks w' = hooks w.
Proof. apply winEventProc_go_spec. Qed.

(** X5. As long as neither the quit signal nor a failure is in its queue, the
    message loop handles every queued message and then blocks on the empty
    queue: the goroutine stays in the pool, its hook stays installed and the
    store is untouched, so events for other windows never disarm the
    watcher. *)
Theorem watcher_stays_armed (w : World) (hook tid : Z) :
  hook <> 0 ->
  existsb leaves_loop (queue_of tid w) = false ->
  let w' := exec (WatchMessageLoop_pump hook tid) w in
  eval (WatchMessageLoop_pump hook tid) w = Some (GoMessagePump hook tid) /\
  queue_of tid w' = [] /\ hooks w' = hooks w /\ data w' = data w /\
  armed w' = armed w.
Proof.
  intros Hne Hq w'. pose proof (WatchMessageLoop_pump_spec hook tid w Hne) as Hs.
  cbv zeta in Hs. rewrite Hq in Hs. destruct Hs as (Hv & He & Hh & Hd).
  fold w' in He, Hh, Hd. split_and!; try assumption.
  apply armed_same_data. exact Hd.
Qed.

End HookProcedure.

Lemma watcher_stays_armed_witness :
  let armed_world :=
    @schedule asciiLib 0 100
      (exec (@RefreshExplorerWindows asciiLib) (boot quiet (Some (DWORD 1)))) in
  let w :=
    foreground_event 11 0
      (set_sys (with_windows [lookalike_window 11] quiet) armed_world) in
  let w' := exec (@WatchMessageLoop_pump asciiLib 1 100) w in
  queue_of 100 w = [window_event 11] /\
  eval (@WatchMessageLoop_pump asciiLib 1 100) w = Some (GoMessagePump 1 100) /\
  queue_of 100 w' = [] /\ hooks w' = [(1, 100)] /\ data w' = data w /\
  armed w' = true.
Proof.
  intros armed_world w w'. split; [reflexivity|].
  exact (@watcher_stays_armed asciiLib w 1 100 ltac:(discriminate) eq_refl).
Defined.

(** ** One arming, one window *)

Section SingleShot.
Context `{GoLib}.




End SingleShot.


(** ** The registry watcher *)

Lemma GetKeyValuePair_same_core (closeKey : bool) (w : World) :
  same_core w (exec (GetKeyValuePair closeKey) w) /\
  posted (exec (GetKeyValuePair closeKey) w) = posted w.
Proof.
  unfold same_core. unfold_go. cbn.
  destruct (open_key_err (sys w)); cbn; [split_and!; reflexivity|].
  destruct (get_value_err (sys w)); cbn.
  { destruct closeKey; cbn; split_and!; reflexivity. }
  destruct (reg_hidden w) as [[x|x|]|] eqn:Hr; destruct closeKey; cbn;
    split_and!; try reflexivity; exact Hr.
Qed.

Lemma read_failure_None (w : World) :
  read_failure w = None ->
  open_key_err (sys w) = None /\ get_value_err (sys w) = None /\
  is_Some (stored_integer (reg_hidden w)).
Proof.
  unfold read_failure, read_error.
  destruct (open_key_err (sys w)); [discriminate|].
  destruct (get_value_err (sys w)); [discriminate|].
  destruct (reg_hidden w) as [[x|x|]|]; try discriminate; eauto.
Qed.

Lemma RefreshSystray_effect (w : World) :
  let w' := exec RefreshSystray w in
  same_core w (set_tray (fun _ => tray w) w') /\
  tray w' = tray w ++ tray_for (app_name (sys w)) (data w) /\
  handles w' = handles w /\ posted w' = posted w.
Proof.
  unfold RefreshSystray, tray_for, same_core, status. unfold_go. cbn.
  destruct (state.Get state.TMenuItem "menu_toggle" (data w)) as [toggle ok1].
  destruct ok1; cbn; [|rewrite app_nil_r; split_and!; reflexivity].
  destruct (state.Get state.TUint64 "status_hidden" (data w)) as [hidden ok2].
  destruct ok2; cbn; [|rewrite app_nil_r; split_and!; reflexivity].
  destruct (hidden =? statusHidden); cbn; split_and!; reflexivity.
Qed.

Lemma elem_of_remove1_ne (h y : Z) (l : list Z) : h <> y -> h ∈ l -> h ∈ remove1 y l.
Proof.
  intros Hne. induction l as [|x l IH]; intros Hin; simpl; [exact Hin|].
  destruct (Z.eqb_spec x y) as [->|Hxy].
  - apply elem_of_cons in Hin as [->|Hin]; [contradiction|exact Hin].
  - apply elem_of_cons in Hin as [->|Hin]; [left|right; apply IH; exact Hin].
Qed.

Lemma handles_kept_refl (w : World) : handles_kept w w.
Proof. intros h _ Hin. exact Hin. Qed.

Lemma handles_kept_trans (w1 w2 w3 : World) :
  handles_kept w1 w2 -> handles_kept w2 w3 -> handles_kept w1 w3.
Proof. intros H12 H23 h Hne Hin. apply H23, H12; assumption. Qed.

Lemma handles_kept_eq (w w' : World) : handles w' = handles w -> handles_kept w w'.
Proof. intros He h _ Hin. rewrite He. exact Hin. Qed.

Section RegistryWatcher.
Context `{GoLib}.

Lemma IsFileExplorer_handles_kept (w : World) (hwnd : Z) :
  handles_kept w (exec (IsFileExplorer hwnd) w).
Proof.
  intros h Hne Hin.
  unfold IsFileExplorer, GetClassName, GetWindowThreadProcessId, OpenProcess,
    QueryFullProcessImageName, getenv. unfold_go. cbn.
  destruct (find_window hwnd (windows (sys w))) as [x|] eqn:Hf; cbn; [|exact Hin].
  destruct (w_class x) as [cls|]; cbn; [|exact Hin].
  destruct (EqualFold cls "CabinetWClass"); cbn; rewrite ?Hf; cbn;
    destruct (w_pid x) as [pid|]; cbn; rewrite ?Hf; cbn; try exact Hin;
    destruct (w_open x); cbn; rewrite ?Hf; cbn;
    try (apply elem_of_remove1_ne; [exact Hne|exact Hin]);
    destruct (w_image x) as [exe|]; cbn; try exact Hin;
    try (right; exact Hin).
  destruct (EqualFold _ _); cbn; rewrite Pos.eqb_refl; exact Hin.
Qed.

Lemma PostRefreshMessage_handles (w : World) (hwnd : Z) :
  handles (exec (PostRefreshMessage hwnd) w) = handles w.
Proof.
  unfold PostRefreshMessage, PostMessage. unfold_go. cbn.
  destruct (find_window hwnd (windows (sys w))) as [x|]; cbn; [|reflexivity].
  destruct (w_post x); reflexivity.
Qed.

Lemma enumWindowsProc_handles_kept (w : World) (hwnd found : Z) :
  handles_kept w (exec (enumWindowsProc hwnd found) w).
Proof.
  unfold enumWindowsProc. rewrite exec_bind.
  destruct (eval (IsFileExplorer hwnd) w).
  - rewrite exec_bind, exec_ret.
    eapply handles_kept_trans; [apply IsFileExplorer_handles_kept|].
    apply handles_kept_eq, PostRefreshMessage_handles.
  - rewrite exec_ret. apply IsFileExplorer_handles_kept.
Qed.

Lemma enum_windows_handles_kept (ws : list Window) (w : World) (found : Z) :
  handles_kept w (exec (enum_windows enumWindowsProc ws found) w).
Proof.
  revert w found. induction ws as [|x ws IH]; intros w found.
  - apply handles_kept_refl.
  - destruct (enumWindowsProc_spec w (w_hwnd x) found) as (Hv & _).
    cbn [enum_windows]. rewrite exec_bind, Hv.
    change (1 =? 0) with false. cbv iota beta.
    eapply handles_kept_trans; [apply enumWindowsProc_handles_kept|apply IH].
Qed.

(** What a refresh leaves alone, besides what [RefreshExplorerWindows_spec]
    lists; and it closes no handle that was open. *)
Lemma RefreshExplorerWindows_frame (w : World) :
  let w' := exec RefreshExplorerWindows w in
  reg_hidden w' = reg_hidden w /\ errCh w' = errCh w /\ tray w' = tray w /\
  exit_code w' = exit_code w /\ dialogs w' = dialogs w /\ handles_kept w w'.
Proof.
  unfold RefreshExplorerWindows, log_Debug, log_Warnf.
  rewrite exec_bind, exec_logf. set (w1 := set_logs _ w).
  destruct (EnumWindows_spec w1) as (Hv & Hc).
  assert (handles_kept w (exec (EnumWindows enumWindowsProc 0) w1)) as Hk.
  { unfold EnumWindows. rewrite exec_bind, eval_gets, exec_gets.
    destruct (enum_windows_err (sys w1)).
    - rewrite exec_ret. apply handles_kept_eq. reflexivity.
    - rewrite exec_bind, eval_gets, exec_gets, exec_bind, exec_ret.
      apply (handles_kept_trans w w1); [apply handles_kept_eq; reflexivity|].
      apply (enum_windows_handles_kept (windows (sys w1)) w1 0). }
  rewrite exec_bind, Hv.
  destruct Hc as (_ & _ & _ & _ & _ & He & Hr & Hx & Hdl & Ht).
  set (w2 := exec (EnumWindows enumWindowsProc 0) w1) in *.
  destruct (enum_windows_err (sys w1)) as [e|].
  { rewrite exec_logf. cbn. auto 10. }
  destruct (file_browser_open w1).
  { change (1 =? 0) with false. cbv iota. rewrite exec_ret. auto 10. }
  change (0 =? 0) with true. cbv iota.
  rewrite exec_bind, exec_logf, exec_bind. unfold state_Get.
  rewrite eval_gets, exec_gets.
  destruct (state.Get state.THandle "hook_winEvent" _) as [hook ok].
  destruct (ok && negb (hook =? 0)).
  - rewrite exec_logf. cbn. auto 10.
  - unfold WatchMessageLoop, go. rewrite exec_modify. cbn. auto 10.
Qed.

(** X7. The set-up of the registry watcher. Whatever fails, the goroutine
    reports it once on the error channel and ends with every handle closed
    that it had opened; when nothing fails it waits for the first change with
    its key and its event open. The store is not touched. *)
Theorem WatchRegistryKey_go_outcome (w : World) :
  let w' := exec WatchRegistryKey_go w in
  let hKey := Z.pos (next_handle w) in
  let event := Z.pos (Pos.succ (next_handle w)) in
  data w' = data w /\
  match reg_open_ex_err (sys w), create_event_err (sys w), notify_err (sys w) with
  | Some e, _, _ =>
      eval WatchRegistryKey_go w = None /\ handles w' = handles w /\
      errCh w' = errCh w ++ ["failed call to RegOpenKeyEx: " +:+ e]
  | None, Some e, _ =>
      eval WatchRegistryKey_go w = None /\ handles w' = handles w /\
      errCh w' = errCh w ++ ["failed call to CreateEvent: " +:+ e]
  | None, None, Some e =>
      eval WatchRegistryKey_go w = None /\ handles w' = handles w /\
      errCh w' = errCh w ++ ["failed call to RegNotifyChangeKeyValue: " +:+ e]
  | None, None, None =>
      eval WatchRegistryKey_go w = Some (GoRegistryWait hKey event) /\
      handles w' = event :: hKey :: handles w /\
      errCh w' = errCh w
  end.
Proof.
  unfold WatchRegistryKey_go, WatchRegistryKey_arm, WatchRegistryKey_deferred,
    RegOpenKeyEx, CreateEvent, RegNotifyChangeKeyValue. unfold_go. cbn.
  destruct (reg_open_ex_err (sys w)); cbn; [auto|].
  destruct (create_event_err (sys w)); cbn.
  { rewrite Pos.eqb_refl. auto. }
  destruct (notify_err (sys w)); cbn; [|auto].
  rewrite (Pos.eqb_refl (Pos.succ (next_handle w))).
  cbn. rewrite (Pos.eqb_refl (next_handle w)). auto.
Qed.

End RegistryWatcher.

Section RegistryWake.
Context `{GoLib}.

Lemma WatchRegistryKey_arm_ok (w : World) (hKey event : Z) :
  notify_err (sys w) = None ->
  eval (WatchRegistryKey_arm hKey event) w = Some (GoRegistryWait hKey event) /\
  exec (WatchRegistryKey_arm hKey event) w = w.
Proof.
  intros Hn. unfold WatchRegistryKey_arm, RegNotifyChangeKeyValue.
  rewrite eval_bind, exec_bind, eval_gets, exec_gets, Hn. split; reflexivity.
Qed.

(** The world after the read, the update of the status, the tray and the
    refresh of a wake-up that reads [v]. *)
Lemma wake_body (w : World) (v : Z) :
  read_failure w = None ->
  stored_integer (reg_hidden w) = Some v ->
  let d := state.Set_ state.TUint64 "status_hidden" v (data w) in
  let w' :=
    exec RefreshExplorerWindows
      (exec RefreshSystray
         (set_data (state.Set_ state.TUint64 "status_hidden" v)
            (exec (GetKeyValuePair false) w))) in
  sys w' = sys w /\ data w' = d /\ reg_hidden w' = reg_hidden w /\ errCh w' = errCh w /\
  tray w' = tray w ++ tray_for (app_name (sys w)) d /\
  goroutines w' = goroutines w ++ (if starts_watcher w then [GoWatchMessageLoop] else []) /\
  Z.pos (next_handle w) ∈ handles w'.
Proof.
  intros Hrf Hv d w'. subst w'.
  destruct (read_failure_None w Hrf) as (Ho & Hg & _).
  destruct (GetKeyValuePair_reads false w v Ho Hg Hv) as (Hev & Hh & _).
  destruct (GetKeyValuePair_same_core false w)
    as ((Hs1 & Hd1 & Hg1 & _ & _ & He1 & Hr1 & _ & _ & Ht1) & _).
  set (w1 := exec (GetKeyValuePair false) w) in *.
  set (w2 := set_data _ w1).
  destruct (RefreshSystray_effect w2) as ((Hs3 & Hd3 & Hg3 & _ & _ & He3 & Hr3 & _) & Ht3 & Hh3 & _).
  set (w3 := exec RefreshSystray w2) in *.
  destruct (RefreshExplorerWindows_spec w3) as (Hs4 & Hd4 & _ & _ & Hg4).
  destruct (RefreshExplorerWindows_frame w3) as (Hr4 & He4 & Ht4 & _ & _ & Hk4).
  cbn in Hs3, Hd3, Hg3, He3, Hr3, Ht3.
  assert (data w3 = d) as Hdw3 by (rewrite Hd3; subst w2 d; cbn; rewrite Hd1; reflexivity).
  assert (sys w3 = sys w) as Hsw3 by (rewrite Hs3; exact Hs1).
  assert (starts_watcher w3 = starts_watcher w) as Hsw.
  { unfold starts_watcher, file_browser_open, is_file_browser, getenv, armed.
    rewrite Hsw3, Hdw3. subst d.
    rewrite (Get_Set_ne state.THandle state.TUint64) by discriminate. reflexivity. }
  rewrite Hs4, Hd4, Hr4, He4, Ht4, Hg4, Hsw. split_and!.
  - exact Hsw3.
  - exact Hdw3.
  - rewrite Hr3. exact Hr1.
  - rewrite He3. exact He1.
  - rewrite Ht3. subst w2. cbn. rewrite Hs1, Ht1, Hd1. reflexivity.
  - rewrite Hg3. subst w2. cbn. rewrite Hg1. reflexivity.
  - apply Hk4; [discriminate|]. rewrite Hh3. subst w2. cbn. rewrite Hh. left.
Qed.

(** What the wake-up posts to the windows. *)
Lemma wake_body_posted (w : World) (v : Z) :
  read_failure w = None ->
  stored_integer (reg_hidden w) = Some v ->
  posted (exec RefreshExplorerWindows
            (exec RefreshSystray
               (set_data (state.Set_ state.TUint64 "status_hidden" v)
                  (exec (GetKeyValuePair false) w)))) =
    posted w ++ refresh_posts w.
Proof.
  intros Hrf Hv.
  destruct (GetKeyValuePair_same_core false w) as ((Hs1 & _) & Hp1).
  set (w1 := exec (GetKeyValuePair false) w) in *.
  set (w2 := set_data _ w1).
  destruct (RefreshSystray_effect w2) as ((Hs3 & _) & _ & _ & Hp3).
  set (w3 := exec RefreshSystray w2) in *.
  cbn in Hs3.
  rewrite RefreshExplorerWindows_posted, Hp3.
  change (posted w2) with (posted w1). rewrite Hp1. f_equal.
  assert (sys w3 = sys w) as Hs by (rewrite Hs3; exact Hs1).
  unfold refresh_posts, is_file_browser, accepts_post, getenv. rewrite Hs. reflexivity.
Qed.

(** The registration for the next notification, in both of its outcomes. *)
Lemma WatchRegistryKey_arm_effect (w : World) (hKey event : Z) :
  let w' := exec (WatchRegistryKey_arm hKey event) w in
  eval (WatchRegistryKey_arm hKey event) w =
    match notify_err (sys w) with
    | None => Some (GoRegistryWait hKey event)
    | Some _ => None
    end /\
  errCh w' =
    errCh w ++
    match notify_err (sys w) with
    | None => []
    | Some e => ["failed call to RegNotifyChangeKeyValue: " +:+ e]
    end /\
  data w' = data w /\ tray w' = tray w /\ posted w' = posted w /\
  goroutines w' = goroutines w /\ reg_hidden w' = reg_hidden w.
Proof.
  unfold WatchRegistryKey_arm, WatchRegistryKey_deferred, RegNotifyChangeKeyValue.
  unfold_go. cbn. destruct (notify_err (sys w)); cbn; rewrite ?app_nil_r; auto 10.
Qed.

(** X8. A wake-up of the registry watcher whose read succeeds stores the
    value read as the status, shows it in the tray, posts the refresh to the
    windows and starts the focus watcher under the rule of the refresh; it
    does not write the registry. A wake-up for any other result of the wait
    than [WAIT_OBJECT_0] does none of this. In both cases the goroutine then
    registers for the next notification: when that succeeds it goes back to
    waiting and reports no error, so that a wake-up for another result has
    changed nothing at all; when it fails the goroutine reports that error
    once and ends. *)
Theorem WatchRegistryKey_wake_syncs (w : World) (hKey event v : Z) :
  read_failure w = None ->
  stored_integer (reg_hidden w) = Some v ->
  let wake := WatchRegistryKey_wake hKey event in
  let w' := exec (wake WAIT_OBJECT_0) w in
  let d := state.Set_ state.TUint64 "status_hidden" v (data w) in
  status w' = (v, true) /\
  data w' = d /\
  tray w' = tray w ++ tray_for (app_name (sys w)) d /\
  posted w' = posted w ++ refresh_posts w /\
  goroutines w' = goroutines w ++ (if starts_watcher w then [GoWatchMessageLoop] else []) /\
  reg_hidden w' = reg_hidden w /\
  (forall r1,
     eval (wake r1) w =
       match notify_err (sys w) with
       | None => Some (GoRegistryWait hKey event)
       | Some _ => None
       end /\
     errCh (exec (wake r1) w) =
       errCh w ++
       match notify_err (sys w) with
       | None => []
       | Some e => ["failed call to RegNotifyChangeKeyValue: " +:+ e]
       end) /\
  (forall r1, r1 <> WAIT_OBJECT_0 ->
     data (exec (wake r1) w) = data w /\ tray (exec (wake r1) w) = tray w /\
     posted (exec (wake r1) w) = posted w /\
     goroutines (exec (wake r1) w) = goroutines w /\
     reg_hidden (exec (wake r1) w) = reg_hidden w /\
     (notify_err (sys w) = None -> exec (wake r1) w = w)).
Proof.
  intros Hrf Hv wake w' d. subst wake w'.
  destruct (wake_body w v Hrf Hv) as (Hs & Hd & Hr & He & Ht & Hg & _).
  pose proof (wake_body_posted w v Hrf Hv) as Hp.
  cbv zeta in Hs, Hd, Hr, He, Ht, Hg.
  destruct (read_failure_None w Hrf) as (Ho & Hge & _).
  destruct (GetKeyValuePair_reads false w v Ho Hge Hv) as (Hev & _).
  assert (forall r1, r1 <> WAIT_OBJECT_0 ->
            eval (WatchRegistryKey_wake hKey event r1) w =
              eval (WatchRegistryKey_arm hKey event) w /\
            exec (WatchRegistryKey_wake hKey event r1) w =
              exec (WatchRegistryKey_arm hKey event) w) as Hother.
  { intros r1 Hr1. unfold WatchRegistryKey_wake.
    destruct (Z.eqb_spec r1 WAIT_OBJECT_0); [contradiction|]. split; reflexivity. }
  assert (eval (WatchRegistryKey_wake hKey event WAIT_OBJECT_0) w =
            eval (WatchRegistryKey_arm hKey event)
              (exec RefreshExplorerWindows
                 (exec RefreshSystray
                    (set_data (state.Set_ state.TUint64 "status_hidden" v)
                       (exec (GetKeyValuePair false) w)))) /\
          exec (WatchRegistryKey_wake hKey event WAIT_OBJECT_0) w =
            exec (WatchRegistryKey_arm hKey event)
              (exec RefreshExplorerWindows
                 (exec RefreshSystray
                    (set_data (state.Set_ state.TUint64 "status_hidden" v)
                       (exec (GetKeyValuePair false) w))))) as (Hwv & Hwx).
  { unfold WatchRegistryKey_wake. change (WAIT_OBJECT_0 =? WAIT_OBJECT_0) with true.
    cbv iota.
    rewrite exec_bind, eval_bind, Hev. cbv iota beta.
    rewrite !exec_bind, !eval_bind. unfold state_Set. rewrite !exec_modify.
    split; reflexivity. }
  set (w4 := exec RefreshExplorerWindows _) in *.
  destruct (WatchRegistryKey_arm_effect w4 hKey event)
    as (Hav & Hae & Had & Hat & Hap & Hag & Har).
  cbv zeta in Hav, Hae, Had, Hat, Hap, Hag, Har. rewrite Hs in Hav, Hae.
  destruct (WatchRegistryKey_arm_effect w hKey event)
    as (Hbv & Hbe & Hbd & Hbt & Hbp & Hbg & Hbr).
  cbv zeta in Hbv, Hbe, Hbd, Hbt, Hbp, Hbg, Hbr.
  rewrite Hwx. split_and!.
  - unfold status. rewrite Had, Hd. apply (Get_Set_eq state.TUint64 _ _ _ eq_refl).
  - rewrite Had. exact Hd.
  - rewrite Hat. exact Ht.
  - rewrite Hap. exact Hp.
  - rewrite Hag. exact Hg.
  - rewrite Har. exact Hr.
  - intros r1. destruct (Z.eq_dec r1 WAIT_OBJECT_0) as [->|Hne].
    + rewrite Hwv, Hwx, Hav, Hae, He. split; reflexivity.
    + destruct (Hother r1 Hne) as (-> & ->). rewrite Hbv, Hbe. split; reflexivity.
  - intros r1 Hne. destruct (Hother r1 Hne) as (_ & ->).
    split_and!; try assumption.
    intros Hn. apply (WatchRegistryKey_arm_ok w hKey event Hn).
Qed.

(** X9. Each wake-up of the registry watcher whose read succeeds leaves the
    registry key open that [GetKeyValuePair(false)] opened for it: the handle
    is dropped ([_, value, err := ...]) and is still open when the watcher is
    back to waiting. *)
Theorem WatchRegistryKey_wake_leaves_key_open (w : World) (hKey event v : Z) :
  read_failure w = None ->
  stored_integer (reg_hidden w) = Some v ->
  notify_err (sys w) = None ->
  let w' := exec (WatchRegistryKey_wake hKey event WAIT_OBJECT_0) w in
  eval (WatchRegistryKey_wake hKey event WAIT_OBJECT_0) w = Some (GoRegistryWait hKey event) /\
  Z.pos (next_handle w) ∈ handles w' /\
  (Z.pos (next_handle w) ∉ handles w -> handles w' <> handles w).
Proof.
  intros Hrf Hv Hn w'. subst w'.
  destruct (wake_body w v Hrf Hv) as (Hs & _ & _ & _ & _ & _ & Hin).
  cbv zeta in Hs, Hin.
  destruct (read_failure_None w Hrf) as (Ho & Hge & _).
  destruct (GetKeyValuePair_reads false w v Ho Hge Hv) as (Hev & _).
  unfold WatchRegistryKey_wake. change (WAIT_OBJECT_0 =? WAIT_OBJECT_0) with true.
  cbv iota.
  rewrite exec_bind, eval_bind, Hev. cbv iota beta.
  rewrite !exec_bind, !eval_bind. unfold state_Set. rewrite !exec_modify.
  set (w4 := exec RefreshExplorerWindows _) in *.
  assert (notify_err (sys w4) = None) as Hn4 by (rewrite Hs; exact Hn).
  destruct (WatchRegistryKey_arm_ok w4 hKey event Hn4) as (-> & ->).
  split; [reflexivity|]. split; [exact Hin|].
  intros Hfresh Heq. apply Hfresh. rewrite <- Heq. exact Hin.
Qed.

End RegistryWake.

Lemma WatchRegistryKey_wake_syncs_witness :
  let started := @schedule asciiLib 1 0 (exec (@onReady asciiLib) (boot quiet (Some (DWORD 1)))) in
  let w := set_reg_hidden (Some (DWORD 2)) started in
  let w' := exec (@WatchRegistryKey_wake asciiLib 6 7 WAIT_OBJECT_0) w in
  status w = (1, true) /\
  eval (@WatchRegistryKey_wake asciiLib 6 7 WAIT_OBJECT_0) w = Some (GoRegistryWait 6 7) /\
  status w' = (2, true) /\
  tray w' = tray w ++ [SetTitle 2 "Show"; SetIcon icoHidden;
                       SetTooltip "ShowAllFiles - Disabled"] /\
  posted w' = [] /\
  goroutines w' = goroutines w ++ [GoWatchMessageLoop] /\
  exec (@WatchRegistryKey_wake asciiLib 6 7 258) w = w.
Proof.
  intros started w w'.
  destruct (@WatchRegistryKey_wake_syncs asciiLib w 6 7 2 eq_refl eq_refl)
    as (Hst & _ & Ht & Hp & Hg & _ & Hv & Hother).
  destruct (Hother 258 ltac:(discriminate)) as (_ & _ & _ & _ & _ & Hsame).
  split; [reflexivity|]. split; [exact (proj1 (Hv WAIT_OBJECT_0))|]. split; [exact Hst|].
  split; [exact Ht|]. split; [exact Hp|]. split; [exact Hg|exact (Hsame eq_refl)].
Defined.

Lemma WatchRegistryKey_wake_leaves_key_open_witness :
  let started := @schedule asciiLib 1 0 (exec (@onReady asciiLib) (boot quiet (Some (DWORD 1)))) in
  let w := set_reg_hidden (Some (DWORD 2)) started in
  let w' := exec (@WatchRegistryKey_wake asciiLib 6 7 WAIT_OBJECT_0) w in
  handles w = [7; 6] /\
  8 ∈ handles w' /\
  handles w' <> handles w.
Proof.
  intros started w w'.
  destruct (@WatchRegistryKey_wake_leaves_key_open asciiLib w 6 7 2 eq_refl eq_refl eq_refl)
    as (_ & Hin & Hne).
  split; [reflexivity|]. split; [exact Hin|]. apply Hne.
  intros Hin'. vm_compute in Hin'.
  repeat (apply elem_of_cons in Hin' as [Hin'|Hin']; [discriminate|]).
  apply elem_of_nil in Hin'. exact Hin'.
Defined.

(** ** The status authority, once more *)

Lemma GetKeyValuePair_next_handle (closeKey : bool) (w : World) :
  next_handle (exec (GetKeyValuePair closeKey) w) =
    match open_key_err (sys w) with
    | Some _ => next_handle w
    | None => Pos.succ (next_handle w)
    end.
Proof.
  unfold_go. cbn.
  destruct (open_key_err (sys w)); cbn; [reflexivity|].
  destruct (get_value_err (sys w)); cbn; [destruct closeKey; reflexivity|].
  destruct (reg_hidden w) as [[x|x|]|]; destruct closeKey; reflexivity.
Qed.

Lemma GetKeyValuePair_logs (closeKey : bool) (w : World) :
  existsb is_error (new_levels (GetKeyValuePair closeKey) w) = false.
Proof.
  unfold_go. cbn.
  destruct (open_key_err (sys w)); cbn.
  { rewrite <- ?app_assoc, ?drop_app_length. reflexivity. }
  destruct (get_value_err (sys w)); cbn.
  { destruct closeKey; cbn; rewrite <- ?app_assoc, ?drop_app_length; reflexivity. }
  destruct (reg_hidden w) as [[x|x|]|]; destruct closeKey; cbn;
    rewrite <- ?app_assoc, ?drop_app_length; reflexivity.
Qed.

Lemma GetKeyValuePair_outcome (closeKey : bool) (w : World) :
  let w' := exec (GetKeyValuePair closeKey) w in
  eval (GetKeyValuePair closeKey) w =
    match read_failure w with
    | Some e => (0, 0, Some e)
    | None => (Z.pos (next_handle w), default 0 (stored_integer (reg_hidden w)), None)
    end /\
  handles w' =
    match open_key_err (sys w), read_error w with
    | Some _, _ => handles w
    | None, Some _ =>
        Z.pos (next_handle w) :: (if closeKey then remove1 0 (handles w) else handles w)
    | None, None => if closeKey then handles w else Z.pos (next_handle w) :: handles w
    end /\
  reg_hidden w' = reg_hidden w /\ data w' = data w /\
  existsb is_error (new_levels (GetKeyValuePair closeKey) w) = false.
Proof.
  intros w'. subst w'.
  destruct (GetKeyValuePair_same_core closeKey w)
    as ((_ & Hd & _ & _ & _ & _ & Hr & _) & _).
  split; [|split; [|split; [exact Hr|split; [exact Hd|apply GetKeyValuePair_logs]]]].
  - unfold read_failure. destruct (open_key_err (sys w)) as [e|] eqn:Ho.
    { apply (GetKeyValuePair_open_fails closeKey w e Ho). }
    destruct (read_error w) as [e|] eqn:He.
    { apply (GetKeyValuePair_read_fails closeKey w e Ho He). }
    unfold read_error in He. destruct (get_value_err (sys w)) eqn:Hg; [discriminate|].
    destruct (stored_integer (reg_hidden w)) as [v|] eqn:Hv.
    + apply (GetKeyValuePair_reads closeKey w v Ho Hg Hv).
    + destruct (reg_hidden w) as [[x|x|]|]; discriminate.
  - destruct (open_key_err (sys w)) as [e|] eqn:Ho.
    { apply (GetKeyValuePair_open_fails closeKey w e Ho). }
    destruct (read_error w) as [e|] eqn:He.
    { apply (GetKeyValuePair_read_fails closeKey w e Ho He). }
    unfold read_error in He. destruct (get_value_err (sys w)) eqn:Hg; [discriminate|].
    destruct (stored_integer (reg_hidden w)) as [v|] eqn:Hv.
    + apply (GetKeyValuePair_reads closeKey w v Ho Hg Hv).
    + destruct (reg_hidden w) as [[x|x|]|]; discriminate.
Qed.

(** X10. What [GetKeyValuePair] returns and leaves behind, in all cases. The
    error is that of opening the key or of reading the value; on an error
    the key and the value returned are zero. When the key does not open no
    handle is left. When the read succeeds the key it opened is closed with
    [closeKey] and stays open without it. When the read fails the key it
    opened stays open with and without [closeKey]: the deferred [Close]
    runs on the result [key], which the return statement has set to zero by
    then. It never writes the registry, the store or the log of errors. *)
Theorem GetKeyValuePair_result (closeKey : bool) (w : World) :
  let w' := exec (GetKeyValuePair closeKey) w in
  eval (GetKeyValuePair closeKey) w =
    match read_failure w with
    | Some e => (0, 0, Some e)
    | None => (Z.pos (next_handle w), default 0 (stored_integer (reg_hidden w)), None)
    end /\
  handles w' =
    match open_key_err (sys w), read_error w with
    | Some _, _ => handles w
    | None, Some _ =>
        Z.pos (next_handle w) :: (if closeKey then remove1 0 (handles w) else handles w)
    | None, None => if closeKey then handles w else Z.pos (next_handle w) :: handles w
    end /\
  reg_hidden w' = reg_hidden w /\ data w' = data w /\
  existsb is_error (new_levels (GetKeyValuePair closeKey) w) = false.
Proof. apply GetKeyValuePair_outcome. Qed.

(** X11. A call of [ToggleHidden] logs an error exactly when it fails, and a
    failed call has changed neither the backing value nor the store; a
    successful call logs no error. *)
Theorem ToggleHidden_failure_is_logged (w : World) :
  (toggle_succeeds w = false <-> existsb is_error (new_levels ToggleHidden w) = true) /\
  (toggle_succeeds w = false ->
     reg_hidden (exec ToggleHidden w) = reg_hidden w /\
     data (exec ToggleHidden w) = data w).
Proof.
  split; [apply ToggleHidden_error_logged|].
  intros Hf. destruct (ToggleHidden_fails w Hf) as (Hd & Hr & _). auto.
Qed.

Lemma ToggleHidden_failure_is_logged_witness :
  let w := boot (with_set_value_err (Some "Access is denied.") quiet) (Some (DWORD 1)) in
  existsb is_error (new_levels ToggleHidden w) = true /\
  reg_hidden (exec ToggleHidden w) = Some (DWORD 1) /\
  data (exec ToggleHidden w) = ∅.
Proof.
  intros w. destruct (ToggleHidden_failure_is_logged w) as ((Hlog & _) & Hsame).
  split; [exact (Hlog eq_refl)|]. exact (Hsame eq_refl).
Defined.

(** ** Keys of the store *)

(** X12. The keys of the store do not interfere, and the last write of a key
    wins: setting or deleting one key leaves what [Get] returns for any other
    key as it was; a [Set] replaces an earlier value of the same key, of
    whatever type, and a [Get] at the type of the later [Set] returns the
    later value (with [true], unless it is the [nil] of an interface type);
    a [Delete] after a [Set] of the same key is a [Delete]. *)
Theorem state_keys_independent (T U V : state.GoType) (k k' : string)
    (x : state.denote U) (y : state.denote V) (d : gmap string state.any) :
  k <> k' ->
  state.Get T k' (state.Set_ U k x d) = state.Get T k' d /\
  state.Get T k' (state.Delete k d) = state.Get T k' d /\
  state.Set_ U k x (state.Set_ V k y d) = state.Set_ U k x d /\
  state.Get U k (state.Set_ U k x (state.Set_ V k y d)) =
    (x, negb (state.is_nil (state.to_any U x))) /\
  state.Delete k (state.Set_ U k x d) = state.Delete k d /\
  state.Set_ U k x (state.Set_ V k' y d) = state.Set_ V k' y (state.Set_ U k x d).
Proof.
  intros Hne. split_and!.
  - apply Get_Set_ne. exact Hne.
  - apply Get_Delete_ne. exact Hne.
  - unfold state.Set_. apply insert_insert_eq.
  - apply Get_Set_same.
  - unfold state.Delete, state.Set_. apply delete_insert_eq.
  - unfold state.Set_. apply insert_insert_ne. exact Hne.
Qed.

Lemma state_keys_independent_witness :
  let d := state.Set_ state.TUint64 "status_hidden" 2 ∅ in
  state.Get state.TUint64 "status_hidden"
    (state.Set_ state.THandle "hook_winEvent" 12 d) = (2, true) /\
  state.Get state.TUint64 "status_hidden" (state.Delete "hook_winEvent" d) = (2, true).
Proof.
  intros d.
  destruct (state_keys_independent state.TUint64 state.THandle state.TBool
              "hook_winEvent" "status_hidden" 12 true d ltac:(discriminate))
    as (Hset & Hdel & _).
  split.
  - rewrite Hset. reflexivity.
  - rewrite Hdel. reflexivity.
Defined.

(** ** Message boxes *)

Section MessageBoxes.
Context `{GoLib}.

Lemma msgbox_cases (w : World) (title text : string) (boxtype exitCode : Z) :
  let stateLabel := "msgbox_" +:+ ToLower (ReplaceAll title " " "") in
  exec (msgbox title text boxtype exitCode) w =
    match state.Get state.TBool stateLabel (data w) with
    | (true, true) => w
    | _ =>
        set_goroutines (fun gs => gs ++ [GoMsgbox stateLabel title text boxtype exitCode])
          (set_data (state.Set_ state.TBool stateLabel true) w)
    end.
Proof.
  unfold msgbox. cbv zeta. rewrite exec_bind. unfold state_Get, state_Set, go.
  rewrite eval_gets, exec_gets.
  destruct (state.Get state.TBool _ (data w)) as [[|] [|]]; cbn [andb];
    rewrite ?exec_ret, ?exec_bind, ?exec_modify; reflexivity.
Qed.

(** X13. At most one box per title. A call of [msgbox] for a title whose box
    is open does nothing; otherwise it marks the title as open and starts one
    goroutine for the box. So a second call for the same title, before the
    first box is closed, starts no second box, whatever its text. When the
    goroutine has run, the box has been shown, the title is marked as closed
    again, and the process has exited with [exitCode] if that is not
    negative. *)
Theorem msgbox_one_box_per_title
    (w : World) (title text text' : string) (boxtype boxtype' exitCode exitCode' : Z) :
  let stateLabel := "msgbox_" +:+ ToLower (ReplaceAll title " " "") in
  let w1 := exec (msgbox title text boxtype exitCode) w in
  let w2 := exec (msgbox_go stateLabel title text boxtype exitCode) w1 in
  state.Get state.TBool stateLabel (data w1) = (true, true) /\
  goroutines w1 =
    goroutines w ++
    (match state.Get state.TBool stateLabel (data w) with
     | (true, true) => []
     | _ => [GoMsgbox stateLabel title text boxtype exitCode]
     end) /\
  exec (msgbox title text' boxtype' exitCode') w1 = w1 /\
  dialogs w1 = dialogs w /\
  dialogs w2 = dialogs w ++ [(title, text, Z.lor MB_APPLMODAL boxtype)] /\
  state.Get state.TBool stateLabel (data w2) = (false, true) /\
  exit_code w2 =
    match exit_code w with
    | Some c => Some c
    | None => if 0 <=? exitCode then Some exitCode else None
    end.
Proof.
  intros stateLabel w1 w2.
  assert (state.Get state.TBool stateLabel (data w1) = (true, true)) as Hopen.
  { subst w1. rewrite msgbox_cases. fold stateLabel.
    destruct (state.Get state.TBool stateLabel (data w)) as [[|] [|]] eqn:E;
      try exact E; cbn; apply (Get_Set_eq state.TBool _ _ _ eq_refl). }
  assert (dialogs w1 = dialogs w /\ exit_code w1 = exit_code w /\
          goroutines w1 =
            goroutines w ++
            (match state.Get state.TBool stateLabel (data w) with
             | (true, true) => []
             | _ => [GoMsgbox stateLabel title text boxtype exitCode]
             end)) as (Hd1 & Hx1 & Hg1).
  { subst w1. rewrite msgbox_cases. fold stateLabel.
    destruct (state.Get state.TBool stateLabel (data w)) as [[|] [|]];
      cbn; rewrite ?app_nil_r; auto. }
  split; [exact Hopen|]. split; [exact Hg1|]. split.
  { rewrite msgbox_cases. fold stateLabel. rewrite Hopen. reflexivity. }
  split; [exact Hd1|].
  subst w2. clearbody w1. unfold msgbox_go, state_Set, os_Exit.
  rewrite !exec_bind, !exec_modify.
  destruct (0 <=? exitCode).
  - rewrite exec_modify. cbn. rewrite Hx1.
    destruct (exit_code w); cbn; rewrite Hd1;
      (split; [reflexivity|]); (split; [apply (Get_Set_eq state.TBool _ _ _ eq_refl)|]);
      try reflexivity; exact Hx1.
  - rewrite exec_ret. cbn. rewrite Hd1, Hx1.
    split; [reflexivity|]. split; [apply (Get_Set_eq state.TBool _ _ _ eq_refl)|].
    destruct (exit_code w); reflexivity.
Qed.

End MessageBoxes.

Lemma RefreshSystray_fields (w : World) :
  let w' := exec RefreshSystray w in
  sys w' = sys w /\ data w' = data w /\ goroutines w' = goroutines w /\
  reg_hidden w' = reg_hidden w /\ exit_code w' = exit_code w /\
  dialogs w' = dialogs w /\ handles w' = handles w /\
  tray w' = tray w ++ tray_for (app_name (sys w)) (data w).
Proof.
  intros w'. destruct (RefreshSystray_effect w) as (Hc & Ht & Hh & _).
  destruct Hc as (Hs & Hd & Hg & _ & _ & _ & Hr & Hx & Hdl & _).
  fold w' in Hs, Hd, Hg, Hr, Hx, Hdl, Ht, Hh. auto 10.
Qed.

(** ** Start-up, when the hotkey registers *)

Section StartupRead.
Context `{GoLib}.

Lemma onReady_after_register (w : World) :
  exit_code w = None ->
  hotkey_err (sys w) = None ->
  let w1 := set_goroutines (fun gs => gs ++ [GoHotkey])
              (set_logs (fun ls => ls ++ [Log InfoLevel "Application started" []]) w) in
  let w2 := exec (GetKeyValuePair true) w1 in
  exec onReady w =
    exec (unless_exited
            match snd (eval (GetKeyValuePair true) w1) with
            | Some e =>
                let msg := "Error fetching value of 'Hidden' during startup: " +:+ e in
                log_Fatal msg >>>!
                msgbox "Fatal Error" msg (Z.lor MB_OK MB_ICONERROR) 1
            | None => ret tt
            end
            (state_Set state.TUint64 "status_hidden"
               (snd (fst (eval (GetKeyValuePair true) w1))) >>>
             let* mToggle := systray_AddMenuItem "" "" in
             state_Set state.TMenuItem "menu_toggle" mToggle >>>
             modify (set_tray (fun l => l ++ [AddSeparator])) >>>
             let* mTopAbout := systray_AddMenuItem "About" "" in
             let* mTopReportBug := systray_AddMenuItem "Report bug" "" in
             let* mTopQuit := systray_AddMenuItem "Quit" "" in
             RefreshSystray >>>
             WatchRegistryKey)) w2.
Proof.
  intros Hx He w1 w2. unfold onReady, log_Info.
  rewrite exec_bind, exec_logf, exec_bind, eval_gets, exec_gets.
  change (hotkey_err (sys (set_logs _ w))) with (hotkey_err (sys w)). rewrite He.
  rewrite exec_unless_exited, exec_ret.
  change (exit_code (set_logs _ w)) with (exit_code w). rewrite Hx.
  rewrite exec_bind. unfold go at 1. rewrite exec_modify. fold w1.
  rewrite exec_bind. fold w2.
  destruct (eval (GetKeyValuePair true) w1) as [[key value] err]. reflexivity.
Qed.

Lemma eval_AddMenuItem (title tooltip : string) (w : World) :
  eval (systray_AddMenuItem title tooltip) w = Z.pos (next_handle w).
Proof. reflexivity. Qed.

Lemma exec_AddMenuItem (title tooltip : string) (w : World) :
  exec (systray_AddMenuItem title tooltip) w =
    set_tray (fun l => l ++ [AddMenuItem (Z.pos (next_handle w)) title tooltip])
      (set_next_handle (Pos.succ (next_handle w)) w).
Proof. reflexivity. Qed.

(** The statements of [onReady] after the read, up to the loop. *)
Lemma onReady_tail (w : World) (value : Z) :
  let n := next_handle w in
  let wa := set_data (state.Set_ state.TUint64 "status_hidden" value) w in
  let wb := set_tray (fun l => l ++ [AddMenuItem (Z.pos n) "" ""])
              (set_next_handle (Pos.succ n) wa) in
  let wc := set_tray (fun l => l ++ [AddSeparator])
              (set_data (state.Set_ state.TMenuItem "menu_toggle" (Z.pos n)) wb) in
  let wd := set_tray (fun l => l ++ [AddMenuItem (Z.pos (Pos.succ n)) "About" ""])
              (set_next_handle (Pos.succ (Pos.succ n)) wc) in
  let we := set_tray (fun l => l ++ [AddMenuItem (Z.pos (Pos.succ (Pos.succ n)))
                                       "Report bug" ""])
              (set_next_handle (Pos.succ (Pos.succ (Pos.succ n))) wd) in
  let wf := set_tray (fun l => l ++ [AddMenuItem (Z.pos (Pos.succ (Pos.succ (Pos.succ n))))
                                       "Quit" ""])
              (set_next_handle (Pos.succ (Pos.succ (Pos.succ (Pos.succ n)))) we) in
  exec (state_Set state.TUint64 "status_hidden" value >>>
        let* mToggle := systray_AddMenuItem "" "" in
        state_Set state.TMenuItem "menu_toggle" mToggle >>>
        modify (set_tray (fun l => l ++ [AddSeparator])) >>>
        let* mTopAbout := systray_AddMenuItem "About" "" in
        let* mTopReportBug := systray_AddMenuItem "Report bug" "" in
        let* mTopQuit := systray_AddMenuItem "Quit" "" in
        RefreshSystray >>>
        WatchRegistryKey) w =
    set_goroutines (fun gs => gs ++ [GoWatchRegistryKey]) (exec RefreshSystray wf).
Proof.
  cbv zeta. unfold state_Set, WatchRegistryKey, go.
  rewrite exec_bind, exec_modify.
  rewrite exec_bind, eval_AddMenuItem, exec_AddMenuItem.
  rewrite exec_bind, exec_modify, exec_bind, exec_modify.
  rewrite exec_bind, exec_AddMenuItem.
  rewrite exec_bind, exec_AddMenuItem.
  rewrite exec_bind, exec_AddMenuItem.
  rewrite exec_bind, exec_modify. reflexivity.
Qed.

(** X14. When the hotkey registers but the value cannot be read at start-up,
    the process exits with code 1 inside [log.Fatal], as for a hotkey that
    does not register: the message is logged at the fatal level, no box is
    shown and none is started, and the status is never stored. The goroutine
    of the hotkey had been started before. When it was the read that failed,
    the key that had opened is still open at the exit, although the read was
    asked to close it: [GetKeyValuePair(true)] closes the key zero then. *)
Theorem onReady_read_failure_exits_without_dialog (w : World) (e : string) :
  exit_code w = None ->
  hotkey_err (sys w) = None ->
  read_failure w = Some e ->
  let w' := exec onReady w in
  exit_code w' = Some 1 /\
  last (logs w') =
    Some (Log FatalLevel ("Error fetching value of 'Hidden' during startup: " +:+ e) []) /\
  dialogs w' = dialogs w /\
  goroutines w' = goroutines w ++ [GoHotkey] /\
  data w' = data w /\
  handles w' =
    match open_key_err (sys w) with
    | Some _ => handles w
    | None => Z.pos (next_handle w) :: remove1 0 (handles w)
    end.
Proof.
  intros Hx He Hrf w'. subst w'.
  rewrite (onReady_after_register w Hx He). cbv zeta.
  set (w1 := set_goroutines _ _).
  destruct (GetKeyValuePair_outcome true w1) as (Hev & Hh & _ & Hd & _).
  destruct (GetKeyValuePair_same_core true w1)
    as ((_ & _ & Hg & _ & _ & _ & _ & Hx2 & Hdl & _) & _).
  change (read_failure w1) with (read_failure w) in Hev. rewrite Hrf in Hev.
  change (open_key_err (sys w1)) with (open_key_err (sys w)) in Hh.
  change (read_error w1) with (read_error w) in Hh.
  change (handles w1) with (handles w) in Hh.
  change (next_handle w1) with (next_handle w) in Hh.
  assert (handles (exec (GetKeyValuePair true) w1) =
          match open_key_err (sys w) with
          | Some _ => handles w
          | None => Z.pos (next_handle w) :: remove1 0 (handles w)
          end) as Hh'.
  { rewrite Hh. unfold read_failure in Hrf.
    destruct (open_key_err (sys w)); [reflexivity|].
    destruct (read_error w); [reflexivity|discriminate]. }
  rewrite Hev. cbn [fst snd].
  set (w2 := exec (GetKeyValuePair true) w1) in *.
  assert (exit_code w2 = None) as Hx2' by (rewrite Hx2; exact Hx).
  rewrite exec_unless_exited, exec_unless_exited.
  rewrite (exec_log_Fatal _ w2 Hx2'). cbn.
  rewrite last_snoc, Hdl, Hg, Hd, Hh'. split_and!; reflexivity.
Qed.

(** X15. Start-up, when nothing fails. [onReady] stores the value read as the
    status and the new toggle entry of the tray, shows the status in the
    tray, starts the goroutine of the hotkey and that of the registry
    watcher, and leaves the registry as it is and no handle open. *)
Theorem onReady_starts (w : World) (v : Z) :
  exit_code w = None ->
  hotkey_err (sys w) = None ->
  read_failure w = None ->
  stored_integer (reg_hidden w) = Some v ->
  let w' := exec onReady w in
  let mToggle := Z.pos (Pos.succ (next_handle w)) in
  exit_code w' = None /\
  status w' = (v, true) /\
  state.Get state.TMenuItem "menu_toggle" (data w') = (mToggle, true) /\
  goroutines w' = goroutines w ++ [GoHotkey; GoWatchRegistryKey] /\
  reg_hidden w' = reg_hidden w /\
  handles w' = handles w /\
  dialogs w' = dialogs w /\
  exists items,
    tray w' =
      tray w ++ items ++
      (if v =? statusHidden
       then [SetTitle mToggle "Show"; SetIcon icoHidden;
             SetTooltip (app_name (sys w) +:+ " - Disabled")]
       else [SetTitle mToggle "Hide"; SetIcon icoVisible;
             SetTooltip (app_name (sys w) +:+ " - Enabled")]).
Proof.
  intros Hx He Hrf Hv w' mToggle. subst w'.
  rewrite (onReady_after_register w Hx He). cbv zeta.
  set (w1 := set_goroutines _ _).
  destruct (GetKeyValuePair_outcome true w1) as (Hev & Hh & Hr & Hd & _).
  destruct (GetKeyValuePair_same_core true w1)
    as ((Hs2 & _ & Hg & _ & _ & _ & _ & Hx2 & Hdl & Ht2) & _).
  pose proof (GetKeyValuePair_next_handle true w1) as Hn.
  destruct (read_failure_None w Hrf) as (Ho & _).
  change (open_key_err (sys w1)) with (open_key_err (sys w)) in Hn. rewrite Ho in Hn.
  change (read_failure w1) with (read_failure w) in Hev. rewrite Hrf in Hev.
  change (reg_hidden w1) with (reg_hidden w) in Hev. rewrite Hv in Hev.
  change (default 0 (Some v)) with v in Hev.
  change (open_key_err (sys w1)) with (open_key_err (sys w)) in Hh.
  change (read_error w1) with (read_error w) in Hh.
  assert (read_error w = None) as Hre.
  { unfold read_failure in Hrf. rewrite Ho in Hrf.
    destruct (read_error w); [discriminate|reflexivity]. }
  rewrite Ho, Hre in Hh.
  rewrite Hev. cbn [fst snd].
  set (w2 := exec (GetKeyValuePair true) w1) in *.
  rewrite exec_unless_exited, exec_ret, Hx2. change (exit_code w1) with (exit_code w).
  rewrite Hx.
  clearbody w2. unfold status.
  rewrite (onReady_tail w2 v). cbv zeta.
  set (wf := set_tray _ _).
  destruct (RefreshSystray_fields wf)
    as (Hs9 & Hd9 & Hg9 & Hr9 & Hx9 & Hdl9 & Hh9 & Ht9).
  cbn [exit_code data goroutines reg_hidden handles dialogs tray set_goroutines].
  rewrite Hx9, Hd9, Hg9, Hr9, Hh9, Hdl9, Ht9. subst wf.
  cbn [exit_code data goroutines reg_hidden handles dialogs tray sys next_handle
       set_tray set_next_handle set_data].
  rewrite Hn, Hx2, Hg, Hr, Hh, Hdl, Ht2, Hs2, Hd. subst w1.
  cbn [exit_code data goroutines reg_hidden handles dialogs tray sys next_handle
       set_goroutines set_logs].
  rewrite <- !app_assoc. split_and!; try reflexivity.
  - exact Hx.
  - rewrite Get_Set_ne by discriminate. apply (Get_Set_eq state.TUint64 _ _ _ eq_refl).
  - apply (Get_Set_eq state.TMenuItem _ _ _ eq_refl).
  - eexists. f_equal. unfold tray_for.
    rewrite (Get_Set_eq state.TMenuItem _ _ _ eq_refl).
    rewrite (Get_Set_ne state.TUint64 state.TMenuItem) by discriminate.
    rewrite (Get_Set_eq state.TUint64 _ _ _ eq_refl).
    rewrite !app_assoc. reflexivity.
Qed.

End StartupRead.

Lemma onReady_read_failure_exits_without_dialog_witness :
  let w' := exec (@onReady asciiLib) (boot quiet None) in
  exit_code w' = Some 1 /\
  last (logs w') =
    Some (Log FatalLevel
            "Error fetching value of 'Hidden' during startup: failed call to GetIntegerValue: The system cannot find the file specified."
            []) /\
  dialogs w' = [] /\
  goroutines w' = [GoHotkey] /\
  data w' = ∅ /\
  handles w' = [1].
Proof.
  exact (@onReady_read_failure_exits_without_dialog asciiLib (boot quiet None)
           "failed call to GetIntegerValue: The system cannot find the file specified."
           eq_refl eq_refl eq_refl).
Defined.

Lemma onReady_starts_witness :
  let w' := exec (@onReady asciiLib) (boot quiet (Some (QWORD 2))) in
  exit_code w' = None /\
  status w' = (2, true) /\
  state.Get state.TMenuItem "menu_toggle" (data w') = (2, true) /\
  goroutines w' = [GoHotkey; GoWatchRegistryKey] /\
  reg_hidden w' = Some (QWORD 2) /\
  handles w' = [] /\
  dialogs w' = [] /\
  exists items,
    tray w' =
      [] ++ items ++
      [SetTitle 2 "Show"; SetIcon icoHidden; SetTooltip ("ShowAllFiles" +:+ " - Disabled")].
Proof.
  exact (@onReady_starts asciiLib (boot quiet (Some (QWORD 2))) 2
           eq_refl eq_refl eq_refl eq_refl).
Defined.

(** ** The console *)

Module console_facts.
Import console.

Lemma succ_eqb (p : positive) : (Pos.succ p =? p)%positive = false.
Proof. apply Pos.eqb_neq. lia. Qed.

Lemma launchConsole_ok (c c' : Console) (s s' : State) (err : option error) :
  launches (answers s) = true ->
  launchConsole c s = (err, c', s') ->
  let i := Z.pos (next_file s) in
  let o := Z.pos (Pos.succ (next_file s)) in
  err = None /\ c' = MkConsole i o true (debug c) /\
  os_Stdin s' = i /\ os_Stdout s' = o /\ os_Stderr s' = o /\
  std_in s' = i /\ std_out s' = o /\ std_err s' = o /\
  open_files s' = o :: i :: open_files s /\
  stdin s' = stdin s /\ stdout s' = stdout s /\ stderr s' = stderr s /\
  preserved s' = preserved s /\ attached s' = attached s /\ answers s' = answers s /\
  printed s' = printed s.
Proof.
  unfold launches, launchConsole, OpenFile, bindConsole, Join. intros Hl.
  destruct (open_err (answers s) "CONIN$"); [discriminate|].
  destruct (open_err (answers s) "CONOUT$") eqn:Ho; [discriminate|].
  destruct (bind_err (answers s) STD_INPUT_HANDLE) eqn:H1; [discriminate|].
  destruct (bind_err (answers s) STD_OUTPUT_HANDLE) eqn:H2; [discriminate|].
  destruct (bind_err (answers s) STD_ERROR_HANDLE) eqn:H3; [discriminate|].
  cbn. rewrite Ho. cbn. rewrite H1. cbn. rewrite H2. cbn. rewrite H3. cbn.
  intros [= <- <- <-]. cbn. split_and!; reflexivity.
Qed.

Lemma launchConsole_fails (c c' : Console) (s s' : State) (err : option error) :
  launches (answers s) = false ->
  launchConsole c s = (err, c', s') ->
  err <> None /\ c' = c /\ open_files s' = open_files s /\
  os_Stdin s' = os_Stdin s /\ os_Stdout s' = os_Stdout s /\ os_Stderr s' = os_Stderr s /\
  stdin s' = stdin s /\ stdout s' = stdout s /\ stderr s' = stderr s /\
  preserved s' = preserved s /\ attached s' = attached s /\ answers s' = answers s /\
  printed s' = printed s.
Proof.
  unfold launches, launchConsole, OpenFile, bindConsole, Join, Close. intros Hl.
  destruct (open_err (answers s) "CONIN$") eqn:Hi.
  { intros [= <- <- <-]. split_and!; try reflexivity. discriminate. }
  cbn. destruct (open_err (answers s) "CONOUT$") eqn:Ho.
  { cbn. rewrite Pos.eqb_refl. intros [= <- <- <-].
    split_and!; try reflexivity. discriminate. }
  cbn.
  destruct (bind_err (answers s) STD_INPUT_HANDLE) eqn:H1; cbn; rewrite ?H1; cbn;
    destruct (bind_err (answers s) STD_OUTPUT_HANDLE) eqn:H2; cbn; rewrite ?H2; cbn;
    destruct (bind_err (answers s) STD_ERROR_HANDLE) eqn:H3; cbn; rewrite ?H3; cbn;
    try discriminate;
    rewrite ?succ_eqb, ?Pos.eqb_refl; cbn; rewrite ?Pos.eqb_refl;
    intros [= <- <- <-]; cbn; (split_and!; try reflexivity; discriminate).
Qed.

(** X16. [launchConsole] succeeds exactly when both console files open and
    the three standard handles can be set. Then the console is bound to the
    two new files, which stay open, and the streams of the process are those
    files. When it fails it returns an error and has closed what it opened:
    the console, the open files and the streams of the process are as
    before. *)
Theorem launchConsole_all_or_nothing (c : Console) (s : State) :
  let i := Z.pos (next_file s) in
  let o := Z.pos (Pos.succ (next_file s)) in
  let '(err, c', s') := launchConsole c s in
  if launches (answers s) then
    err = None /\ c' = MkConsole i o true (debug c) /\
    (os_Stdin s', os_Stdout s', os_Stderr s') = (i, o, o) /\
    open_files s' = o :: i :: open_files s
  else
    err <> None /\ c' = c /\
    (os_Stdin s', os_Stdout s', os_Stderr s') = (os_Stdin s, os_Stdout s, os_Stderr s) /\
    open_files s' = open_files s.
Proof.
  cbv zeta. destruct (launches (answers s)) eqn:Hl.
  - destruct (launchConsole c s) as [[err c'] s'] eqn:E.
    destruct (launchConsole_ok c c' s s' err Hl E)
      as (-> & -> & -> & -> & -> & _ & _ & _ & -> & _). auto.
  - destruct (launchConsole c s) as [[err c'] s'] eqn:E.
    destruct (launchConsole_fails c c' s s' err Hl E)
      as (Hne & -> & -> & -> & -> & -> & _). auto.
Qed.

(** X17. A failed launch does not undo the standard handles it had set. When
    the files open and the handle for input is set but a later handle is
    refused, the launch fails and closes both files, and the standard input
    handle of the process is left referring to the closed file. *)
Theorem launchConsole_leaves_handle_on_closed_file (c : Console) (s : State) (e : string) :
  open_err (answers s) "CONIN$" = None ->
  open_err (answers s) "CONOUT$" = None ->
  bind_err (answers s) STD_INPUT_HANDLE = None ->
  bind_err (answers s) STD_ERROR_HANDLE = Some e ->
  Z.pos (next_file s) ∉ open_files s ->
  let '(err, c', s') := launchConsole c s in
  err <> None /\ bound c' = bound c /\
  std_in s' = Z.pos (next_file s) /\
  std_in s' ∉ open_files s'.
Proof.
  intros Hi Ho Hbi Hbe Hfresh.
  assert (launches (answers s) = false) as Hl.
  { unfold launches. rewrite Hi, Ho, Hbi, Hbe.
    destruct (bind_err (answers s) STD_OUTPUT_HANDLE); reflexivity. }
  assert (std_in (snd (launchConsole c s)) = Z.pos (next_file s)) as Hstd.
  { unfold launchConsole, OpenFile, bindConsole, Join, Close. rewrite Hi. cbn.
    rewrite Ho. cbn. rewrite Hbi. cbn.
    destruct (bind_err (answers s) STD_OUTPUT_HANDLE) eqn:H2; cbn; rewrite ?H2; cbn;
      rewrite Hbe; reflexivity. }
  destruct (launchConsole c s) as [[err c'] s'] eqn:E.
  destruct (launchConsole_fails c c' s s' err Hl E) as (Hne & -> & Hfiles & _).
  cbn in Hstd.
  split; [exact Hne|]. split; [reflexivity|]. split; [exact Hstd|].
  rewrite Hstd, Hfiles. exact Hfresh.
Qed.

Lemma launchConsole_leaves_handle_on_closed_file_witness :
  let '(err, c', s') := launchConsole (MkConsole 0 0 false false) (start stderr_refused) in
  err <> None /\ bound c' = false /\ std_in s' = 4 /\ std_in s' ∉ open_files s'.
Proof.
  apply (launchConsole_leaves_handle_on_closed_file (MkConsole 0 0 false false)
           (start stderr_refused) "The handle is invalid." eq_refl eq_refl eq_refl eq_refl).
  intros Hin. repeat (apply elem_of_cons in Hin as [Hin|Hin]; [discriminate|]).
  apply elem_of_nil in Hin. exact Hin.
Defined.

(** X19. [Attach] followed by [Detach], when nothing fails. After [Attach]
    the console is bound and the streams of the process are the two console
    files; after [Detach] the console is unbound with no files, the streams
    of the process are the preserved ones, the files that were open are open
    and no others, and the process has no console. The standard handles are
    not put back: they still refer to the console files, now closed. *)
Theorem Attach_Detach_round_trip (pid : option Z) (c : Console) (s : State) :
  debug c = false -> bound c = false ->
  attach_err (answers s) = None -> free_err (answers s) = None ->
  launches (answers s) = true ->
  let i := Z.pos (next_file s) in
  let o := Z.pos (Pos.succ (next_file s)) in
  let '(e1, c1, s1) := Attach pid c s in
  let '(e2, c2, s2) := Detach c1 s1 in
  e1 = None /\ c1 = MkConsole i o true false /\
  (os_Stdin s1, os_Stdout s1, os_Stderr s1) = (i, o, o) /\
  attached s1 = true /\
  printed s1 = printed s ++ [(o, clear_line)] /\
  e2 = None /\ c2 = MkConsole 0 0 false false /\
  (os_Stdin s2, os_Stdout s2, os_Stderr s2) = (stdin s, stdout s, stderr s) /\
  open_files s2 = open_files s /\
  attached s2 = false /\
  (std_in s2, std_out s2, std_err s2) = (i, o, o).
Proof.
  intros Hd Hb Ha Hf Hl i o.
  unfold Attach. rewrite Hd, Hb, Ha.
  destruct (launchConsole c (set_attached true s)) as [[e c1] s1] eqn:E.
  destruct (launchConsole_ok c c1 (set_attached true s) s1 e Hl E)
    as (-> & -> & Hi & Ho & He & Hsi & Hso & Hse & Hfiles & Hpi & Hpo & Hpe & _ & Hat & Han
        & Hpr).
  cbn in Hi, Ho, He, Hsi, Hso, Hse, Hfiles, Hpi, Hpo, Hpe, Hat, Han, Hpr.
  unfold Detach, Free, Close. cbn. rewrite Hd. cbn. rewrite Han, Hf. cbn.
  rewrite Hi, Ho, He, Hpi, Hpo, Hpe, Hfiles, Hsi, Hso, Hse, Hat, Hpr, ?Hd.
  fold i o. cbn.
  rewrite succ_eqb. cbn. rewrite !Pos.eqb_refl.
  split_and!; reflexivity.
Qed.

Lemma Attach_Detach_round_trip_witness :
  let '(c, s) := New false (start willing) in
  let '(e1, c1, s1) := Attach None c s in
  let '(e2, c2, s2) := Detach c1 s1 in
  e1 = None /\ c1 = MkConsole 4 5 true false /\
  (os_Stdin s1, os_Stdout s1, os_Stderr s1) = (4, 5, 5) /\
  attached s1 = true /\
  printed s1 = [(5, clear_line)] /\
  e2 = None /\ c2 = MkConsole 0 0 false false /\
  (os_Stdin s2, os_Stdout s2, os_Stderr s2) = (1, 2, 3) /\
  open_files s2 = [1; 2; 3] /\
  attached s2 = false /\
  (std_in s2, std_out s2, std_err s2) = (4, 5, 5).
Proof.
  exact (Attach_Detach_round_trip None (MkConsole 0 0 false false)
           (preserveIO (start willing)) eq_refl eq_refl eq_refl eq_refl eq_refl).
Defined.

(** X20. When the console of another process is attached (or a new one
    allocated) but the launch then fails, [Attach] (or [Spawn]) returns the
    error and leaves the process with that console: the console object is
    not bound, so a [Detach] that follows is refused with [ErrNotBound] and
    frees nothing. *)
Theorem failed_launch_keeps_console (pid : option Z) (c : Console) (s : State) :
  debug c = false -> bound c = false ->
  launches (answers s) = false ->
  (attach_err (answers s) = None ->
     let '(e, c', s') := Attach pid c s in
     e <> None /\ c' = c /\ attached s' = true /\ open_files s' = open_files s /\
     Detach c' s' = (Some ErrNotBound, c', s')) /\
  (alloc_err (answers s) = None ->
     let '(e, c', s') := Spawn c s in
     e <> None /\ c' = c /\ attached s' = true /\ open_files s' = open_files s /\
     Detach c' s' = (Some ErrNotBound, c', s')).
Proof.
  intros Hd Hb Hl. split; intros Ha.
  - unfold Attach. rewrite Hd, Hb, Ha.
    destruct (launchConsole c (set_attached true s)) as [[e c'] s'] eqn:E.
    destruct (launchConsole_fails c c' (set_attached true s) s' e Hl E)
      as (Hne & -> & Hfiles & _ & _ & _ & _ & _ & _ & _ & Hat & _).
    destruct e as [err|]; [|contradiction].
    split; [discriminate|]. split; [reflexivity|]. split; [exact Hat|].
    split; [exact Hfiles|]. unfold Detach. rewrite Hd, Hb. reflexivity.
  - unfold Spawn. rewrite Hd, Hb, Ha.
    destruct (launchConsole c (set_attached true s)) as [[e c'] s'] eqn:E.
    destruct (launchConsole_fails c c' (set_attached true s) s' e Hl E)
      as (Hne & -> & Hfiles & _ & _ & _ & _ & _ & _ & _ & Hat & _).
    split; [exact Hne|]. split; [reflexivity|]. split; [exact Hat|].
    split; [exact Hfiles|]. unfold Detach. rewrite Hd, Hb. reflexivity.
Qed.

Lemma failed_launch_keeps_console_witness :
  let '(c, s) := New false (start stderr_refused) in
  let '(e, c', s') := Attach None c s in
  e <> None /\ c' = c /\ attached s' = true /\ open_files s' = [1; 2; 3] /\
  Detach c' s' = (Some ErrNotBound, c', s').
Proof.
  destruct (failed_launch_keeps_console None (MkConsole 0 0 false false)
              (preserveIO (start stderr_refused)) eq_refl eq_refl eq_refl) as (Hat & _).
  exact (Hat eq_refl).
Defined.

Lemma launchConsole_cases (c : Console) (s : State) :
  exists err c' s', launchConsole c s = (err, c', s') /\
    preserved s' = preserved s /\ preserved_streams s' = preserved_streams s /\
    ((err = None /\ bound c' = true /\
      (os_Stdin s', os_Stdout s', os_Stderr s') = (infile c', outfile c', outfile c') /\
      infile c' <> 0 /\ outfile c' <> 0) \/
     (err <> None /\ c' = c /\
      (os_Stdin s', os_Stdout s', os_Stderr s') = (os_Stdin s, os_Stdout s, os_Stderr s))).
Proof.
  destruct (launchConsole c s) as [[err c'] s'] eqn:E. exists err, c', s'.
  split; [reflexivity|]. unfold preserved_streams.
  destruct (launches (answers s)) eqn:Hl.
  - destruct (launchConsole_ok c c' s s' err Hl E)
      as (-> & -> & -> & -> & -> & _ & _ & _ & _ & -> & -> & -> & -> & _).
    split; [reflexivity|]. split; [reflexivity|]. left. cbn.
    split_and!; try reflexivity; discriminate.
  - destruct (launchConsole_fails c c' s s' err Hl E)
      as (Hne & -> & _ & -> & -> & -> & -> & -> & -> & -> & _).
    split; [reflexivity|]. split; [reflexivity|]. right. auto.
Qed.

Lemma call_keeps_consistent (op : Call) (cs : Console * State) :
  consistent cs ->
  consistent (call op cs) /\
  preserved_streams (snd (call op cs)) = preserved_streams (snd cs).
Proof.
  destruct cs as [c s]. intros (Hp & Hc). destruct op as [d|pid| | |]; cbn [call snd].
  - unfold New, preserveIO. rewrite Hp. cbn. auto.
  - unfold Attach. destruct (debug c); [cbn; auto|].
    destruct (bound c) eqn:Hb; [cbn; rewrite Hb; auto|].
    destruct (attach_err (answers s)); [cbn; rewrite Hb; auto|].
    destruct (launchConsole_cases c (set_attached true s))
      as (err & c' & s' & -> & Hp' & Hs' & [(-> & Hb' & Hos & Hi & Ho)|(Hne & -> & Hos)]).
    + cbn. rewrite Hb', Hp'. unfold preserved_streams in *. cbn. auto.
    + destruct err; [|contradiction]. cbn. rewrite Hb, Hp'. auto.
  - unfold Detach, Free, Close. destruct (debug c) eqn:Hd; [cbn; auto|].
    destruct (bound c) eqn:Hb; cbn [negb]; [|cbn; rewrite Hb; auto].
    cbn. rewrite ?Hd. cbn. destruct (free_err (answers s)); cbn; auto.
  - unfold Free. destruct (debug c); [cbn; auto|].
    destruct (free_err (answers s)); cbn; auto.
  - unfold Spawn. destruct (debug c); [cbn; auto|].
    destruct (bound c) eqn:Hb; [cbn; rewrite Hb; auto|].
    destruct (alloc_err (answers s)); [cbn; rewrite Hb; auto|].
    destruct (launchConsole_cases c (set_attached true s))
      as (err & c' & s' & -> & Hp' & Hs' & [(-> & Hb' & Hos & Hi & Ho)|(Hne & -> & Hos)]).
    + cbn. rewrite Hb', Hp'. auto.
    + cbn. rewrite Hb, Hp'. auto.
Qed.

(** X21. Whatever the program then calls on its consoles, in whatever order
    and with whatever failures, the streams preserved by the first [New]
    stay the streams that the process had at that moment; a bound console
    always has its two files as the streams of the process, and a console
    that is not bound has none. *)
Theorem calls_keep_preserved_streams (ops : list Call) (debugger : bool) (s : State) :
  preserved s = false ->
  let cs := calls ops (New debugger s) in
  consistent cs /\
  preserved_streams (snd cs) = (os_Stdin s, os_Stdout s, os_Stderr s).
Proof.
  intros Hp.
  assert (consistent (New debugger s) /\
          preserved_streams (snd (New debugger s)) =
            (os_Stdin s, os_Stdout s, os_Stderr s)) as Hstart.
  { unfold New, preserveIO, preserved_streams. rewrite Hp. cbn. auto. }
  revert Hstart. generalize (New debugger s). clear Hp.
  induction ops as [|op ops IH]; intros cs (Hc & Hs); cbn.
  - auto.
  - destruct (call_keeps_consistent op cs Hc) as (Hc' & Hs').
    apply IH. split; [exact Hc'|]. rewrite Hs'. exact Hs.
Qed.

Lemma calls_keep_preserved_streams_witness :
  let cs := calls [CallAttach None; CallNew true; CallSpawn; CallDetach; CallNew false;
                   CallSpawn; CallDetach]
                  (New false (start willing)) in
  consistent cs /\ preserved_streams (snd cs) = (1, 2, 3) /\
  os_Stdin (snd cs) = 1.
Proof.
  destruct (calls_keep_preserved_streams
              [CallAttach None; CallNew true; CallSpawn; CallDetach; CallNew false;
               CallSpawn; CallDetach] false (start willing) eq_refl) as (Hc & Hs).
  split; [exact Hc|]. split; [exact Hs|reflexivity].
Defined.

End console_facts.

(** ** The environment *)

(** X22. Of the environment of the process the program keeps the four
    variables [DEBUG], [SHOWALLFILES_CLI_ARGS], [SystemRoot] and [TMP], each
    with its value if it is set (also when the value is empty), and nothing
    else. *)
Theorem init_env_lookup (environ : gmap string string) (key : string) :
  init_env environ !! key =
    if decide (key ∈ env_keys) then environ !! key else None.
Proof.
  unfold init_env, env_keys. cbn [foldl].
  destruct (environ !! "DEBUG") as [v1|] eqn:E1;
    destruct (environ !! "SHOWALLFILES_CLI_ARGS") as [v2|] eqn:E2;
    destruct (environ !! "SystemRoot") as [v3|] eqn:E3;
    destruct (environ !! "TMP") as [v4|] eqn:E4;
    (destruct (decide (key ∈ ["DEBUG"; "SHOWALLFILES_CLI_ARGS"; "SystemRoot"; "TMP"]))
       as [Hin|Hnot];
     [ repeat (apply elem_of_cons in Hin as [->|Hin];
                 [rewrite ?lookup_insert_eq, ?lookup_insert_ne, ?lookup_empty by discriminate;
                  rewrite ?lookup_insert_eq; congruence|]);
       apply elem_of_nil in Hin; contradiction
     | rewrite ?lookup_insert_ne, ?lookup_empty; try reflexivity;
       intros <-; apply Hnot; set_solver ]).
Qed.

(** ** How the message loop ends *)

Section LoopEnd.
Context `{GoLib}.

(** X23. The first result of [GetMessage] on which the loop breaks decides
    what is reported. A result with [r1] zero is taken as the quit signal,
    also when it carries an error, and nothing is sent on the error channel;
    any other result with an error is a failure of the retrieval and is sent
    once. In both cases the goroutine ends, the watcher is idle, and the
    messages behind that result stay in the queue. *)
Theorem pump_breaks_on_first_result (w : World) (hook tid : Z) (m : Message)
    (q : list Message) :
  hook <> 0 ->
  queue_of tid w = m :: q ->
  leaves_loop m = true ->
  let w' := exec (WatchMessageLoop_pump hook tid) w in
  eval (WatchMessageLoop_pump hook tid) w = None /\
  errCh w' =
    errCh w ++
    (if m_r1 m =? 0 then []
     else match m_err m with
          | Some e => ["failed call to GetMessage: " +:+ e]
          | None => []
          end) /\
  queue_of tid w' = q /\
  armed w' = false /\
  (forall t, (hook, t) ∉ hooks w').
Proof.
  intros Hhook Hq Hm w'. subst w'. unfold WatchMessageLoop_pump.
  rewrite eval_bind, !exec_bind, eval_gets, exec_gets, Hq.
  cbn [length message_loop].
  rewrite !eval_bind, !exec_bind, eval_GetMessage, exec_GetMessage, Hq.
  cbn [head]. unfold leaves_loop in Hm.
  set (w1 := set_queues <[tid := q]> w).
  assert (forall w2 : World,
            data w2 = data w -> hooks w2 = hooks w -> queues w2 = queues w1 ->
            queue_of tid (exec (WatchMessageLoop_teardown hook) w2) = q /\
            armed (exec (WatchMessageLoop_teardown hook) w2) = false /\
            (forall t, (hook, t) ∉ hooks (exec (WatchMessageLoop_teardown hook) w2)) /\
            errCh (exec (WatchMessageLoop_teardown hook) w2) = errCh w2) as Hdown.
  { intros w2 Hd Hh Hqs.
    destruct (WatchMessageLoop_teardown_spec hook w2 Hhook) as (Hgone & _ & Hd').
    split_and!.
    - unfold WatchMessageLoop_teardown. destruct (Z.eqb_spec hook 0); [contradiction|].
      cbn. unfold queue_of. cbn. rewrite Hqs. apply queue_of_insert.
    - apply armed_false_without_hook. rewrite Hd', lookup_delete_ne by discriminate.
      apply lookup_delete_eq.
    - exact Hgone.
    - unfold WatchMessageLoop_teardown. destruct (Z.eqb_spec hook 0); [contradiction|].
      reflexivity. }
  destruct (m_r1 m =? 0).
  - unfold log_Debug.
    rewrite !eval_bind, !exec_bind, !eval_ret, !exec_ret, exec_logf.
    rewrite ?eval_bind, ?exec_bind, ?eval_ret, ?exec_ret.
    destruct (Hdown (set_logs (fun ls => ls ++ [Log DebugLevel "Received WM_QUIT" []]) w1))
      as (Hq' & Ha & Hg & He); try reflexivity.
    rewrite He, app_nil_r. auto.
  - destruct (m_err m) as [e|]; [|discriminate]. unfold send.
    rewrite !eval_bind, !exec_bind, !eval_ret, !exec_ret, exec_modify.
    rewrite ?eval_bind, ?exec_bind, ?eval_ret, ?exec_ret.
    destruct (Hdown (set_errCh (fun q0 => q0 ++ ["failed call to GetMessage: " +:+ e]) w1))
      as (Hq' & Ha & Hg & He); try reflexivity.
    rewrite He. auto.
Qed.

End LoopEnd.

Lemma pump_breaks_on_first_result_witness :
  let armed_world :=
    @schedule asciiLib 0 100
      (exec (@RefreshExplorerWindows asciiLib) (boot quiet (Some (DWORD 1)))) in
  let failure := {| m_r1 := -1; m_err := Some "Invalid window handle."; m_event := None |} in
  let w := set_queues <[100 := [failure; window_event 10]]> armed_world in
  let w' := exec (@WatchMessageLoop_pump asciiLib 1 100) w in
  eval (@WatchMessageLoop_pump asciiLib 1 100) w = None /\
  errCh w' = ["failed call to GetMessage: Invalid window handle."] /\
  queue_of 100 w' = [window_event 10] /\
  armed w' = false /\
  (forall t, (1, t) ∉ hooks w').
Proof.
  intros armed_world failure w w'.
  exact (@pump_breaks_on_first_result asciiLib w 1 100 failure [window_event 10]
           ltac:(discriminate) eq_refl eq_refl).
Defined.

(** What a successful [ToggleHidden] leaves as it was: the answers of the
    system, the tray, the goroutines and the error channel. *)
Lemma ToggleHidden_frame (w : World) (v : Z) :
  toggle_succeeds w = true ->
  stored_integer (reg_hidden w) = Some v ->
  sys (exec ToggleHidden w) = sys w /\
  tray (exec ToggleHidden w) = tray w /\
  goroutines (exec ToggleHidden w) = goroutines w /\
  errCh (exec ToggleHidden w) = errCh w.
Proof.
  intros Hok Hv. apply toggle_succeeds_spec in Hok as (Ho & Hr & Hs).
  unfold read_error in Hr. unfold_go. cbn. rewrite Ho. cbn.
  destruct (get_value_err (sys w)); [discriminate|]. cbn.
  destruct (reg_hidden w) as [[x|x|]|]; try discriminate; injection Hv as ->; cbn;
    rewrite Hs; cbn; auto.
Qed.

Section ClickToTray.
Context `{GoLib}.

(** X24. From the click to the tray. A click on the toggle entry whose
    [ToggleHidden] succeeds writes the opposite value but shows nothing: the
    tray is as before. The tray follows at the next wake-up of the registry
    watcher, which reads the value written, stores it and shows it: [Hide]
    and the icon of the visible state after a toggle from Hidden, [Show] and
    the icon of the hidden state after a toggle from any other value. *)
Theorem click_reaches_tray_on_wake (w : World) (hKey event v toggle : Z) :
  toggle_succeeds w = true ->
  stored_integer (reg_hidden w) = Some v ->
  notify_err (sys w) = None ->
  state.Get state.TMenuItem "menu_toggle" (data w) = (toggle, true) ->
  let w1 := exec (onReady_select ClickToggle) w in
  let w2 := exec (WatchRegistryKey_wake hKey event WAIT_OBJECT_0) w1 in
  let name := app_name (sys w) in
  tray w1 = tray w /\
  reg_hidden w2 = Some (DWORD (opposite v)) /\
  status w2 = (opposite v, true) /\
  tray w2 = tray w ++
    (if v =? statusHidden
     then [SetTitle toggle "Hide"; SetIcon icoVisible; SetTooltip (name +:+ " - Enabled")]
     else [SetTitle toggle "Show"; SetIcon icoHidden; SetTooltip (name +:+ " - Disabled")]).
Proof.
  intros Hok Hv Hn Ht w1 w2 name. subst w1 w2 name.
  assert (exec (onReady_select ClickToggle) w =
          exec ToggleHidden (exec (log_Debug "*Clicked Toggle*") w)) as ->
    by (unfold onReady_select; apply exec_bind).
  unfold log_Debug at 1 2 3 4. rewrite exec_logf.
  set (w0 := set_logs _ w).
  assert (toggle_succeeds w0 = true) as Hok0 by exact Hok.
  assert (stored_integer (reg_hidden w0) = Some v) as Hv0 by exact Hv.
  destruct (ToggleHidden_succeeds w0 v Hok0 Hv0) as (Hd1 & Hr1 & _).
  destruct (ToggleHidden_frame w0 v Hok0 Hv0) as (Hs1 & Ht1 & _).
  rewrite uint32_opposite in Hr1.
  set (w1 := exec ToggleHidden w0) in *.
  change (sys w0) with (sys w) in Hs1. change (tray w0) with (tray w) in Ht1.
  change (data w0) with (data w) in Hd1.
  apply toggle_succeeds_spec in Hok as (Ho & Hre & Hse).
  assert (read_failure w1 = None) as Hrf1.
  { unfold read_failure, read_error. rewrite Hs1, Ho.
    unfold read_error in Hre. destruct (get_value_err (sys w)); [discriminate|].
    rewrite Hr1. reflexivity. }
  assert (stored_integer (reg_hidden w1) = Some (opposite v)) as Hv1
    by (rewrite Hr1; reflexivity).
  destruct (wake_body w1 (opposite v) Hrf1 Hv1) as (Hs & Hd & Hr & _ & Htr & _).
  cbv zeta in Hs, Hd, Hr, Htr.
  destruct (read_failure_None w1 Hrf1) as (Ho1 & Hge1 & _).
  destruct (GetKeyValuePair_reads false w1 (opposite v) Ho1 Hge1 Hv1) as (Hev & _).
  unfold WatchRegistryKey_wake. change (WAIT_OBJECT_0 =? WAIT_OBJECT_0) with true.
  cbv iota.
  rewrite exec_bind, Hev. cbv iota beta.
  rewrite !exec_bind. unfold state_Set. rewrite !exec_modify.
  set (w4 := exec RefreshExplorerWindows _) in *.
  assert (notify_err (sys w4) = None) as Hn4 by (rewrite Hs, Hs1; exact Hn).
  destruct (WatchRegistryKey_arm_ok w4 hKey event Hn4) as (_ & ->).
  split; [exact Ht1|]. split; [rewrite Hr; exact Hr1|]. split.
  - unfold status. rewrite Hd. apply (Get_Set_eq state.TUint64 _ _ _ eq_refl).
  - rewrite Htr, Ht1, Hs1, Hd1. f_equal. unfold tray_for.
    rewrite !(Get_Set_eq state.TUint64 _ _ _ eq_refl).
    rewrite (Get_Set_ne state.TMenuItem state.TUint64) by discriminate.
    rewrite (Get_Set_ne state.TMenuItem state.TUint64) by discriminate.
    rewrite Ht. unfold opposite, statusHidden, statusVisible.
    destruct (v =? 2); reflexivity.
Qed.

End ClickToTray.

Lemma click_reaches_tray_on_wake_witness :
  let w := @schedule asciiLib 1 0 (exec (@onReady asciiLib) (boot quiet (Some (DWORD 1)))) in
  let w1 := exec (onReady_select ClickToggle) w in
  let w2 := exec (@WatchRegistryKey_wake asciiLib 6 7 WAIT_OBJECT_0) w1 in
  status w = (1, true) /\
  tray w1 = tray w /\
  reg_hidden w2 = Some (DWORD 2) /\
  status w2 = (2, true) /\
  tray w2 = tray w ++ [SetTitle 2 "Show"; SetIcon icoHidden;
                       SetTooltip "ShowAllFiles - Disabled"].
Proof.
  intros w w1 w2.
  destruct (@click_reaches_tray_on_wake asciiLib w 6 7 1 2 eq_refl eq_refl eq_refl eq_refl)
    as (Ht1 & Hr & Hst & Ht2).
  split; [reflexivity|]. split; [exact Ht1|]. split; [exact Hr|].
  split; [exact Hst|exact Ht2].
Defined.

(** ** Failures in the loop bodies of the listeners *)

Section LoopFailures.
Context `{GoLib}.






End LoopFailures.


